(** * repex: replica-exchange bookkeeping, checkpoint store and trajectory writer

    A shallow embedding of the Python sources

      - [repex/parallel_tempering.py]   (module [ParallelTempering])
      - [repex/hamiltonian_exchange.py] (module [HamiltonianExchange])
      - [repex/netcdf_io.py]            (module [NetCDF])
      - [repex/hdf_io.py]               (module [HDF5])

    Python exceptions are values of [exn]; a function that may raise returns
    a [result].  Objects that the code mutates in place and may share (OpenMM
    [System]s referenced from several thermodynamic states) live in an
    explicit store. *)

From Stdlib Require Import ZArith QArith Qround Qcanon List Ascii String Lia.
From Stdlib Require PrimFloat Uint63.
From stdpp Require Import base option numbers gmap strings functions list.

Open Scope string_scope.
Open Scope list_scope.

(** ** Exceptions and the error monad *)

Inductive exn : Type :=
  | ValueError (msg : string)
  | AssertionError (msg : string)
  | NameError (name : string)
  | UnboundLocalError (name : string)
  | TypeError (msg : string)
  | IndexError
  | KeyError (key : string)
  | ZeroDivisionError.

Definition result (A : Type) : Type := (exn + A)%type.

Definition ret {A} (a : A) : result A := inr a.
Definition raise {A} (e : exn) : result A := inl e.
Definition bind {A B} (m : result A) (k : A → result B) : result B :=
  match m with
  | inl e => inl e
  | inr a => k a
  end.

Notation "'let*' x ':=' m 'in' k" := (bind m (fun x => k))
  (at level 10, x pattern, m at level 100, k at level 200).

Definition fails {A} (r : result A) : Prop := ∃ e, r = inl e.

(** [for x in l: s = body(x, s)], stopping at the first exception. *)
Fixpoint for_each {A S} (l : list A) (body : A → S → result S) (s : S) : result S :=
  match l with
  | [] => ret s
  | x :: l' => bind (body x s) (for_each l' body)
  end.

(** [[f(x) for x in l]], stopping at the first exception. *)
Fixpoint list_comp {A B} (f : A → result B) (l : list A) : result (list B) :=
  match l with
  | [] => ret []
  | x :: l' => let* y := f x in let* ys := list_comp f l' in ret (y :: ys)
  end.

(** [range(n)] *)
Definition range (n : nat) : list nat := seq 0 n.

(** [l[i]] for an in-range, non-negative index. *)
Definition getitem {A} (l : list A) (i : nat) : result A :=
  match l !! i with
  | Some x => ret x
  | None => raise IndexError
  end.

(** [u[i, k] = v] on a two-dimensional array; numpy raises out of range. *)
Definition setitem2 {A} (u : list (list A)) (i k : nat) (v : A) : result (list (list A)) :=
  match u !! i with
  | Some row =>
      if decide (k < length row) then ret (<[i := <[k := v]> row]> u)
      else raise IndexError
  | None => raise IndexError
  end.

(** An array of shape [(n, n)]. *)
Definition square {A} (n : nat) (u : list (list A)) : Prop :=
  length u = n ∧ ∀ i row, u !! i = Some row → length row = n.

(** Two elements of [l] differ in [f]. *)
Definition differ_in {A B} (f : A → B) (l : list A) : Prop :=
  ∃ s0 s1, s0 ∈ l ∧ s1 ∈ l ∧ f s0 ≠ f s1.

(** ** Data model shared by the exchange classes *)

(** Python floats and unit-bearing quantities: an arbitrary carrier with the
    operations the code applies to them.  [fone] is the literal [1] / [1.0]. *)
Class Numeric (num : Type) : Type := {
  num_eq_dec :: EqDecision num;
  fone : num;
  fmul : num → num → num;
  fdiv : num → num → num;
  kB : num;
}.

(** The arithmetic that [ParallelTempering.create] applies to temperatures:
    [+], [-], [*] and [/], the literal [1.0], [float(i)], [np.exp] and
    [np.e].  The carrier is arbitrary and nothing is assumed of the
    operations: the floats of the interpreter round. *)
Class FloatArith (num : Type) : Type := {
  float_add : num → num → num;
  float_sub : num → num → num;
  float_mul : num → num → num;
  float_div : num → num → num;
  float_one : num;
  float_of_int : Z → num;
  np_exp : num → num;
  np_e : num;
}.

(** References to [simtk.openmm.System] objects. *)
Abbreviation loc := nat.

(** A force of an OpenMM system.  The code inspects forces only through the
    test [f.__class__.__name__ == "MonteCarloBarostat"], which is the
    constructor test here; every other force is kept as its class name and
    parameters. *)
Inductive Force (num : Type) : Type :=
  | MonteCarloBarostat (default_pressure : num) (temperature : num) (seed : Z)
  | OtherForce (class_name : string) (parameters : list num).
Arguments MonteCarloBarostat {num} _ _ _.
Arguments OtherForce {num} _ _.

Record System (num : Type) : Type := mkSystem {
  n_particles : nat;
  forces : list (Force num);
}.
Arguments mkSystem {num} _ _.
Arguments n_particles {num} _.
Arguments forces {num} _.

(** [ThermodynamicState]: the system is held by reference, so that two
    states may share one system object. *)
Record ThermodynamicState (num : Type) : Type := mkState {
  system : loc;
  temperature : num;
  pressure : option num;
}.
Arguments mkState {num} _ _ _.
Arguments system {num} _.
Arguments temperature {num} _.
Arguments pressure {num} _.

(** [SamplerState]: the cached potential energy is the only field read by
    the code modelled here. *)
Record SamplerState (num : Type) : Type := mkSampler {
  potential_energy : num;
}.
Arguments mkSampler {num} _.
Arguments potential_energy {num} _.

(** The store of system objects, and computations that may mutate it.  An
    exception leaves the store as it was when the exception was raised. *)
Abbreviation heap num := (loc → System num).
Definition stateful (num A : Type) : Type := heap num → result A * heap num.

Definition sbind {num A B} (m : stateful num A) (k : A → stateful num B) : stateful num B :=
  fun h => match m h with
           | (inl e, h') => (inl e, h')
           | (inr a, h') => k a h'
           end.

(** A computation that only reads the store. *)
Definition reading {num A} (f : heap num → result A) : stateful num A :=
  fun h => (f h, h).

#[global] Instance Force_eq_dec {num} `{EqDecision num} : EqDecision (Force num).
Proof. solve_decision. Defined.
#[global] Instance System_eq_dec {num} `{EqDecision num} : EqDecision (System num).
Proof. solve_decision. Defined.

(** [system.__getstate__()]: the serialised system.  Serialisation is taken
    to be injective, so comparing two serialisations is comparing the two
    system values. *)
Definition __getstate__ {num} (s : System num) : System num := s.

(** ** repex/hamiltonian_exchange.py *)

Module HamiltonianExchange.

(** [HamiltonianExchange._check_self_consistency] *)
Definition _check_self_consistency {num} `{Numeric num}
    (thermodynamic_states : list (ThermodynamicState num)) : result unit :=
  let* _ :=
    for_each thermodynamic_states (fun s0 _ =>
      for_each thermodynamic_states (fun s1 _ =>
        if decide (pressure s0 ≠ pressure s1)
        then raise (ValueError "For HamiltonianExchange, ThermodynamicState objects cannot have different pressures!")
        else ret tt) tt) tt in
  for_each thermodynamic_states (fun s0 _ =>
    for_each thermodynamic_states (fun s1 _ =>
      if decide (temperature s0 ≠ temperature s1)
      then raise (ValueError "For HamiltonianExchange, ThermodynamicState objects cannot have different temperatures!")
      else ret tt) tt) tt.

(** [HamiltonianExchange.__init__].  [super_init] is the constructor of the
    base class [ReplicaExchange], which is not part of these sources. *)
Definition __init__ {num E} `{Numeric num}
    (super_init : list (ThermodynamicState num) → result E)
    (thermodynamic_states : list (ThermodynamicState num)) : result E :=
  let* _ := _check_self_consistency thermodynamic_states in
  super_init thermodynamic_states.

(** [HamiltonianExchange.create].  [super_create] is the class method
    [create] of the base class, which is not part of these sources. *)
Definition create {num E C}
    (super_create : list (ThermodynamicState num) → C → result E)
    (reference_state : ThermodynamicState num) (systems : list loc) (coordinates : C)
    : result E :=
  let thermodynamic_states :=
    (fun system => mkState system (temperature reference_state) (pressure reference_state))
      <$> systems in
  super_create thermodynamic_states coordinates.

End HamiltonianExchange.

(** ** repex/parallel_tempering.py: [IgnoreBarostat] *)

Module IgnoreBarostat.

Record t (num : Type) : Type := mk {
  num_barostats : nat;
  thermodynamic_states : list (ThermodynamicState num);
  temperatures : list num;
  seeds : list Z;
}.
Arguments mk {num} _ _ _ _.
Arguments num_barostats {num} _.
Arguments thermodynamic_states {num} _.
Arguments temperatures {num} _.
Arguments seeds {num} _.

Definition is_barostat {num} (f : Force num) : bool :=
  match f with
  | MonteCarloBarostat _ _ _ => true
  | OtherForce _ _ => false
  end.

(** [IgnoreBarostat.get_num_barostats] *)
Definition get_num_barostats {num} (h : heap num) (state : ThermodynamicState num) : result nat :=
  let forces := forces (h (system state)) in
  let num_barostats :=
    fold_left (fun n f => if is_barostat f then n + 1 else n) forces 0 in
  if decide (1 < num_barostats) then raise (ValueError "Found multiple barostats!")
  else ret num_barostats.

(** [IgnoreBarostat.get_barostat_state]: the loop leaves [temperature] and
    [seed] bound to the values of the last barostat, and unbound when the
    system has none. *)
Definition get_barostat_state {num} (self : t num) (h : heap num)
    (state : ThermodynamicState num) : result (num * Z) :=
  if decide (num_barostats self <= 0) then raise (ValueError "Found no barostats!")
  else
    let forces := forces (h (system state)) in
    let bound :=
      fold_left (fun acc f =>
        match f with
        | MonteCarloBarostat _ temperature seed => Some (temperature, seed)
        | OtherForce _ _ => acc
        end) forces None in
    match bound with
    | Some ts => ret ts
    | None => raise (UnboundLocalError "temperature")
    end.

Definition set_force {num} (temperature : num) (seed : Z) (f : Force num) : Force num :=
  match f with
  | MonteCarloBarostat p _ _ => MonteCarloBarostat p temperature seed
  | OtherForce c ps => OtherForce c ps
  end.

Definition set_system {num} (temperature : num) (seed : Z) (s : System num) : System num :=
  {| n_particles := n_particles s; forces := set_force temperature seed <$> forces s |}.

(** [IgnoreBarostat.set_barostat_state]: mutates the system object that
    [state.system] refers to. *)
Definition set_barostat_state {num} (self : t num) (state : ThermodynamicState num)
    (temperature : num) (seed : Z) : stateful num unit :=
  fun h =>
    if decide (num_barostats self <= 0) then (raise (ValueError "Found no barostats!"), h)
    else (ret tt, <[system state := set_system temperature seed (h (system state))]> h).

(** [ndarray.min()] and [ndarray.max()] of a non-empty array. *)
Definition array_min (n0 : nat) (l : list nat) : nat := foldr Nat.min n0 l.
Definition array_max (n0 : nat) (l : list nat) : nat := foldr Nat.max n0 l.

(** [IgnoreBarostat.__init__]; numpy refuses the minimum of an empty array. *)
Definition __init__ {num} (h : heap num)
    (thermodynamic_states : list (ThermodynamicState num)) : result (t num) :=
  let* num_barostats := list_comp (get_num_barostats h) thermodynamic_states in
  match num_barostats with
  | [] => raise (ValueError "zero-size array to reduction operation minimum which has no identity")
  | n0 :: rest =>
      if decide (array_min n0 rest = array_max n0 rest)
      then ret (mk n0 thermodynamic_states [] [])
      else raise (AssertionError "")
  end.

(** The body of the loop of [__enter__] for one state. *)
Definition enter_state {num} `{Numeric num} (state : ThermodynamicState num)
    (self : t num) : stateful num (t num) :=
  sbind (reading (fun h => get_barostat_state self h state)) (fun '(temperature, seed) =>
  let self := mk (num_barostats self) (thermodynamic_states self)
                 (temperatures self ++ [temperature]) (seeds self ++ [seed]) in
  sbind (set_barostat_state self state fone 1) (fun _ =>
  sbind (reading (fun h => get_barostat_state self h state)) (fun _ =>
  fun h => (ret self, h)))).

Fixpoint sfor_each {num A S} (l : list A) (body : A → S → stateful num S) (s : S) : stateful num S :=
  match l with
  | [] => fun h => (ret s, h)
  | x :: l' => sbind (body x s) (sfor_each l' body)
  end.

(** [IgnoreBarostat.__enter__] *)
Definition __enter__ {num} `{Numeric num} (self : t num) : stateful num (t num) :=
  let self := mk (num_barostats self) (thermodynamic_states self) [] [] in
  if decide (0 < num_barostats self)
  then sfor_each (thermodynamic_states self) enter_state self
  else fun h => (ret self, h).

(** [enumerate(l)] *)
Definition enumerate {A} (l : list A) : list (nat * A) := zip (seq 0 (length l)) l.

(** [IgnoreBarostat.__exit__]; its return value [False] tells the [with]
    statement not to suppress an exception of the body. *)
Definition __exit__ {num} (self : t num) : stateful num bool :=
  sbind
    (if decide (0 < num_barostats self)
     then sfor_each (enumerate (thermodynamic_states self)) (fun '(k, state) _ =>
            sbind (reading (fun _ => getitem (temperatures self) k)) (fun temperature =>
            sbind (reading (fun _ => getitem (seeds self) k)) (fun seed =>
            set_barostat_state self state temperature seed))) tt
     else fun h => (ret tt, h))
    (fun _ h => (ret false, h)).

(** [with IgnoreBarostat(thermodynamic_states): body].  The statement
    yields [Some a] when the body returns [a], re-raises an exception of the
    body unless [__exit__] returns [True], and yields [None] when an
    exception has been suppressed.  [__exit__] is not called when
    [__init__] or [__enter__] raises. *)
Definition with_ {num A} `{Numeric num} (thermodynamic_states : list (ThermodynamicState num))
    (body : stateful num A) : stateful num (option A) :=
  fun h =>
    match __init__ h thermodynamic_states with
    | inl e => (inl e, h)
    | inr self =>
        match __enter__ self h with
        | (inl e, h1) => (inl e, h1)
        | (inr self, h1) =>
            let '(r, h2) := body h1 in
            match __exit__ self h2 with
            | (inl e, h3) => (inl e, h3)
            | (inr suppress, h3) =>
                match r with
                | inr a => (ret (Some a), h3)
                | inl e => if suppress then (ret None, h3) else (raise e, h3)
                end
            end
        end
    end.

End IgnoreBarostat.

(** ** repex/parallel_tempering.py: [ParallelTempering] *)

Module ParallelTempering.

Record Engine (num : Type) : Type := mkEngine {
  n_states : nat;
  thermodynamic_states : list (ThermodynamicState num);
  sampler_states : list (SamplerState num);
  u_kl : list (list num);
}.
Arguments mkEngine {num} _ _ _ _.
Arguments n_states {num} _.
Arguments thermodynamic_states {num} _.
Arguments sampler_states {num} _.
Arguments u_kl {num} _.

(** [ParallelTempering._check_self_consistency] *)
Definition _check_self_consistency {num} `{Numeric num}
    (thermodynamic_states : list (ThermodynamicState num)) : stateful num unit :=
  sbind
    (reading (fun _ =>
      for_each thermodynamic_states (fun s0 _ =>
        for_each thermodynamic_states (fun s1 _ =>
          if decide (pressure s0 ≠ pressure s1)
          then raise (ValueError "For ParallelTempering, ThermodynamicState objects cannot have different pressures!")
          else ret tt) tt) tt))
    (fun _ =>
  sbind
    (IgnoreBarostat.with_ thermodynamic_states
      (reading (fun h =>
        for_each thermodynamic_states (fun s0 _ =>
          for_each thermodynamic_states (fun s1 _ =>
            if decide (__getstate__ (h (system s0)) ≠ __getstate__ (h (system s1)))
            then raise (ValueError "For ParallelTempering, ThermodynamicState objects cannot have different systems!")
            else ret tt) tt) tt)))
    (fun _ h => (ret tt, h))).

(** [ParallelTempering.__init__].  [super_init] is the constructor of the
    base class [ReplicaExchange], which is not part of these sources. *)
Definition __init__ {num E} `{Numeric num}
    (super_init : list (ThermodynamicState num) → stateful num E)
    (thermodynamic_states : list (ThermodynamicState num)) : stateful num E :=
  sbind (_check_self_consistency thermodynamic_states) (fun _ =>
  super_init thermodynamic_states).

(** [ParallelTempering._compute_energies] *)
Definition _compute_energies {num} `{Numeric num} (self : Engine num) : result (Engine num) :=
  let* u :=
    for_each (range (n_states self)) (fun replica_index u =>
      let* sampler := getitem (sampler_states self) replica_index in
      let potential_energy := potential_energy sampler in
      for_each (range (n_states self)) (fun state_index u =>
        let* state := getitem (thermodynamic_states self) state_index in
        let beta := fdiv fone (fmul kB (temperature state)) in
        setitem2 u replica_index state_index (fmul beta potential_energy)) u)
      (u_kl self) in
  ret (mkEngine (n_states self) (thermodynamic_states self) (sampler_states self) u).

(** The names bound at module level in [parallel_tempering.py]: by its
    [import] statements ([import repex.replica_exchange] binds [repex]
    only), its assignments and its class definitions. *)
Definition module_globals : list string :=
  ["time"; "np"; "ThermodynamicState"; "repex"; "ReplicaExchange"; "netcdf_io";
   "SamplerState"; "logging"; "logger"; "kB"; "ParallelTempering"; "IgnoreBarostat"].

(** Evaluating a global name that is not a builtin. *)
Definition global_name (name : string) : result unit :=
  if decide (name ∈ module_globals) then ret tt
  else raise (NameError name).

(** The expression of line 125 for the index [i], with the operations in
    the order in which Python applies them: [T_min + (((T_max - T_min) *
    (np.exp(float(i) / float(n_temps-1)) - 1.0)) / (np.e - 1.0))]. *)
Definition ladder_entry {num} `{FloatArith num} (T_min T_max : num) (n_temps : Z) (i : nat)
    : num :=
  float_add T_min
    (float_div
       (float_mul (float_sub T_max T_min)
          (float_sub
             (np_exp (float_div (float_of_int (Z.of_nat i)) (float_of_int (n_temps - 1))))
             float_one))
       (float_sub np_e float_one)).

(** The list comprehension of line 125; [float(i) / float(n_temps-1)]
    raises on a zero divisor. *)
Definition temperature_ladder {num} `{FloatArith num} (T_min T_max : num) (n_temps : Z)
    : result (list num) :=
  list_comp (fun i : nat =>
      if decide (n_temps - 1 = 0)%Z then raise ZeroDivisionError
      else ret (ladder_entry T_min T_max n_temps i))
    (range (Z.to_nat n_temps)).

(** Lines 121-127 of [ParallelTempering.create]: the temperatures and
    [n_temps] after the [if]/[elif]/[else]. *)
Definition create_temperatures {num} `{FloatArith num} (T_min T_max : option num)
    (temperatures : option (list num)) (n_temps : option Z) : result (list num * Z) :=
  match temperatures with
  | Some temperatures => ret (temperatures, Z.of_nat (length temperatures))
  | None =>
      match T_min, T_max, n_temps with
      | Some T_min, Some T_max, Some n_temps =>
          let* temperatures := temperature_ladder T_min T_max n_temps in
          ret (temperatures, n_temps)
      | _, _, _ =>
          raise (ValueError "Either 'temperatures' or 'T_min', 'T_max', and 'n_temps' must be provided.")
      end
  end.

(** [ParallelTempering.create].  [rest] stands for lines 131-145 once the
    name [replica_exchange] has been resolved: [validate_coordinates], the
    database, the sampler states, [cls(...)] and [_run_iteration_zero];
    [validate_coordinates], [SamplerState] and [_run_iteration_zero] are not
    part of these sources. *)
Definition create {num E C : Type} `{FloatArith num}
    (rest : list (ThermodynamicState num) → C → stateful num E)
    (system : loc) (coordinates : C) (T_min T_max : option num)
    (temperatures : option (list num)) (n_temps : option Z) (pressure : option num)
    : stateful num E :=
  fun h =>
    match
      (let* (temperatures, n_temps) := create_temperatures T_min T_max temperatures n_temps in
       let* thermodynamic_states :=
         list_comp (fun i =>
             let* temperature := getitem temperatures i in
             ret (mkState system temperature pressure))
           (range (Z.to_nat n_temps)) in
       let* _ := global_name "replica_exchange" in
       ret thermodynamic_states)
    with
    | inl e => (inl e, h)
    | inr thermodynamic_states => rest thermodynamic_states coordinates h
    end.

End ParallelTempering.

(** ** repex/netcdf_io.py *)

Module NetCDF.

(** Python values that a run option can take. *)
Inductive pyval (F64 Unit : Type) : Type :=
  | PNone
  | PBool (b : bool)
  | PInt (z : Z)
  | PFloat (x : F64)
  | PStr (s : string)
  | PQuantity (value : pyval F64 Unit) (unit : Unit).
Arguments PNone {F64 Unit}.
Arguments PBool {F64 Unit} _.
Arguments PInt {F64 Unit} _.
Arguments PFloat {F64 Unit} _.
Arguments PStr {F64 Unit} _.
Arguments PQuantity {F64 Unit} _ _.

(** The content of a scalar NetCDF variable. *)
Inductive ncval (F64 : Type) : Type :=
  | NcInt (z : Z)
  | NcDouble (x : F64)
  | NcStr (s : string).
Arguments NcInt {F64} _.
Arguments NcDouble {F64} _.
Arguments NcStr {F64} _.

(** One row (one index of the [iteration] dimension) of a variable. *)
Inductive ncarray (F32 : Type) : Type :=
  | Floats3 (a : list (list (list F32)))
  | Floats2 (a : list (list F32))
  | Floats1 (a : list F32)
  | Ints2 (a : list (list Z))
  | Ints1 (a : list Z)
  | Text (s : string).
Arguments Floats3 {F32} _.
Arguments Floats2 {F32} _.
Arguments Floats1 {F32} _.
Arguments Ints2 {F32} _.
Arguments Ints1 {F32} _.
Arguments Text {F32} _.

(** Variables of NetCDF type ['f'] hold 32-bit floats: [to32] is the
    conversion done by an assignment to such a variable, [to64] is
    [astype(np.float64)], [fill32] the fill value of unwritten entries. *)
Class Storage (F64 F32 : Type) : Type := {
  to32 : F64 → F32;
  to64 : F32 → F64;
  fill32 : F32;
}.

(** What the code asks of the Python interpreter and of [simtk.unit]:
    [unit_str u] is [str(u)], [eval_unit s] is [eval(s, vars(units))], and
    [eval_call t v] is [eval(t + '(' + repr(v) + ')')] for the calls that
    [eval_type_call] below does not spell out. *)
Class Interpreter (F64 Unit : Type) : Type := {
  unit_str : Unit → string;
  eval_unit : string → result Unit;
  eval_call : string → ncval F64 → result (pyval F64 Unit);
}.

(** What the code asks of [ThermodynamicState], which is not part of these
    sources: the temperature in kelvin, the pressure in atmospheres ([None]
    when the state is not isobaric), the serialised system,
    [is_compatible_with], and the state rebuilt from its stored fields. *)
Class ThermodynamicStateAPI (State F64 F32 : Type) : Type := {
  state_temperature : State → F64;
  state_pressure : State → option F64;
  state_system : State → string;
  is_compatible_with : State → State → bool;
  restore_state : F32 → option F32 → string → State;
}.

Section Database.
Context {F64 F32 Unit State : Type}.
Context `{!Storage F64 F32} `{!Interpreter F64 Unit} `{!ThermodynamicStateAPI State F64 F32}.

Record OptVar : Type := mkOptVar {
  ov_value : ncval F64;
  ov_type : string;
  ov_units : option string;
}.

Record NcVariable : Type := mkVariable {
  var_fill : ncarray F32;
  var_rows : gmap nat (ncarray F32);
}.

Record StatesGroup : Type := mkStatesGroup {
  sg_n_states : nat;
  sg_temperatures : list F32;
  sg_pressures : option (list F32);
  sg_systems : list string;
}.

(** The file: the current length of the unlimited dimension [iteration],
    the dimensions [replica] and [atom], the variables of the root group by
    name, and the two groups of static records. *)
Record Dataset : Type := mkDataset {
  dim_iteration : nat;
  dim_replica : nat;
  dim_atom : nat;
  variables : gmap string NcVariable;
  grp_thermodynamic_states : option StatesGroup;
  grp_options : option (list (string * OptVar));
}.

Definition options_to_store : list string :=
  ["collision_rate"; "constraint_tolerance"; "timestep"; "nsteps_per_iteration";
   "number_of_iterations"; "equilibration_timestep";
   "number_of_equilibration_iterations"; "title"; "minimize";
   "replica_mixing_scheme"; "online_analysis"; "show_mixing_statistics"].

(** [type(v).__name__] *)
Definition type_name (v : pyval F64 Unit) : string :=
  match v with
  | PNone => "NoneType"
  | PBool _ => "bool"
  | PInt _ => "int"
  | PFloat _ => "float"
  | PStr _ => "str"
  | PQuantity _ _ => "Quantity"
  end.

(** The body of the loop of [_store_options] for one option.  A unit
    object is true in [if option_unit:]; [createVariable] accepts the types
    [int], [float] and [str] only. *)
Definition store_option (option_value : pyval F64 Unit) : result OptVar :=
  let (option_unit, option_value) :=
    match option_value with
    | PQuantity value unit => (Some unit, value)
    | _ => (None, option_value)
    end in
  let option_type := type_name option_value in
  let option_value :=
    match option_value with
    | PBool b => PInt (if b then 1 else 0)
    | _ => option_value
    end in
  let* stored :=
    match option_value with
    | PStr s => ret (NcStr s)
    | PInt z => ret (NcInt z)
    | PFloat x => ret (NcDouble x)
    | _ => raise (TypeError "illegal primitive data type")
    end in
  ret (mkOptVar stored option_type (unit_str <$> option_unit)).

(** [NetCDFDatabase._store_options] *)
Definition _store_options (options : gmap string (pyval F64 Unit)) (nc : Dataset) : result Dataset :=
  let* ncgrp_options :=
    for_each options_to_store (fun option_name ncgrp_options =>
      let option_value := default PNone (options !! option_name) in
      let* ncvar := store_option option_value in
      ret (ncgrp_options ++ [(option_name, ncvar)])) [] in
  ret (mkDataset (dim_iteration nc) (dim_replica nc) (dim_atom nc) (variables nc)
         (grp_thermodynamic_states nc) (Some ncgrp_options)).

(** [eval(type_name + '(' + repr(option_value) + ')')] *)
Definition eval_type_call (type_name : string) (option_value : ncval F64)
    : result (pyval F64 Unit) :=
  match option_value with
  | NcInt z =>
      if decide (type_name = "int") then ret (PInt z)
      else if decide (type_name = "bool") then ret (PBool (negb (z =? 0)%Z))
      else eval_call type_name option_value
  | NcDouble x =>
      if decide (type_name = "float") then ret (PFloat x)
      else eval_call type_name option_value
  | NcStr s =>
      if decide (type_name = "str") then ret (PStr s)
      else eval_call type_name option_value
  end.

(** The three lines of [load_options] that turn the [units] attribute into
    a unit. *)
Definition read_unit (option_unit_name : string) : result Unit :=
  match option_unit_name with
  | EmptyString => raise IndexError
  | String c _ =>
      let option_unit_name :=
        if decide (c = "/"%char) then ("1" ++ option_unit_name)%string else option_unit_name in
      eval_unit option_unit_name
  end.

(** The body of the loop of [load_options] for one variable. *)
Definition load_option (option_ncvar : OptVar) : result (pyval F64 Unit) :=
  let option_value := ov_value option_ncvar in
  let type_name := ov_type option_ncvar in
  let* option_value := eval_type_call type_name option_value in
  match ov_units option_ncvar with
  | Some option_unit_name =>
      let* option_unit := read_unit option_unit_name in
      ret (PQuantity option_value option_unit)
  | None => ret option_value
  end.

(** The option values of the round trip: a boolean, an integer, a float or a
    string, or a quantity whose magnitude is one of these and whose unit is
    read back from its name by [simtk.unit]. *)
Definition is_scalar (v : pyval F64 Unit) : bool :=
  match v with
  | PBool _ | PInt _ | PFloat _ | PStr _ => true
  | PNone | PQuantity _ _ => false
  end.

Definition scalar_option (v : pyval F64 Unit) : Prop :=
  match v with
  | PQuantity value unit => is_scalar value = true ∧ read_unit (unit_str unit) = inr unit
  | _ => is_scalar v = true
  end.

(** [NetCDFDatabase.load_options] *)
Definition load_options (nc : Dataset) : result (gmap string (pyval F64 Unit)) :=
  match grp_options nc with
  | None => raise (ValueError "Options not found in NetCDF file!")
  | Some ncgrp_options =>
      for_each ncgrp_options (fun '(option_name, option_ncvar) options =>
        let* option_value := load_option option_ncvar in
        ret (<[option_name := option_value]> options)) ∅
  end.

(** [NetCDFDatabase.load_thermodynamic_states] *)
Definition load_thermodynamic_states (nc : Dataset) : result (list State) :=
  match grp_thermodynamic_states nc with
  | None => raise (ValueError "thermodynamics_states not found in database!")
  | Some ncgrp_stateinfo =>
      let n_states := sg_n_states ncgrp_stateinfo in
      list_comp (fun state_index =>
          let* temperature := getitem (sg_temperatures ncgrp_stateinfo) state_index in
          let* pressure :=
            match sg_pressures ncgrp_stateinfo with
            | Some pressures => let* p := getitem pressures state_index in ret (Some p)
            | None => ret None
            end in
          let* serialized := getitem (sg_systems ncgrp_stateinfo) state_index in
          ret (restore_state temperature pressure serialized))
        (range n_states)
  end.

(** [self.ncfile.variables[name]] *)
Definition variable (nc : Dataset) (name : string) : result NcVariable :=
  match variables nc !! name with
  | Some v => ret v
  | None => raise (KeyError name)
  end.

(** An index [i] into an axis of length [dim]: negative indices count from
    the end. *)
Definition index (dim : nat) (i : Z) : result nat :=
  if decide (0 ≤ i < Z.of_nat dim)%Z then ret (Z.to_nat i)
  else if decide (- Z.of_nat dim ≤ i < 0)%Z then ret (Z.to_nat (Z.of_nat dim + i))
  else raise IndexError.

(** [self.ncfile.variables[name][i]]: a row that was never written reads as
    the fill value. *)
Definition getrow (nc : Dataset) (name : string) (i : Z) : result (ncarray F32) :=
  let* var := variable nc name in
  let* k := index (dim_iteration nc) i in
  ret (default (var_fill var) (var_rows var !! k)).

(** Row [k] of the variable [name] as the file holds it. *)
Definition stored_row (nc : Dataset) (name : string) (k : nat) : option (ncarray F32) :=
  match variables nc !! name with
  | Some var => Some (default (var_fill var) (var_rows var !! k))
  | None => None
  end.

(** [self.ncfile.variables[name][i] = row]: [iteration] is the unlimited
    dimension, which a write at or beyond its length extends. *)
Definition setrow (nc : Dataset) (name : string) (i : Z) (row : ncarray F32) : result Dataset :=
  let* var := variable nc name in
  let* k := if decide (0 ≤ i)%Z then ret (Z.to_nat i) else index (dim_iteration nc) i in
  ret (mkDataset (Nat.max (dim_iteration nc) (S k)) (dim_replica nc) (dim_atom nc)
         (<[name := mkVariable (var_fill var) (<[k := row]> (var_rows var))]> (variables nc))
         (grp_thermodynamic_states nc) (grp_options nc)).

Definition as_floats3 (row : ncarray F32) : result (list (list (list F32))) :=
  match row with
  | Floats3 a => ret a
  | _ => raise (TypeError "array of another shape")
  end.

Definition as_floats2 (row : ncarray F32) : result (list (list F32)) :=
  match row with
  | Floats2 a => ret a
  | _ => raise (TypeError "array of another shape")
  end.

Definition as_ints1 (row : ncarray F32) : result (list Z) :=
  match row with
  | Ints1 a => ret a
  | _ => raise (TypeError "array of another shape")
  end.

(** Assignment of a float array to a variable of type ['f'], and
    [astype(np.float64)]. *)
Definition store2 (a : list (list F64)) : list (list F32) :=
  (fun row : list F64 => to32 <$> row) <$> a.
Definition store3 (a : list (list (list F64))) : list (list (list F32)) :=
  store2 <$> a.
Definition astype64 (a : list (list F32)) : list (list F64) :=
  (fun row : list F32 => to64 <$> row) <$> a.

(** The keyword arguments of [output_iteration]: a record of exactly the
    required keys, which is what the assertion on the keys demands. *)
Record IterationRecord : Type := mkIterationRecord {
  kw_iteration : Z;
  kw_coordinates : list (list (list F64));
  kw_box_vectors : list (list (list F64));
  kw_volumes : list F64;
  kw_replica_states : list Z;
  kw_energies : list (list F64);
  kw_proposed : list (list Z);
  kw_accepted : list (list Z);
  kw_time : string;
}.

(** [NetCDFDatabase.output_iteration] *)
Definition output_iteration (nc : Dataset) (kwargs : IterationRecord) : result Dataset :=
  let iteration := kw_iteration kwargs in
  let* nc := setrow nc "positions" iteration (Floats3 (store3 (kw_coordinates kwargs))) in
  let* nc := setrow nc "box_vectors" iteration (Floats3 (store3 (kw_box_vectors kwargs))) in
  let* nc := setrow nc "volumes" iteration (Floats1 (to32 <$> kw_volumes kwargs)) in
  let* nc := setrow nc "states" iteration (Ints1 (kw_replica_states kwargs)) in
  let* nc := setrow nc "energies" iteration (Floats2 (store2 (kw_energies kwargs))) in
  let* nc := setrow nc "proposed" iteration (Ints2 (kw_proposed kwargs)) in
  let* nc := setrow nc "accepted" iteration (Ints2 (kw_accepted kwargs)) in
  let* nc := setrow nc "timestamp" iteration (Text (kw_time kwargs)) in
  ret nc.

(** [NetCDFDatabase._load_last_iteration]; [shape[0]], [shape[1]] and
    [shape[2]] of the variable [positions] are the lengths of the dimensions
    [iteration], [replica] and [atom]. *)
Definition _load_last_iteration (nc : Dataset)
    : result (list (list (list F64)) * list (list (list F64)) * list (list F32) * Z) :=
  let* _ := variable nc "positions" in
  let iteration := (Z.of_nat (dim_iteration nc) - 1)%Z in
  let n_states := dim_replica nc in
  let* replica_coordinates :=
    list_comp (fun replica_index =>
        let* row := getrow nc "positions" iteration in
        let* a := as_floats3 row in
        let* x := getitem a replica_index in
        ret (astype64 x))
      (range n_states) in
  let* replica_box_vectors :=
    list_comp (fun replica_index =>
        let* row := getrow nc "box_vectors" iteration in
        let* a := as_floats3 row in
        let* x := getitem a replica_index in
        ret (astype64 x))
      (range n_states) in
  let* replica_states := bind (getrow nc "states" iteration) as_ints1 in
  let* u_kl := bind (getrow nc "energies" iteration) as_floats2 in
  let iteration := (iteration + 1)%Z in
  ret (replica_coordinates, replica_box_vectors, u_kl, iteration).

(** [self.ncfile.variables[name][:]]: every row of the variable. *)
Definition all_rows (nc : Dataset) (name : string) : result (list (ncarray F32)) :=
  let* var := variable nc name in
  ret ((fun k => default (var_fill var) (var_rows var !! k)) <$> range (dim_iteration nc)).

(** The properties [NetCDFDatabase.proposed], [accepted] and [states]. *)
Definition proposed (nc : Dataset) : result (list (ncarray F32)) := all_rows nc "proposed".
Definition accepted (nc : Dataset) : result (list (ncarray F32)) := all_rows nc "accepted".
Definition states (nc : Dataset) : result (list (ncarray F32)) := all_rows nc "states".

(** The attributes of a [NetCDFDatabase]; those that only
    [restore_database] sets are optional. *)
Record Database : Type := mkDatabase {
  ncfile : Dataset;
  options : gmap string (pyval F64 Unit);
  title : string;
  thermodynamic_states : list State;
  coordinates : list (list (list F64));
  replica_box_vectors : option (list (list (list F64)));
  u_kl : option (list (list F32));
  iteration : option Z;
}.

(** [NetCDFDatabase.restore_database] *)
Definition restore_database (nc : Dataset) (title : string) : result Database :=
  let* thermodynamic_states := load_thermodynamic_states nc in
  let* options := load_options nc in
  let* (coordinates, replica_box_vectors, u_kl, iteration) := _load_last_iteration nc in
  ret (mkDatabase nc options title thermodynamic_states coordinates
         (Some replica_box_vectors) (Some u_kl) (Some iteration)).

(** [NetCDFDatabase._store_thermodynamic_states]; dividing the pressure
    [None] of a later state by a unit is a type error. *)
Definition _store_thermodynamic_states (states : list State) (nc : Dataset) : result Dataset :=
  let n_states := length states in
  let temperatures := (fun s => to32 (state_temperature s)) <$> states in
  let* state0 := getitem states 0 in
  let* pressures :=
    match state_pressure state0 with
    | Some _ =>
        let* ps := list_comp (fun s =>
            match state_pressure s with
            | Some p => ret (to32 p)
            | None => raise (TypeError "unsupported operand type(s) for /")
            end) states in
        ret (Some ps)
    | None => ret None
    end in
  let systems := state_system <$> states in
  ret (mkDataset (dim_iteration nc) (dim_replica nc) (dim_atom nc) (variables nc)
         (Some (mkStatesGroup n_states temperatures pressures systems)) (grp_options nc)).

(** The variables created by [_initialize_netcdf], each with the fill row
    of its shape. *)
Definition new_variables (n_replicas n_atoms : nat) : gmap string NcVariable :=
  let f1 := replicate n_replicas fill32 in
  let f2 := replicate n_replicas f1 in
  let i2 := replicate n_replicas (replicate n_replicas 0%Z) in
  list_to_map
    [("positions", mkVariable (Floats3 (replicate n_replicas (replicate n_atoms (replicate 3 fill32)))) ∅);
     ("states", mkVariable (Ints1 (replicate n_replicas 0%Z)) ∅);
     ("energies", mkVariable (Floats2 f2) ∅);
     ("proposed", mkVariable (Ints2 i2) ∅);
     ("accepted", mkVariable (Ints2 i2) ∅);
     ("box_vectors", mkVariable (Floats3 (replicate n_replicas (replicate 3 (replicate 3 fill32)))) ∅);
     ("volumes", mkVariable (Floats1 f1) ∅);
     ("timestamp", mkVariable (Text "") ∅)].

(** [NetCDFDatabase._initialize_netcdf] on the file just opened for
    writing.  The group [timings] holds no state that the code here reads. *)
Definition _initialize_netcdf (options : gmap string (pyval F64 Unit))
    (states : list State) (coordinates : list (list (list F64))) : result Dataset :=
  let n_replicas := length states in
  let* coordinates0 := getitem coordinates 0 in
  let n_atoms := length coordinates0 in
  if decide (n_replicas = length coordinates) then
    let nc := mkDataset 0 n_replicas n_atoms (new_variables n_replicas n_atoms) None None in
    let* nc := _store_thermodynamic_states states nc in
    _store_options options nc
  else raise (AssertionError "Error: inconsistent number of replicas.").

(** [NetCDFDatabase.initialize_database] *)
Definition initialize_database (options : gmap string (pyval F64 Unit)) (title : string)
    (states : option (list State)) (coordinates : option (list (list (list F64))))
    : result Database :=
  match states, coordinates with
  | Some states, Some coordinates =>
      let* nc := _initialize_netcdf options states coordinates in
      ret (mkDatabase nc options title states coordinates None None None)
  | _, _ => raise (ValueError "Cannot create database without inputting states and coordinates")
  end.

(** [NetCDFDatabase.__init__].  [existing] is the content of the file
    [filename] when it exists and is not empty; [options] is
    [process_kwargs(kwargs)], which is not part of these sources. *)
Definition __init__ (existing : option Dataset) (options : gmap string (pyval F64 Unit))
    (states : option (list State)) (coordinates : option (list (list (list F64))))
    : result Database :=
  let resume := existing in
  let* _ :=
    match resume with
    | Some _ =>
        match states, coordinates with
        | None, None => ret tt
        | _, _ => raise (AssertionError "Cannot input states and coordinates if you are resuming from disk.")
        end
    | None =>
        match states, coordinates with
        | Some states, Some coordinates =>
            if decide (length states = length coordinates) then ret tt
            else raise (AssertionError "Must have same number of states and coordinate sets.")
        | _, _ => raise (AssertionError "Must input states and coordinates if no existing database.")
        end
    end in
  let title := "No Title." in
  let* self :=
    match resume with
    | Some nc => restore_database nc title
    | None => initialize_database options title states coordinates
    end in
  let* _ :=
    for_each (thermodynamic_states self) (fun state _ =>
      let* state0 := getitem (thermodynamic_states self) 0 in
      if negb (is_compatible_with state state0)
      then raise (ValueError "Provided ThermodynamicState states must all be from the same thermodynamic ensemble.")
      else ret tt) tt in
  ret self.

End Database.

End NetCDF.

(** ** repex/hdf_io.py *)

Module HDF5.

Section TrajectoryFile.
Context {Arr : Type}.

(** The state of an [HDF5MultiTrajectoryFile] that [write] reads or
    changes: the mode, the initialisation flag and the arrays of the file by
    node name, each the list of the blocks appended so far. *)
Record File : Type := mkFile {
  mode : string;
  _needs_initialization : bool;
  nodes : gmap string (list Arr);
}.

(** The arguments of [write]. *)
Record Frames : Type := mkFrames {
  coordinates : Arr;
  time : option Arr;
  cell_lengths : option Arr;
  cell_angles : option Arr;
  velocities : option Arr;
  kineticEnergy : option Arr;
  potentialEnergy : option Arr;
  temperature : option Arr;
  alchemicalLambda : option Arr;
}.

Definition is_None {A} (o : option A) : bool :=
  match o with
  | None => true
  | Some _ => false
  end.

Definition quote : string := String (ascii_of_nat 34) EmptyString.

(** The decorator [ensure_mode] with the allowed modes [m], applied to a
    method [f]. *)
Definition ensure_mode {A} (m : list string) (f : File → result A * File)
    : File → result A * File :=
  fun self =>
    if decide (mode self ∈ m) then f self
    else (raise (ValueError ("This operation is only available when a file is open in mode="
                             ++ quote ++ mode self ++ quote ++ ".")%string), self).

(** [HDF5MultiTrajectoryFile.write].  [body] is the method after the two
    checks on the unit cell (unit conversion, shape checks, creation of the
    headers and the appends), which rests on [mdtraj] and [tables]. *)
Definition write (body : Frames → File → result unit * File) (args : Frames)
    : File → result unit * File :=
  ensure_mode ["w"; "a"] (fun self =>
    if is_None (cell_lengths args) && negb (is_None (cell_angles args))
    then (raise (ValueError "cell_lengths were given, but no cell_angles"), self)
    else if negb (is_None (cell_lengths args)) && is_None (cell_angles args)
    then (raise (ValueError "cell_angles were given, but no cell_lengths"), self)
    else body args self).

End TrajectoryFile.

(** The rest of [write]: conversion of the arguments, creation of the
    headers on the first call, and the appends.  The arrays as [write] is
    given them and the blocks that the file holds are of the same abstract
    type [Arr]. *)
Section Append.
Context {Arr : Type}.

(** [EArray.append] of [tables]: the node with the block appended, or the
    exception [tables] raises for a block it does not accept. *)
Variable earray_append : list Arr → Arr → result (list Arr).

(** [in_units_of] followed by [ensure_type] of [mdtraj] for the argument
    called [name]; the first argument is the converted array of coordinates,
    from which the expected shape of every other array is taken. *)
Variable ensure_type : option Arr → string → Arr → result Arr.

(** [HDF5MultiTrajectoryFile.__init__] with the default
    [force_overwrite=True] and a valid [compression]; [on_disk] is the
    content of the file as [tables] opens it in mode [r] or [a].  The flag is
    cleared in mode [a] whether or not the file has coordinates. *)
Definition __init__ (on_disk : gmap string (list Arr)) (mode : string)
    : result (File (Arr:=Arr)) :=
  if decide (mode ∈ ["r"; "w"; "a"]) then
    if decide (mode = "w") then ret (mkFile "w" true ∅)
    else if decide (mode = "a") then ret (mkFile mode false on_disk)
    else ret (mkFile mode false on_disk)
  else raise (ValueError "mode must be one of ['r', 'w', 'a']").

(** An argument that may be [None] is returned as [None]
    ([can_be_none=True]). *)
Definition ensure_optional (coordinates : Arr) (name : string) (a : option Arr)
    : result (option Arr) :=
  match a with
  | None => ret None
  | Some a => let* a := ensure_type (Some coordinates) name a in ret (Some a)
  end.

(** The conversions and checks of the arguments, in the order of the
    source; the name passed for the velocities is the one in the source. *)
Definition ensure_types (args : Frames (Arr:=Arr)) : result (Frames (Arr:=Arr)) :=
  let* coordinates := ensure_type None "coordinates" (coordinates args) in
  let* time := ensure_optional coordinates "time" (time args) in
  let* cell_lengths := ensure_optional coordinates "cell_lengths" (cell_lengths args) in
  let* cell_angles := ensure_optional coordinates "cell_angles" (cell_angles args) in
  let* velocities := ensure_optional coordinates "velocoties" (velocities args) in
  let* kineticEnergy := ensure_optional coordinates "kineticEnergy" (kineticEnergy args) in
  let* potentialEnergy := ensure_optional coordinates "potentialEnergy" (potentialEnergy args) in
  let* temperature := ensure_optional coordinates "temperature" (temperature args) in
  let* alchemicalLambda :=
    ensure_optional coordinates "alchemicalLambda" (alchemicalLambda args) in
  ret (mkFrames coordinates time cell_lengths cell_angles velocities kineticEnergy
         potentialEnergy temperature alchemicalLambda).

(** [self._create_earray(where='/', name=name, ...)]: a node without
    blocks. *)
Definition _create_earray (name : string) (self : File (Arr:=Arr)) : File (Arr:=Arr) :=
  mkFile (mode self) (_needs_initialization self) (<[name := []]> (nodes self)).

(** [HDF5MultiTrajectoryFile._initialize_headers]; the attributes of the
    root and of the arrays are not part of the state modelled. *)
Definition _initialize_headers (set_coordinates set_time set_cell set_velocities
    set_kineticEnergy set_potentialEnergy set_temperature set_alchemicalLambda : bool)
    (self : File (Arr:=Arr)) : File (Arr:=Arr) :=
  let self := if set_coordinates then _create_earray "coordinates" self else self in
  let self := if set_time then _create_earray "time" self else self in
  let self :=
    if set_cell then _create_earray "cell_angles" (_create_earray "cell_lengths" self)
    else self in
  let self := if set_velocities then _create_earray "velocities" self else self in
  let self := if set_kineticEnergy then _create_earray "kineticEnergy" self else self in
  let self := if set_potentialEnergy then _create_earray "potentialEnergy" self else self in
  let self := if set_temperature then _create_earray "temperature" self else self in
  let self := if set_alchemicalLambda then _create_earray "lambda" self else self in
  self.

(** What the [try] statement of [write] can see raised: the
    [NoSuchNodeError] of [tables], or another exception. *)
Inductive raised : Type :=
  | NoSuchNodeError
  | Raised (e : exn).

(** [self._get_node(where='/', name=name)] *)
Definition _get_node (self : File (Arr:=Arr)) (name : string) : raised + list Arr :=
  match nodes self !! name with
  | Some node => inr node
  | None => inl NoSuchNodeError
  end.

(** One field in the [try] statement: appended when it is given, and when
    it is not given the file must not have a node for it. *)
Definition append_contents (name : string) (contents : option Arr) (self : File (Arr:=Arr))
    : (raised + unit) * File (Arr:=Arr) :=
  match contents with
  | Some contents =>
      match _get_node self name with
      | inl r => (inl r, self)
      | inr node =>
          match earray_append node contents with
          | inl e => (inl (Raised e), self)
          | inr node' =>
              (inr tt, mkFile (mode self) (_needs_initialization self)
                         (<[name := node']> (nodes self)))
          end
      end
  | None =>
      match _get_node self name with
      | inr _ => (inl (Raised (AssertionError EmptyString)), self)
      | inl NoSuchNodeError => (inr tt, self)
      | inl r => (inl r, self)
      end
  end.

Definition no_such_field (name : string) : string :=
  ("The file that you're trying to save to doesn't contain the field " ++ name
   ++ ". You can always save a new trajectory and have it contain this information, but I don't allow 'ragged' arrays. If one frame is going to have "
   ++ name
   ++ " information, then I expect all of them to. So I can't save it for just these frames. Sorry about that :)")%string.

Definition field_expected (name : string) : string :=
  ("The file that you're saving to expects each frame to contain " ++ name
   ++ " information, but you did not supply it.I don't allow 'ragged' arrays. If one frame is going to have "
   ++ name ++ " information, then I expect all of them to. ")%string.

(** The two [except] clauses, with the value of [name] at the time of the
    raise. *)
Definition handlers (name : string) (r : raised) : exn :=
  match r with
  | NoSuchNodeError => ValueError (no_such_field name)
  | Raised (AssertionError _) => ValueError (field_expected name)
  | Raised e => e
  end.

(** The fields in the order in which the [try] statement goes through
    them: the loop over eight names, then [lambda]. *)
Definition fields (args : Frames (Arr:=Arr)) : list (string * option Arr) :=
  [("coordinates", Some (coordinates args)); ("time", time args);
   ("cell_angles", cell_angles args); ("cell_lengths", cell_lengths args);
   ("velocities", velocities args); ("kineticEnergy", kineticEnergy args);
   ("potentialEnergy", potentialEnergy args); ("temperature", temperature args);
   ("lambda", alchemicalLambda args)].

Fixpoint append_fields (l : list (string * option Arr)) (self : File (Arr:=Arr))
    : result unit * File (Arr:=Arr) :=
  match l with
  | [] => (ret tt, self)
  | (name, contents) :: l =>
      match append_contents name contents self with
      | (inr _, self) => append_fields l self
      | (inl r, self) => (raise (handlers name r), self)
      end
  end.

(** The method after the two checks on the unit cell.  [_frame_index],
    which [write] increments at the end and never reads, is not part of the
    state. *)
Definition write_body (args : Frames (Arr:=Arr)) (self : File (Arr:=Arr))
    : result unit * File (Arr:=Arr) :=
  match ensure_types args with
  | inl e => (inl e, self)
  | inr args =>
      let self :=
        if _needs_initialization self then
          let self :=
            _initialize_headers true (negb (is_None (time args)))
              (negb (is_None (cell_lengths args)) || negb (is_None (cell_angles args)))
              (negb (is_None (velocities args))) (negb (is_None (kineticEnergy args)))
              (negb (is_None (potentialEnergy args))) (negb (is_None (temperature args)))
              (negb (is_None (alchemicalLambda args))) self in
          mkFile (mode self) false (nodes self)
        else self in
      append_fields (fields args) self
  end.

End Append.

End HDF5.

(** ** Concrete scenarios *)

Module Examples.

(** Exact rationals as the numeric carrier. *)
#[global] Instance Numeric_Qc : Numeric Qc := {|
  fone := 1%Qc;
  fmul := Qcmult;
  fdiv := Qcdiv;
  kB := Q2Qc (Qmake 8314 1000000);
|}.

Definition kelvin (t : Z) : Qc := Q2Qc (inject_Z t).

(** Two replicas at 300 K and 400 K with cached potential energies 100 and
    120, and an energy matrix left over from an earlier iteration. *)
Definition engine : ParallelTempering.Engine Qc :=
  ParallelTempering.mkEngine 2
    [mkState 0 (kelvin 300) None; mkState 1 (kelvin 400) None]
    [mkSampler (kelvin 100); mkSampler (kelvin 120)]
    [[kelvin 7; kelvin 7]; [kelvin 7; kelvin 7]].

(** A system with one Monte Carlo barostat. *)
Definition barostat_system (temperature : Qc) (seed : Z) : System Qc :=
  mkSystem 22 [OtherForce "HarmonicBondForce" []; MonteCarloBarostat (kelvin 1) temperature seed].

(** A store with one such system at every reference. *)
Definition store : heap Qc := fun _ => barostat_system (kelvin 300) 42.

(** Two states at 300 K and 400 K that share the system object [0], as
    built from a single [system] argument. *)
Definition shared_states : list (ThermodynamicState Qc) :=
  [mkState 0 (kelvin 300) (Some (kelvin 1)); mkState 0 (kelvin 400) (Some (kelvin 1))].

(** Two states with the same pressure and different temperatures, and two
    states with different pressures. *)
Definition two_temperatures : list (ThermodynamicState Qc) :=
  [mkState 0 (kelvin 300) None; mkState 1 (kelvin 400) None].
Definition two_pressures : list (ThermodynamicState Qc) :=
  [mkState 0 (kelvin 300) (Some (kelvin 1)); mkState 1 (kelvin 300) (Some (kelvin 2))].

(** 32-bit storage over exact rationals: rounding down to an integer stands
    for the loss of precision of a 32-bit float. *)
#[global] Instance Storage_Qc : NetCDF.Storage Qc Z := {|
  NetCDF.to32 q := Qfloor (this q);
  NetCDF.to64 z := kelvin z;
  NetCDF.fill32 := 0%Z;
|}.

(** Three units of [simtk.unit] with their names. *)
Inductive unit_ : Type := picosecond | femtosecond | per_picosecond.

#[global] Instance Interpreter_Qc : NetCDF.Interpreter Qc unit_ := {|
  NetCDF.unit_str u :=
    match u with
    | picosecond => "picosecond"
    | femtosecond => "femtosecond"
    | per_picosecond => "/picosecond"
    end;
  NetCDF.eval_unit s :=
    if decide (s = "picosecond") then ret picosecond
    else if decide (s = "femtosecond") then ret femtosecond
    else if decide (s = "1/picosecond") then ret per_picosecond
    else raise (NameError s);
  NetCDF.eval_call t _ := raise (NameError t);
|}.

(** Thermodynamic states by value, compatible when both or neither has a
    pressure. *)
Record stored_state : Type := mkStored {
  st_temperature : Qc;
  st_pressure : option Qc;
  st_system : string;
}.

#[global] Instance StateAPI_Qc : NetCDF.ThermodynamicStateAPI stored_state Qc Z := {|
  NetCDF.state_temperature := st_temperature;
  NetCDF.state_pressure := st_pressure;
  NetCDF.state_system := st_system;
  NetCDF.is_compatible_with a b :=
    match st_pressure a, st_pressure b with
    | Some _, Some _ | None, None => true
    | _, _ => false
    end;
  NetCDF.restore_state t p s := mkStored (kelvin t) (kelvin <$> p) s;
|}.

(** A file as [_initialize_netcdf] lays it out for two replicas of one
    atom, before the static groups are stored. *)
Definition fresh : NetCDF.Dataset (F64:=Qc) (F32:=Z) :=
  NetCDF.mkDataset 0 2 1 (NetCDF.new_variables 2 1) None None.

Definition half : Qc := Q2Qc (Qmake 1 2).

(** The record of iteration 0. *)
Definition iteration0 : NetCDF.IterationRecord (F64:=Qc) :=
  NetCDF.mkIterationRecord 0
    [[[kelvin 1; kelvin 2; kelvin 3]]; [[half; kelvin 0; kelvin 5]]]
    [[[kelvin 3; kelvin 0; kelvin 0]; [kelvin 0; kelvin 3; kelvin 0]; [kelvin 0; kelvin 0; kelvin 3]];
     [[kelvin 3; kelvin 0; kelvin 0]; [kelvin 0; kelvin 3; kelvin 0]; [kelvin 0; kelvin 0; kelvin 3]]]
    [kelvin 27; kelvin 27]
    [0%Z; 1%Z]
    [[kelvin 40; kelvin 30]; [kelvin 48; kelvin 36]]
    [[0%Z; 0%Z]; [0%Z; 0%Z]]
    [[0%Z; 0%Z]; [0%Z; 0%Z]]
    "Mon Jan  1 00:00:00 2024".

(** The file after iteration 0 has been written. *)
Definition written : NetCDF.Dataset (F64:=Qc) (F32:=Z) :=
  match NetCDF.output_iteration fresh iteration0 with
  | inr nc => nc
  | inl _ => fresh
  end.

(** The options of a run. *)
Definition run_options : gmap string (NetCDF.pyval Qc unit_) :=
  list_to_map
    [("collision_rate", NetCDF.PQuantity (NetCDF.PFloat (kelvin 20)) per_picosecond);
     ("constraint_tolerance", NetCDF.PFloat half);
     ("timestep", NetCDF.PQuantity (NetCDF.PFloat (kelvin 2)) femtosecond);
     ("nsteps_per_iteration", NetCDF.PInt 500);
     ("number_of_iterations", NetCDF.PInt 10);
     ("equilibration_timestep", NetCDF.PQuantity (NetCDF.PFloat (kelvin 1)) femtosecond);
     ("number_of_equilibration_iterations", NetCDF.PInt 0);
     ("title", NetCDF.PStr "Parallel tempering simulation");
     ("minimize", NetCDF.PBool true);
     ("replica_mixing_scheme", NetCDF.PStr "swap-all");
     ("online_analysis", NetCDF.PBool false);
     ("show_mixing_statistics", NetCDF.PBool true)].

(** A trajectory file open for writing, and frames with cell lengths but
    no cell angles. *)
Definition trajectory : HDF5.File (Arr:=list Z) := HDF5.mkFile "w" true ∅.
Definition half_cell : HDF5.Frames (Arr:=list Z) :=
  HDF5.mkFrames [1%Z; 2%Z; 3%Z] None (Some [4%Z; 4%Z; 4%Z]) None None None None None None.

(** A store in which every system holds two barostats. *)
Definition crowded : heap Qc := fun _ =>
  mkSystem 22 [MonteCarloBarostat (kelvin 1) (kelvin 300) 42;
               MonteCarloBarostat (kelvin 1) (kelvin 300) 43].

(** Two stored states with a pressure, and the file once they are stored. *)
Definition stored_states : list stored_state :=
  [mkStored (kelvin 300) (Some (kelvin 1)) "<System 0/>";
   mkStored (kelvin 400) (Some (kelvin 1)) "<System 1/>"].

Definition with_states : NetCDF.Dataset (F64:=Qc) (F32:=Z) :=
  match NetCDF._store_thermodynamic_states stored_states fresh with
  | inr nc => nc
  | inl _ => fresh
  end.

(** The record of iteration 1, the file after iterations 0 and 1, and the
    file after iteration 0 has then been written again with other data. *)
Definition iteration1 : NetCDF.IterationRecord (F64:=Qc) :=
  NetCDF.mkIterationRecord 1
    [[[kelvin 2; kelvin 2; kelvin 3]]; [[kelvin 1; kelvin 0; kelvin 5]]]
    (NetCDF.kw_box_vectors iteration0)
    [kelvin 27; kelvin 27]
    [1%Z; 0%Z]
    [[kelvin 41; kelvin 31]; [kelvin 49; kelvin 37]]
    [[0%Z; 1%Z]; [1%Z; 0%Z]]
    [[0%Z; 1%Z]; [1%Z; 0%Z]]
    "Mon Jan  1 00:01:00 2024".

Definition written_twice : NetCDF.Dataset (F64:=Qc) (F32:=Z) :=
  match NetCDF.output_iteration written iteration1 with
  | inr nc => nc
  | inl _ => written
  end.

Definition iteration0_again : NetCDF.IterationRecord (F64:=Qc) :=
  NetCDF.mkIterationRecord 0
    [[[kelvin 7; kelvin 7; kelvin 7]]; [[kelvin 8; kelvin 8; kelvin 8]]]
    (NetCDF.kw_box_vectors iteration0)
    [kelvin 27; kelvin 27]
    [1%Z; 0%Z]
    [[kelvin 50; kelvin 60]; [kelvin 70; kelvin 80]]
    [[0%Z; 2%Z]; [2%Z; 0%Z]]
    [[0%Z; 1%Z]; [1%Z; 0%Z]]
    "Mon Jan  1 00:02:00 2024".

Definition rewritten : NetCDF.Dataset (F64:=Qc) (F32:=Z) :=
  match NetCDF.output_iteration written_twice iteration0_again with
  | inr nc => nc
  | inl _ => written_twice
  end.

(** The file after iteration 0, once the positions of iteration 1 have been
    written and nothing else of it: [output_iteration] writes the positions
    first. *)
Definition interrupted : NetCDF.Dataset (F64:=Qc) (F32:=Z) :=
  match NetCDF.setrow written "positions" 1
          (NetCDF.Floats3 (NetCDF.store3 (NetCDF.kw_coordinates iteration1))) with
  | inr nc => nc
  | inl _ => written
  end.

(** The database that the constructor creates for the two stored states. *)
Definition created : NetCDF.Database (F64:=Qc) (F32:=Z) (Unit:=unit_) (State:=stored_state) :=
  match NetCDF.__init__ None run_options (Some stored_states)
          (Some (NetCDF.kw_coordinates iteration0)) with
  | inr db => db
  | inl _ => NetCDF.mkDatabase fresh ∅ "" [] [] None None None
  end.

(** [tables] and [mdtraj] for blocks that are lists of integers: every
    block is appended and every argument is taken as it is. *)
Definition append_block (node : list (list Z)) (block : list Z) : result (list (list Z)) :=
  ret (node ++ [block]).
Definition as_given (_ : option (list Z)) (_ : string) (a : list Z) : result (list Z) :=
  ret a.

(** Frames with coordinates only, frames with coordinates and times, and
    the trajectory after the first have been written to it. *)
Definition bare : HDF5.Frames (Arr:=list Z) :=
  HDF5.mkFrames [1%Z; 2%Z; 3%Z] None None None None None None None None.
Definition timed : HDF5.Frames (Arr:=list Z) :=
  HDF5.mkFrames [4%Z; 5%Z; 6%Z] (Some [7%Z]) None None None None None None None.
Definition after_bare : HDF5.File (Arr:=list Z) :=
  (HDF5.write (HDF5.write_body append_block as_given) bare trajectory).2.

Import PrimFloat.

(** IEEE binary64 arithmetic, the floats of the interpreter, on the
    kernel's primitive floats.  [float(i)] is exact for the integers used
    here (below [2^53] in magnitude). *)
Definition binary64_of_int (i : Z) : PrimFloat.float :=
  match i with
  | Z0 => PrimFloat.zero
  | Zpos _ => PrimFloat.of_uint63 (Uint63.of_Z i)
  | Zneg _ => PrimFloat.opp (PrimFloat.of_uint63 (Uint63.of_Z (- i)))
  end.

(** [np.e], and [np.exp] at the ten arguments [float(i) / float(9)] that a
    ladder of ten temperatures evaluates it at, as binary64 numbers;
    [np.exp(1.0)] is [np.e].  The examples apply [np.exp] nowhere else. *)
Definition binary64_e : PrimFloat.float := 0x1.5bf0a8b145769p+1%float.

Definition exp_table : list (PrimFloat.float * PrimFloat.float) :=
  [(0x0p+0, 0x1p+0);
   (0x1.c71c71c71c71cp-4, 0x1.1e15bacce7161p+0);
   (0x1.c71c71c71c71cp-3, 0x1.3fb48f3a02419p+0);
   (0x1.5555555555555p-2, 0x1.6546db1ba2d13p+0);
   (0x1.c71c71c71c71cp-2, 0x1.8f437c4c4b547p+0);
   (0x1.1c71c71c71c72p-1, 0x1.be2f48bd08e95p+0);
   (0x1.5555555555555p-1, 0x1.f29eb2b7a2c0cp+0);
   (0x1.8e38e38e38e39p-1, 0x1.169bcf421ba5ep+1);
   (0x1.c71c71c71c71cp-1, 0x1.3759b7a00f8d5p+1);
   (0x1p+0, 0x1.5bf0a8b145769p+1)]%float.

Definition binary64_exp (x : PrimFloat.float) : PrimFloat.float :=
  match List.find (fun entry => PrimFloat.eqb (fst entry) x) exp_table with
  | Some entry => snd entry
  | None => PrimFloat.nan
  end.

#[global] Instance FloatArith_binary64 : FloatArith PrimFloat.float := {|
  float_add := PrimFloat.add;
  float_sub := PrimFloat.sub;
  float_mul := PrimFloat.mul;
  float_div := PrimFloat.div;
  float_one := PrimFloat.one;
  float_of_int := binary64_of_int;
  np_exp := binary64_exp;
  np_e := binary64_e;
|}.


End Examples.

(** * Properties *)

(** ** The loops *)

Lemma for_each_app {A S} (l1 l2 : list A) (body : A → S → result S) (s : S) :
  for_each (l1 ++ l2) body s = bind (for_each l1 body s) (for_each l2 body).
Proof.
  revert s; induction l1 as [|x l1 IH]; intros s; simpl; [done|].
  destruct (body x s) as [e|s']; simpl; [done|apply IH].
Qed.

Lemma for_each_cons {A S} (x : A) (l : list A) (body : A → S → result S) (s : S) :
  for_each (x :: l) body s = bind (body x s) (for_each l body).
Proof. reflexivity. Qed.

Lemma bind_inr {A B} (a : A) (k : A → result B) : bind (inr a) k = k a.
Proof. reflexivity. Qed.

(** Loop invariant rule for [for j in range(n)]. *)
Lemma for_each_range_inv {S} (P : nat → S → Prop) (n : nat)
    (body : nat → S → result S) (s : S) :
  P 0 s →
  (∀ j t, j < n → P j t → ∃ t', body j t = inr t' ∧ P (Datatypes.S j) t') →
  ∃ s', for_each (range n) body s = inr s' ∧ P n s'.
Proof.
  intros H0 Hstep. unfold range.
  assert (Hgen : ∀ m a t, a + m = n → P a t →
            ∃ s', for_each (seq a m) body t = inr s' ∧ P n s').
  { induction m as [|m IH]; intros a t Ha Hp; simpl.
    - exists t. split; [done|]. replace n with a by lia. done.
    - destruct (Hstep a t) as (t' & Hb & Hp'); [lia|done|].
      rewrite Hb; simpl. apply IH; [lia|done]. }
  apply (Hgen n 0 s); [lia|done].
Qed.

Lemma list_comp_ok {A B} (f : A → result B) (g : A → B) (l : list A) :
  (∀ x, x ∈ l → f x = inr (g x)) → list_comp f l = inr (g <$> l).
Proof.
  induction l as [|x l IH]; intros Hf; simpl; [done|].
  rewrite (Hf x) by set_solver. simpl.
  rewrite IH by (intros y Hy; apply Hf; set_solver). done.
Qed.

Lemma list_comp_inr {A B} (f : A → result B) (l : list A) (ys : list B) :
  list_comp f l = inr ys →
  length ys = length l ∧ ∀ k x, l !! k = Some x → ∃ y, ys !! k = Some y ∧ f x = inr y.
Proof.
  revert ys; induction l as [|x l IH]; intros ys; simpl.
  - intros [= <-]. split; [done|]. intros k x Hk. by rewrite lookup_nil in Hk.
  - destruct (f x) as [e|y] eqn:Hx; simpl; [done|].
    destruct (list_comp f l) as [e|ys'] eqn:Hl; simpl; [done|].
    intros [= <-]. destruct (IH ys' eq_refl) as [Hlen Hall].
    split; [simpl; by rewrite Hlen|].
    intros [|k] x' Hk; simpl in *.
    + inversion Hk; subst. eauto.
    + by apply Hall.
Qed.

Lemma list_comp_inl {A B} (f : A → result B) (l : list A) (e : exn) :
  list_comp f l = inl e → ∃ x, x ∈ l ∧ f x = inl e.
Proof.
  induction l as [|x l IH]; simpl; [done|].
  destruct (f x) as [e'|y] eqn:Hx; simpl.
  - intros [= <-]. exists x. split; [apply elem_of_cons; by left|done].
  - destruct (list_comp f l) as [e'|ys'] eqn:Hl; simpl; [|done].
    intros [= <-]. destruct (IH eq_refl) as (z & Hz & Hfz).
    exists z. split; [apply elem_of_cons; by right|done].
Qed.

(** ** C1: the temperature-linear energy matrix *)

Lemma square_Forall {A} (n : nat) (u : list (list A)) :
  length u = n → Forall (fun row => length row = n) u → square n u.
Proof.
  intros Hn Hu. split; [done|]. intros i row Hi.
  rewrite Forall_lookup in Hu. eauto.
Qed.

Section ComputeEnergies.
Context {num : Type} `{!Numeric num}.

Lemma setitem2_square n (u : list (list num)) i k v :
  square n u → i < n → k < n →
  ∃ u', setitem2 u i k v = inr u' ∧ square n u' ∧
    (u' !! i) ≫= (.!! k) = Some v ∧
    ∀ i' k', (i', k') ≠ (i, k) → (u' !! i') ≫= (.!! k') = (u !! i') ≫= (.!! k').
Proof.
  intros [Hlen Hrows] Hi Hk. unfold setitem2.
  destruct (u !! i) as [row|] eqn:Hrow.
  2: { apply lookup_ge_None in Hrow. lia. }
  pose proof (Hrows _ _ Hrow) as Hr.
  rewrite decide_True by lia.
  eexists; split; [done|]. split; [|split].
  - split; [by rewrite length_insert|].
    intros i' row' Hi'. destruct (decide (i = i')) as [->|Hne].
    + rewrite list_lookup_insert_eq in Hi' by lia. inversion Hi'; subst.
      by rewrite length_insert.
    + rewrite list_lookup_insert_ne in Hi' by done. eauto.
  - rewrite list_lookup_insert_eq by lia. simpl.
    by rewrite list_lookup_insert_eq by lia.
  - intros i' k' Hne. destruct (decide (i = i')) as [->|Hi'].
    + rewrite list_lookup_insert_eq by lia. rewrite Hrow. simpl.
      rewrite list_lookup_insert_ne; [done|]. intros ->. done.
    + by rewrite list_lookup_insert_ne by done.
Qed.

(** C1.  [_compute_energies] returns, and afterwards every entry [u_kl[i,k]]
    with [i, k < n_states] is [beta_k * U_i], where [beta_k = 1.0 / (kB * T_k)]
    is computed from the temperature of state [k] and [U_i] is the cached
    potential energy of replica [i]; the result does not depend on what the
    matrix held before, so no entry is left stale. *)
Theorem compute_energies_fills_matrix (self : ParallelTempering.Engine num) :
  let n := ParallelTempering.n_states self in
  length (ParallelTempering.sampler_states self) = n →
  length (ParallelTempering.thermodynamic_states self) = n →
  square n (ParallelTempering.u_kl self) →
  ∃ self',
    ParallelTempering._compute_energies self = inr self' ∧
    ParallelTempering.n_states self' = n ∧
    ParallelTempering.thermodynamic_states self' = ParallelTempering.thermodynamic_states self ∧
    ParallelTempering.sampler_states self' = ParallelTempering.sampler_states self ∧
    square n (ParallelTempering.u_kl self') ∧
    ∀ i k, i < n → k < n →
      ∃ replica_i state_k,
        ParallelTempering.sampler_states self !! i = Some replica_i ∧
        ParallelTempering.thermodynamic_states self !! k = Some state_k ∧
        (ParallelTempering.u_kl self' !! i) ≫= (.!! k)
          = Some (fmul (fdiv fone (fmul kB (temperature state_k))) (potential_energy replica_i)).
Proof.
  destruct self as [n states samplers u]; simpl. intros Hs Ht Hu.
  unfold ParallelTempering._compute_energies; simpl.
  set (val := fun i k : nat =>
    match samplers !! i, states !! k with
    | Some r, Some t => Some (fmul (fdiv fone (fmul kB (temperature t))) (potential_energy r))
    | _, _ => None
    end).
  set (outer := fun (i : nat) (w : list (list num)) =>
    square n w ∧ ∀ i' k', i' < i → k' < n → (w !! i') ≫= (.!! k') = val i' k').
  match goal with |- ∃ _, bind (for_each _ ?b _) _ = _ ∧ _ =>
    destruct (for_each_range_inv outer n b u) as (u' & Hrun & Hsq & Hval) end.
  - split; [done|]. intros; lia.
  - intros i w Hi [Hw Hdone].
    destruct (lookup_lt_is_Some_2 samplers i) as [r Hr]; [lia|].
    unfold getitem at 1. rewrite Hr; simpl.
    set (inner := fun (k : nat) (w' : list (list num)) =>
      square n w' ∧
      (∀ i' k', i' < i → k' < n → (w' !! i') ≫= (.!! k') = val i' k') ∧
      (∀ k', k' < k → (w' !! i) ≫= (.!! k') = val i k')).
    match goal with |- ∃ _, for_each _ ?b _ = _ ∧ _ =>
      destruct (for_each_range_inv inner n b w) as (w' & Hrun & Hsq & Hold & Hnew) end.
    + split; [done|]. split; [done|]. intros; lia.
    + intros k w1 Hk (Hw1 & Hold & Hnew).
      destruct (lookup_lt_is_Some_2 states k) as [t Htk]; [lia|].
      unfold getitem. rewrite Htk; simpl.
      destruct (setitem2_square n w1 i k
                  (fmul (fdiv fone (fmul kB (temperature t))) (potential_energy r)))
        as (w2 & Hset & Hsq2 & Hik & Hother); [done..|].
      exists w2. split; [done|]. split; [done|]. split.
      * intros i' k' Hi' Hk'. rewrite Hother; [by apply Hold|].
        intros [= -> ->]. lia.
      * intros k' Hk'. destruct (decide (k' = k)) as [->|Hne].
        -- rewrite Hik. unfold val. by rewrite Hr, Htk.
        -- rewrite Hother; [apply Hnew; lia|]. intros [= ->]. done.
    + exists w'. split; [done|]. split; [done|].
      intros i' k' Hi' Hk'. destruct (decide (i' = i)) as [->|Hne].
      * by apply Hnew.
      * apply Hold; [lia|done].
  - rewrite Hrun; simpl. eexists; split; [done|]. simpl.
    repeat split; try done; try apply Hsq.
    intros i k Hi Hk.
    destruct (lookup_lt_is_Some_2 samplers i) as [r Hr]; [lia|].
    destruct (lookup_lt_is_Some_2 states k) as [t Htk]; [lia|].
    exists r, t. repeat split; try done.
    rewrite Hval by done. unfold val. by rewrite Hr, Htk.
Qed.

End ComputeEnergies.

Lemma compute_energies_fills_matrix_witness :
  ∃ self',
    ParallelTempering._compute_energies Examples.engine = inr self' ∧
    ParallelTempering.n_states self' = 2 ∧
    ParallelTempering.thermodynamic_states self'
      = ParallelTempering.thermodynamic_states Examples.engine ∧
    ParallelTempering.sampler_states self'
      = ParallelTempering.sampler_states Examples.engine ∧
    square 2 (ParallelTempering.u_kl self') ∧
    ∀ i k, i < 2 → k < 2 →
      ∃ replica_i state_k,
        ParallelTempering.sampler_states Examples.engine !! i = Some replica_i ∧
        ParallelTempering.thermodynamic_states Examples.engine !! k = Some state_k ∧
        (ParallelTempering.u_kl self' !! i) ≫= (.!! k)
          = Some (fmul (fdiv fone (fmul kB (temperature state_k))) (potential_energy replica_i)).
Proof.
  apply (compute_energies_fills_matrix Examples.engine).
  - reflexivity.
  - reflexivity.
  - apply square_Forall; [reflexivity|]. repeat constructor.
Defined.

(** ** C2: self-consistency checks at construction *)

(** A loop whose body only checks: it returns when every check passes and
    raises [e] when some check raises [e] and the others pass or raise [e]. *)
Lemma for_each_checks_pass {A} (l : list A) (body : A → unit → result unit) :
  (∀ x, x ∈ l → body x tt = inr tt) → for_each l body tt = inr tt.
Proof.
  induction l as [|x l IH]; intros Hb; simpl; [done|].
  rewrite Hb by (apply elem_of_cons; by left). simpl.
  apply IH. intros y Hy. apply Hb. apply elem_of_cons. by right.
Qed.

Lemma for_each_checks_raise {A} (l : list A) (body : A → unit → result unit) (e : exn) :
  (∀ x, x ∈ l → body x tt = inr tt ∨ body x tt = inl e) →
  (∃ x, x ∈ l ∧ body x tt = inl e) →
  for_each l body tt = inl e.
Proof.
  induction l as [|x l IH]; intros Hb (y & Hy & Hey); simpl.
  - by apply elem_of_nil in Hy.
  - destruct (Hb x) as [Hx|Hx]; [apply elem_of_cons; by left| |by rewrite Hx].
    rewrite Hx; simpl. apply IH.
    + intros z Hz. apply Hb. apply elem_of_cons. by right.
    + exists y. split; [|done].
      destruct (proj1 (elem_of_cons _ _ _) Hy) as [Heq|Hin]; [congruence|done].
Qed.

(** The doubly nested loop [for s0 in l: for s1 in l: if P(s0, s1): raise e]. *)
Lemma nested_check_raises {A} (P : A → A → Prop) `{∀ x y, Decision (P x y)}
    (e : exn) (l : list A) :
  (∃ s0 s1, s0 ∈ l ∧ s1 ∈ l ∧ P s0 s1) →
  for_each l (fun s0 _ =>
    for_each l (fun s1 _ => if decide (P s0 s1) then raise e else ret tt) tt) tt = inl e.
Proof.
  intros (s0 & s1 & H0 & H1 & HP).
  assert (Hin : ∀ x, x ∈ l →
    for_each l (fun s1 _ => if decide (P x s1) then raise e else ret tt) tt = inr tt ∨
    for_each l (fun s1 _ => if decide (P x s1) then raise e else ret tt) tt = inl e).
  { intros x _.
    destruct (decide (Exists (P x) l)) as [Hex|Hno].
    - right. apply for_each_checks_raise.
      + intros y _. destruct (decide (P x y)); [by right|by left].
      + apply List.Exists_exists in Hex as (y & Hy & Hxy).
        apply list_elem_of_In in Hy.
        exists y. split; [done|]. simpl. by destruct (decide (P x y)).
    - left. apply for_each_checks_pass. intros y Hy. simpl.
      destruct (decide (P x y)) as [Hxy|]; [|done].
      exfalso. apply Hno, List.Exists_exists. exists y.
      split; [by apply list_elem_of_In|done]. }
  apply for_each_checks_raise; [done|].
  exists s0. split; [done|].
  apply for_each_checks_raise.
  - intros y _. destruct (decide (P s0 y)); [by right|by left].
  - exists s1. split; [done|]. simpl. by destruct (decide (P s0 s1)).
Qed.

Lemma nested_check_passes {A} (P : A → A → Prop) `{∀ x y, Decision (P x y)}
    (e : exn) (l : list A) :
  (∀ s0 s1, s0 ∈ l → s1 ∈ l → ¬ P s0 s1) →
  for_each l (fun s0 _ =>
    for_each l (fun s1 _ => if decide (P s0 s1) then raise e else ret tt) tt) tt = inr tt.
Proof.
  intros Hno. apply for_each_checks_pass. intros x Hx.
  apply for_each_checks_pass. intros y Hy. simpl.
  destruct (decide (P x y)) as [Hxy|]; [|done]. exfalso. by apply (Hno x y).
Qed.

Section HamiltonianExchangeChecks.
Context {num E : Type} `{!Numeric num}.
Implicit Types states : list (ThermodynamicState num).

Lemma hamiltonian_check_pressures states :
  differ_in pressure states →
  HamiltonianExchange._check_self_consistency states
  = inl (ValueError "For HamiltonianExchange, ThermodynamicState objects cannot have different pressures!").
Proof.
  intros Hd. unfold HamiltonianExchange._check_self_consistency.
  rewrite (nested_check_raises (fun s0 s1 => pressure s0 ≠ pressure s1)); done.
Qed.

Lemma hamiltonian_check_temperatures states :
  ¬ differ_in pressure states → differ_in temperature states →
  HamiltonianExchange._check_self_consistency states
  = inl (ValueError "For HamiltonianExchange, ThermodynamicState objects cannot have different temperatures!").
Proof.
  intros Hp Hd. unfold HamiltonianExchange._check_self_consistency.
  rewrite (nested_check_passes (fun s0 s1 => pressure s0 ≠ pressure s1)).
  - simpl. rewrite (nested_check_raises (fun s0 s1 => temperature s0 ≠ temperature s1)); done.
  - intros s0 s1 H0 H1 Hne. apply Hp. by exists s0, s1.
Qed.

End HamiltonianExchangeChecks.

(** ** The barostats of a system *)

Section Barostats.
Context {num : Type} `{!Numeric num}.
Implicit Types fs : list (Force num).

(** The counter of [get_num_barostats] and the variables left bound by the
    loop of [get_barostat_state]. *)
Local Abbreviation count fs :=
  (fold_left (fun n f => if IgnoreBarostat.is_barostat f then n + 1 else n) fs 0).
Local Abbreviation bound fs :=
  (fold_left (fun acc f =>
     match f with
     | MonteCarloBarostat _ temperature seed => Some (temperature, seed)
     | OtherForce _ _ => acc
     end) fs None).

Lemma set_force_twice (a c : num) (b d : Z) (f : Force num) :
  IgnoreBarostat.set_force a b (IgnoreBarostat.set_force c d f) = IgnoreBarostat.set_force a b f.
Proof. by destruct f. Qed.

Lemma set_system_twice (a c : num) (b d : Z) (s : System num) :
  IgnoreBarostat.set_system a b (IgnoreBarostat.set_system c d s) = IgnoreBarostat.set_system a b s.
Proof.
  destruct s as [n fs]. unfold IgnoreBarostat.set_system; simpl. f_equal.
  rewrite <- list_fmap_compose. apply list_fmap_ext. intros _ f _. apply set_force_twice.
Qed.

Lemma count_set_force (a : num) (b : Z) fs :
  count (IgnoreBarostat.set_force a b <$> fs) = count fs.
Proof.
  induction fs as [|f fs IH] using rev_ind; [done|].
  rewrite fmap_app, !fold_left_app; simpl. rewrite IH. by destruct f.
Qed.

(** A system with at most one barostat: without a barostat nothing is bound
    and setting changes nothing; with one barostat its temperature and seed
    are bound and setting them again changes nothing. *)
Lemma at_most_one_barostat fs :
  (count fs ≤ 1)%nat →
  (count fs = 0 → bound fs = None ∧ ∀ a b, IgnoreBarostat.set_force a b <$> fs = fs) ∧
  (count fs = 1 → ∃ a b, bound fs = Some (a, b) ∧ IgnoreBarostat.set_force a b <$> fs = fs).
Proof.
  induction fs as [|f fs IH] using rev_ind; [simpl; split; [done|lia]|].
  rewrite !fold_left_app; simpl. destruct f as [p a b|c ps]; simpl.
  - intros Hle. split; [lia|]. intros Hone.
    destruct IH as [IH0 _]; [lia|]. destruct IH0 as [_ Hid]; [lia|].
    exists a, b. split; [done|]. by rewrite fmap_app, Hid.
  - intros Hle. destruct (IH Hle) as [IH0 IH1]. split.
    + intros H0. destruct (IH0 H0) as [Hb Hid]. split; [done|].
      intros a b. by rewrite fmap_app, Hid.
    + intros H1. destruct (IH1 H1) as (a & b & Hb & Hid).
      exists a, b. split; [done|]. by rewrite fmap_app, Hid.
Qed.

Lemma bound_set_force (a : num) (b : Z) fs :
  (0 < count fs)%nat → bound (IgnoreBarostat.set_force a b <$> fs) = Some (a, b).
Proof.
  induction fs as [|f fs IH] using rev_ind; [simpl; lia|].
  rewrite fmap_app, !fold_left_app; simpl. destruct f as [p a' b'|c ps]; simpl; [done|].
  apply IH.
Qed.

Lemma get_num_barostats_inr (h : heap num) (s : ThermodynamicState num) (n : nat) :
  IgnoreBarostat.get_num_barostats h s = inr n →
  count (forces (h (system s))) = n ∧ (n ≤ 1)%nat.
Proof.
  unfold IgnoreBarostat.get_num_barostats. case_decide; [done|].
  intros [= <-]. split; [done|lia].
Qed.

Lemma get_num_barostats_inl (h : heap num) (s : ThermodynamicState num) (e : exn) :
  IgnoreBarostat.get_num_barostats h s = inl e → e = ValueError "Found multiple barostats!".
Proof.
  unfold IgnoreBarostat.get_num_barostats. case_decide; [|done]. by intros [= <-].
Qed.

Lemma array_min_max_eq (n0 : nat) (rest : list nat) :
  IgnoreBarostat.array_min n0 rest = IgnoreBarostat.array_max n0 rest →
  ∀ x, x ∈ rest → x = n0.
Proof.
  intros Heq.
  assert (Hmin : (IgnoreBarostat.array_min n0 rest ≤ n0)%nat ∧
                 ∀ x, x ∈ rest → (IgnoreBarostat.array_min n0 rest ≤ x)%nat).
  { clear Heq. induction rest as [|y rest [IH0 IH]]; simpl.
    - split; [lia|]. intros x Hx. by apply elem_of_nil in Hx.
    - split; [lia|]. intros x Hx.
      apply elem_of_cons in Hx. destruct Hx as [->|Hx]; [lia|]. specialize (IH x Hx). lia. }
  assert (Hmax : (n0 ≤ IgnoreBarostat.array_max n0 rest)%nat ∧
                 ∀ x, x ∈ rest → (x ≤ IgnoreBarostat.array_max n0 rest)%nat).
  { clear Heq Hmin. induction rest as [|y rest [IH0 IH]]; simpl.
    - split; [lia|]. intros x Hx. by apply elem_of_nil in Hx.
    - split; [lia|]. intros x Hx.
      apply elem_of_cons in Hx. destruct Hx as [->|Hx]; [lia|]. specialize (IH x Hx). lia. }
  intros x Hx. destruct Hmin as [Hm0 Hm], Hmax as [HM0 HM].
  specialize (Hm x Hx). specialize (HM x Hx). lia.
Qed.

Lemma init_inr (h : heap num) (states : list (ThermodynamicState num)) (self : IgnoreBarostat.t num) :
  IgnoreBarostat.__init__ h states = inr self →
  ∃ n0, self = IgnoreBarostat.mk n0 states [] [] ∧ (n0 ≤ 1)%nat ∧ states ≠ [] ∧
        ∀ s, s ∈ states → count (forces (h (system s))) = n0.
Proof.
  unfold IgnoreBarostat.__init__.
  destruct (list_comp _ states) as [e|ns] eqn:Hcomp; simpl; [done|].
  apply list_comp_inr in Hcomp as [Hlen Hall].
  destruct ns as [|n0 rest]; [done|]. case_decide as Hmm; [|done].
  intros [= <-]. exists n0.
  destruct states as [|s0 states]; [done|].
  destruct (Hall 0 s0 eq_refl) as (y & [= <-] & Hs0).
  apply get_num_barostats_inr in Hs0 as [Hc0 Hle].
  repeat split; [done..|].
  intros s Hs. apply list_elem_of_lookup in Hs as [k Hk].
  destruct (Hall k s Hk) as (y & Hy & Hsy).
  apply get_num_barostats_inr in Hsy as [<- _].
  destruct k as [|k]; simpl in *; [congruence|].
  apply (array_min_max_eq _ _ Hmm). apply list_elem_of_lookup. eauto.
Qed.

Lemma init_inl (h : heap num) (states : list (ThermodynamicState num)) (e : exn) :
  IgnoreBarostat.__init__ h states = inl e →
  e = ValueError "Found multiple barostats!" ∨
  (states = [] ∧
   e = ValueError "zero-size array to reduction operation minimum which has no identity") ∨
  e = AssertionError "".
Proof.
  unfold IgnoreBarostat.__init__.
  destruct (list_comp _ states) as [e'|ns] eqn:Hcomp; simpl.
  - intros [= <-]. left. apply list_comp_inl in Hcomp as (s & _ & Hs).
    by apply get_num_barostats_inl in Hs.
  - apply list_comp_inr in Hcomp as [Hlen _].
    destruct ns as [|n0 rest].
    + intros [= <-]. right; left. split; [|done]. by destruct states.
    + case_decide; [done|]. intros [= <-]. by right; right.
Qed.

(** The system with its barostat set to the sentinel values. *)
Local Abbreviation normalize s := (IgnoreBarostat.set_system fone 1 s).

Lemma normalize_without_barostat (s : System num) :
  count (forces s) = 0 → normalize s = s.
Proof.
  intros H0. destruct (at_most_one_barostat (forces s)) as [[_ Hid] _]; [lia|done|].
  destruct s as [n fs]. unfold IgnoreBarostat.set_system; simpl in *. by rewrite Hid.
Qed.

Lemma enter_state_ok (x : ThermodynamicState num) (self : IgnoreBarostat.t num)
    (h : heap num) (a : num) (b : Z) :
  (0 < IgnoreBarostat.num_barostats self)%nat →
  (0 < count (forces (h (system x))))%nat →
  bound (forces (h (system x))) = Some (a, b) →
  IgnoreBarostat.enter_state x self h
  = (inr (IgnoreBarostat.mk (IgnoreBarostat.num_barostats self)
            (IgnoreBarostat.thermodynamic_states self)
            (IgnoreBarostat.temperatures self ++ [a]) (IgnoreBarostat.seeds self ++ [b])),
     <[system x := normalize (h (system x))]> h).
Proof.
  intros Hn Hc Hb.
  unfold IgnoreBarostat.enter_state, sbind, reading, IgnoreBarostat.get_barostat_state,
    IgnoreBarostat.set_barostat_state; simpl.
  rewrite decide_False by lia. rewrite Hb; simpl.
  rewrite decide_False by lia. rewrite decide_False by lia.
  rewrite fn_lookup_insert. simpl. by rewrite bound_set_force.
Qed.

Lemma enter_loop (l : list (ThermodynamicState num)) (self : IgnoreBarostat.t num)
    (h : heap num) :
  (0 < IgnoreBarostat.num_barostats self)%nat →
  (∀ s, s ∈ l → count (forces (h (system s))) = 1) →
  ∃ Ts Ss h',
    IgnoreBarostat.sfor_each l IgnoreBarostat.enter_state self h
    = (inr (IgnoreBarostat.mk (IgnoreBarostat.num_barostats self)
              (IgnoreBarostat.thermodynamic_states self)
              (IgnoreBarostat.temperatures self ++ Ts) (IgnoreBarostat.seeds self ++ Ss)), h') ∧
    length Ts = length l ∧ length Ss = length l ∧
    (∀ loc, loc ∈ system <$> l → h' loc = normalize (h loc)) ∧
    (∀ loc, loc ∉ system <$> l → h' loc = h loc) ∧
    (NoDup (system <$> l) → ∀ k s, l !! k = Some s →
       ∃ a b, Ts !! k = Some a ∧ Ss !! k = Some b ∧
              bound (forces (h (system s))) = Some (a, b)).
Proof.
  revert self h. induction l as [|x l IH]; intros self h Hn Hone.
  - exists [], [], h. simpl. rewrite !app_nil_r. destruct self; simpl.
    split; [done|]. split; [done|]. split; [done|]. split; [|split; [done|]].
    + intros loc Hloc. by apply elem_of_nil in Hloc.
    + intros _ k s Hk. by rewrite lookup_nil in Hk.
  - assert (Hx : count (forces (h (system x))) = 1) by (apply Hone, elem_of_cons; by left).
    destruct (at_most_one_barostat (forces (h (system x)))) as [_ H1]; [lia|].
    destruct (H1 Hx) as (a & b & Hb & _).
    set (h1 := <[system x := normalize (h (system x))]> h).
    assert (Hh1 : ∀ loc, h1 loc = h loc ∨ h1 loc = normalize (h loc)).
    { intros loc. unfold h1. destruct (decide (system x = loc)) as [<-|Hne].
      - right. by rewrite fn_lookup_insert.
      - left. by rewrite fn_lookup_insert_ne. }
    destruct (IH (IgnoreBarostat.mk (IgnoreBarostat.num_barostats self)
                    (IgnoreBarostat.thermodynamic_states self)
                    (IgnoreBarostat.temperatures self ++ [a])
                    (IgnoreBarostat.seeds self ++ [b])) h1)
      as (Ts & Ss & h' & Hrun & HTs & HSs & Hin & Hout & Hsaved); [done| |].
    { intros s Hs. destruct (Hh1 (system s)) as [->| ->].
      - apply Hone, elem_of_cons. by right.
      - simpl. rewrite count_set_force. apply Hone, elem_of_cons. by right. }
    simpl in Hrun. rewrite <- !app_assoc in Hrun. simpl in Hrun.
    exists (a :: Ts), (b :: Ss), h'. simpl.
    unfold sbind at 1. rewrite (enter_state_ok x self h a b) by (done || lia).
    fold h1. rewrite Hrun. repeat split; [by rewrite HTs|by rewrite HSs| | |].
    + intros loc Hloc.
      destruct (decide (loc ∈ system <$> l)) as [Hl|Hl].
      * rewrite (Hin loc Hl). destruct (Hh1 loc) as [->| ->]; [done|].
        apply set_system_twice.
      * rewrite (Hout loc Hl). apply elem_of_cons in Hloc. destruct Hloc as [->|Hloc]; [|done].
        unfold h1. by rewrite fn_lookup_insert.
    + intros loc Hloc.
      rewrite Hout by (intros Hl; apply Hloc, elem_of_cons; by right).
      unfold h1. rewrite fn_lookup_insert_ne; [done|].
      intros Heq. apply Hloc, elem_of_cons. by left.
    + intros Hnd k s Hk. apply NoDup_cons in Hnd as [Hx' Hnd].
      destruct k as [|k]; simpl in *.
      * inversion Hk; subst. eauto.
      * destruct (Hsaved Hnd k s Hk) as (a' & b' & Ha' & Hb' & Hbound).
        exists a', b'. repeat split; [done..|].
        rewrite <- Hbound. unfold h1. rewrite fn_lookup_insert_ne; [done|].
        intros Heq. apply Hx'. rewrite Heq. apply list_elem_of_fmap_2.
        apply list_elem_of_lookup. eauto.
Qed.

(** The loop of [__exit__], from position [a] of the saved lists on. *)
Lemma exit_loop (self : IgnoreBarostat.t num) (l : list (ThermodynamicState num))
    (a : nat) (h : heap num) :
  (0 < IgnoreBarostat.num_barostats self)%nat →
  (∀ k, (k < length l)%nat →
     is_Some (IgnoreBarostat.temperatures self !! (a + k)%nat) ∧
     is_Some (IgnoreBarostat.seeds self !! (a + k)%nat)) →
  ∃ h',
    IgnoreBarostat.sfor_each (zip (seq a (length l)) l) (fun '(k, state) _ =>
        sbind (reading (fun _ => getitem (IgnoreBarostat.temperatures self) k)) (fun temperature =>
        sbind (reading (fun _ => getitem (IgnoreBarostat.seeds self) k)) (fun seed =>
        IgnoreBarostat.set_barostat_state self state temperature seed))) tt h
    = (inr tt, h') ∧
    (∀ loc, loc ∉ system <$> l → h' loc = h loc) ∧
    (NoDup (system <$> l) → ∀ k s T sd,
       l !! k = Some s →
       IgnoreBarostat.temperatures self !! (a + k)%nat = Some T →
       IgnoreBarostat.seeds self !! (a + k)%nat = Some sd →
       h' (system s) = IgnoreBarostat.set_system T sd (h (system s))).
Proof.
  intros Hn. revert a h. induction l as [|x l IH]; intros a h Hsaved.
  - exists h. simpl. split; [done|]. split; [done|].
    intros _ k s T sd Hk. by rewrite lookup_nil in Hk.
  - destruct (Hsaved 0) as [[T HT] [sd Hsd]]; [simpl; lia|].
    rewrite Nat.add_0_r in HT, Hsd.
    set (h1 := <[system x := IgnoreBarostat.set_system T sd (h (system x))]> h).
    destruct (IH (S a) h1) as (h' & Hrun & Hout & Hin).
    { intros k Hk. replace (S a + k)%nat with (a + S k)%nat by lia.
      apply Hsaved. simpl. lia. }
    exists h'. simpl. unfold sbind at 1. unfold sbind at 1, reading at 1, getitem at 1.
    rewrite HT. simpl. unfold sbind at 1, reading at 1, getitem at 1. rewrite Hsd. simpl.
    unfold IgnoreBarostat.set_barostat_state at 1. rewrite decide_False by lia.
    fold h1. split; [exact Hrun|]. split.
    + intros loc Hloc. rewrite Hout by (intros Hl; apply Hloc, elem_of_cons; by right).
      unfold h1. rewrite fn_lookup_insert_ne; [done|].
      intros Heq. apply Hloc, elem_of_cons. by left.
    + intros Hnd k s T' sd' Hk HT' Hsd'. apply NoDup_cons in Hnd as [Hx Hnd].
      destruct k as [|k]; simpl in Hk.
      * inversion Hk; subst s. rewrite Nat.add_0_r in HT', Hsd'.
        assert (T' = T) as -> by congruence. assert (sd' = sd) as -> by congruence.
        rewrite Hout by done. unfold h1. by rewrite fn_lookup_insert.
      * replace (a + S k)%nat with (S a + k)%nat in HT', Hsd' by lia.
        rewrite (Hin Hnd k s T' sd' Hk HT' Hsd'). unfold h1.
        rewrite fn_lookup_insert_ne; [done|].
        intros Heq. apply Hx. rewrite Heq. apply list_elem_of_fmap_2.
        apply list_elem_of_lookup. eauto.
Qed.

(** [__exit__] returns [False] whenever it returns. *)
Lemma exit_returns_False (self : IgnoreBarostat.t num) (h h' : heap num) (b : bool) :
  IgnoreBarostat.__exit__ self h = (inr b, h') → b = false.
Proof.
  unfold IgnoreBarostat.__exit__, sbind.
  destruct (if decide _ then _ else _) as [[e|[]] h1]; [done|]. by intros [= <- _].
Qed.

(** [__enter__] on the object built by [__init__]. *)
Lemma enter_ok (n0 : nat) (states : list (ThermodynamicState num)) (h : heap num) :
  (n0 ≤ 1)%nat →
  (∀ s, s ∈ states → count (forces (h (system s))) = n0) →
  ∃ Ts Ss h1,
    IgnoreBarostat.__enter__ (IgnoreBarostat.mk n0 states [] []) h
    = (inr (IgnoreBarostat.mk n0 states Ts Ss), h1) ∧
    ((0 < n0)%nat → length Ts = length states ∧ length Ss = length states) ∧
    (∀ s, s ∈ states → h1 (system s) = normalize (h (system s))) ∧
    (∀ loc, loc ∉ system <$> states → h1 loc = h loc) ∧
    ((0 < n0)%nat → NoDup (system <$> states) → ∀ k s, states !! k = Some s →
       ∃ a b, Ts !! k = Some a ∧ Ss !! k = Some b ∧
              bound (forces (h (system s))) = Some (a, b)) ∧
    (n0 = 0 → h1 = h).
Proof.
  intros Hle Hcount. unfold IgnoreBarostat.__enter__; simpl.
  destruct (decide (0 < n0)%nat) as [Hpos|Hzero].
  - assert (n0 = 1) as -> by lia.
    destruct (enter_loop states (IgnoreBarostat.mk 1 states [] []) h)
      as (Ts & Ss & h1 & Hrun & HTs & HSs & Hin & Hout & Hsaved); [simpl; lia|done|].
    simpl in Hrun. exists Ts, Ss, h1. split; [done|]. split; [done|].
    split; [|split; [done|split; [done|lia]]].
    intros s Hs. apply Hin. by apply list_elem_of_fmap_2.
  - assert (n0 = 0) as -> by lia. exists [], [], h.
    split; [done|]. split; [lia|]. split; [|split; [done|split; [lia|done]]].
    intros s Hs. symmetry. apply normalize_without_barostat. by apply Hcount.
Qed.

(** [__exit__] once every state has a saved temperature and seed. *)
Lemma exit_ok (self : IgnoreBarostat.t num) (h : heap num) :
  ((0 < IgnoreBarostat.num_barostats self)%nat →
   length (IgnoreBarostat.temperatures self) = length (IgnoreBarostat.thermodynamic_states self) ∧
   length (IgnoreBarostat.seeds self) = length (IgnoreBarostat.thermodynamic_states self)) →
  ∃ h',
    IgnoreBarostat.__exit__ self h = (inr false, h') ∧
    (∀ loc, loc ∉ system <$> IgnoreBarostat.thermodynamic_states self → h' loc = h loc) ∧
    ((0 < IgnoreBarostat.num_barostats self)%nat →
     NoDup (system <$> IgnoreBarostat.thermodynamic_states self) → ∀ k s T sd,
       IgnoreBarostat.thermodynamic_states self !! k = Some s →
       IgnoreBarostat.temperatures self !! k = Some T →
       IgnoreBarostat.seeds self !! k = Some sd →
       h' (system s) = IgnoreBarostat.set_system T sd (h (system s))) ∧
    (IgnoreBarostat.num_barostats self = 0 → h' = h).
Proof.
  intros Hlen. unfold IgnoreBarostat.__exit__.
  destruct (decide (0 < IgnoreBarostat.num_barostats self)%nat) as [Hpos|Hzero].
  - destruct (Hlen Hpos) as [HTs HSs].
    destruct (exit_loop self (IgnoreBarostat.thermodynamic_states self) 0 h)
      as (h' & Hexit & Hout & Hin); [done| |].
    { intros k Hk. simpl. split; apply lookup_lt_is_Some_2; lia. }
    exists h'. unfold IgnoreBarostat.enumerate, sbind at 1. rewrite Hexit.
    split; [done|]. split; [done|]. split; [|lia].
    intros _ Hnd k s T sd Hk HT Hsd. by apply (Hin Hnd k).
  - exists h. unfold sbind. split; [done|]. split; [done|]. split; [lia|done].
Qed.

(** The [with] statement around a body that only reads the store, once
    [__init__] has returned: [__enter__] does not raise, the body runs on
    the store [h1] in which the system of every state is normalised and
    nothing else has changed, [__exit__] does not raise and an exception of
    the body is raised again.  Systems that no state refers to are never
    touched, and when no two states share a system the final store is the
    initial one. *)
Lemma with_reading {A} (states : list (ThermodynamicState num))
    (f : heap num → result A) (h : heap num) (self : IgnoreBarostat.t num) :
  IgnoreBarostat.__init__ h states = inr self →
  ∃ h1 h3,
    IgnoreBarostat.with_ states (reading f) h
    = (match f h1 with inl e => inl e | inr a => inr (Some a) end, h3) ∧
    (∀ s, s ∈ states → h1 (system s) = normalize (h (system s))) ∧
    (∀ loc, loc ∉ system <$> states → h1 loc = h loc) ∧
    (∀ loc, loc ∉ system <$> states → h3 loc = h loc) ∧
    (NoDup (system <$> states) → ∀ loc, h3 loc = h loc).
Proof.
  intros Hinit. unfold IgnoreBarostat.with_. rewrite Hinit.
  apply init_inr in Hinit as (n0 & -> & Hle & Hne & Hcount).
  destruct (enter_ok n0 states h Hle Hcount)
    as (Ts & Ss & h1 & Henter & Hlen & Hin & Hout & Hsaved & Hsame).
  rewrite Henter. unfold reading at 1.
  destruct (exit_ok (IgnoreBarostat.mk n0 states Ts Ss) h1)
    as (h3 & Hexit & Hout3 & Hin3 & Hsame3); [done|].
  rewrite Hexit. simpl in *.
  exists h1, h3. split; [by destruct (f h1)|]. split; [done|]. split; [done|]. split.
  - intros loc Hloc. by rewrite Hout3, Hout.
  - intros Hnd loc. destruct (decide (0 < n0)%nat) as [Hpos|Hzero].
    2: { assert (n0 = 0) as -> by lia. by rewrite Hsame3, Hsame. }
    destruct (decide (loc ∈ system <$> states)) as [Hl|Hl].
    + apply list_elem_of_fmap in Hl as (s & -> & Hs).
      apply list_elem_of_lookup in Hs as [k Hk].
      destruct (Hsaved Hpos Hnd k s Hk) as (a & b & Ha & Hb & Hbound).
      rewrite (Hin3 Hpos Hnd k s a b Hk Ha Hb).
      rewrite Hin by (apply list_elem_of_lookup; eauto).
      rewrite set_system_twice.
      assert (Hc : count (forces (h (system s))) = n0)
        by (apply Hcount, list_elem_of_lookup; eauto).
      destruct (at_most_one_barostat (forces (h (system s)))) as [_ H1]; [lia|].
      destruct H1 as (a' & b' & Hbound' & Hid); [lia|].
      assert (a' = a) as -> by congruence. assert (b' = b) as -> by congruence.
      destruct (h (system s)) as [n fs]. unfold IgnoreBarostat.set_system; simpl in *.
      by rewrite Hid.
    + by rewrite Hout3, Hout.
Qed.

(** X3.  The [with] statement never suppresses an exception: whatever the
    states, the body and the store, it does not complete normally after an
    exception of the body. *)
Lemma with_never_suppresses {A} (states : list (ThermodynamicState num))
    (body : stateful num A) (h : heap num) :
  (IgnoreBarostat.with_ states body h).1 ≠ inr None.
Proof.
  unfold IgnoreBarostat.with_.
  destruct (IgnoreBarostat.__init__ h states) as [e|self]; [done|].
  destruct (IgnoreBarostat.__enter__ self h) as [[e|self1] h1]; [done|].
  destruct (body h1) as [r h2].
  destruct (IgnoreBarostat.__exit__ self1 h2) as [[e|b] h3] eqn:Hexit; [done|].
  apply exit_returns_False in Hexit as ->. by destruct r.
Qed.

End Barostats.

Section ParallelTemperingChecks.
Context {num : Type} `{!Numeric num}.
Implicit Types states : list (ThermodynamicState num).

Lemma parallel_tempering_check_pressures states (h : heap num) :
  differ_in pressure states →
  ParallelTempering._check_self_consistency states h
  = (inl (ValueError "For ParallelTempering, ThermodynamicState objects cannot have different pressures!"), h).
Proof.
  intros Hd. unfold ParallelTempering._check_self_consistency, sbind at 1, reading at 1.
  rewrite (nested_check_raises (fun s0 s1 => pressure s0 ≠ pressure s1)); done.
Qed.

Lemma parallel_tempering_check_systems states (h : heap num) :
  ¬ differ_in pressure states →
  differ_in (fun s => IgnoreBarostat.set_system fone 1 (h (system s))) states →
  ∃ e h',
    ParallelTempering._check_self_consistency states h = (inl e, h') ∧
    (e = ValueError "Found multiple barostats!" ∨
     e = AssertionError "" ∨
     e = ValueError "For ParallelTempering, ThermodynamicState objects cannot have different systems!").
Proof.
  intros Hp Hd. unfold ParallelTempering._check_self_consistency, sbind at 1, reading at 1.
  rewrite (nested_check_passes (fun s0 s1 => pressure s0 ≠ pressure s1)).
  2: { intros s0 s1 H0 H1 Hne. apply Hp. by exists s0, s1. }
  unfold sbind at 1.
  destruct (IgnoreBarostat.__init__ h states) as [e|self] eqn:Hinit.
  - unfold IgnoreBarostat.with_. rewrite Hinit. exists e, h. split; [done|].
    apply init_inl in Hinit as [->|[[-> _]| ->]]; [by left| |by right; left].
    destruct Hd as (s0 & _ & H0 & _). by apply elem_of_nil in H0.
  - destruct (with_reading states
      (fun h1 => for_each states (fun s0 _ =>
         for_each states (fun s1 _ =>
           if decide (__getstate__ (h1 (system s0)) ≠ __getstate__ (h1 (system s1)))
           then raise (ValueError "For ParallelTempering, ThermodynamicState objects cannot have different systems!")
           else ret tt) tt) tt) h self Hinit)
      as (h1 & h3 & Hwith & Hnorm & _).
    rewrite Hwith.
    rewrite (nested_check_raises
      (fun s0 s1 => __getstate__ (h1 (system s0)) ≠ __getstate__ (h1 (system s1)))).
    + exists (ValueError "For ParallelTempering, ThermodynamicState objects cannot have different systems!"), h3.
      split; [done|]. by right; right.
    + destruct Hd as (s0 & s1 & H0 & H1 & Hne). exists s0, s1.
      split; [done|]. split; [done|]. unfold __getstate__. by rewrite !Hnorm.
Qed.

End ParallelTemperingChecks.

(** C2.  A Hamiltonian-exchange object built from states of which two
    differ in temperature or pressure, and a parallel-tempering object
    built from states of which two differ in pressure or in their system
    once the barostat temperature and seed are set to the sentinel, is
    refused by the check that [__init__] runs first: the constructor of the
    base class is never reached, so nothing of the run has started.  The
    exception is the [ValueError] of the check, except that the barostat
    helper reports states with different numbers of barostats by a failed
    assertion. *)
Theorem construction_rejects_inconsistent_states
    {num E : Type} `{!Numeric num} (states : list (ThermodynamicState num)) :
  (differ_in temperature states ∨ differ_in pressure states →
   ∀ super_init : list (ThermodynamicState num) → result E,
   ∃ msg,
     HamiltonianExchange.__init__ super_init states = inl (ValueError msg) ∧
     (msg = "For HamiltonianExchange, ThermodynamicState objects cannot have different pressures!" ∨
      msg = "For HamiltonianExchange, ThermodynamicState objects cannot have different temperatures!")) ∧
  (∀ h : heap num,
   differ_in pressure states ∨
   differ_in (fun s => IgnoreBarostat.set_system fone 1 (h (system s))) states →
   ∀ super_init : list (ThermodynamicState num) → stateful num E,
   ∃ e h',
     ParallelTempering.__init__ super_init states h = (inl e, h') ∧
     (e = ValueError "For ParallelTempering, ThermodynamicState objects cannot have different pressures!" ∨
      e = ValueError "For ParallelTempering, ThermodynamicState objects cannot have different systems!" ∨
      e = ValueError "Found multiple barostats!" ∨
      e = AssertionError "")).
Proof.
  split.
  - intros Hd super_init. unfold HamiltonianExchange.__init__.
    destruct (decide (Exists (fun s0 => Exists (fun s1 => pressure s0 ≠ pressure s1) states) states))
      as [Hp|Hp].
    + eexists. rewrite hamiltonian_check_pressures; [split; [done|by left]|].
      apply List.Exists_exists in Hp as (s0 & H0 & Hp).
      apply List.Exists_exists in Hp as (s1 & H1 & Hp).
      exists s0, s1. by rewrite !list_elem_of_In.
    + assert (Hnp : ¬ differ_in pressure states).
      { intros (s0 & s1 & H0 & H1 & Hne). apply Hp.
        apply List.Exists_exists. exists s0. split; [by apply list_elem_of_In|].
        apply List.Exists_exists. exists s1. split; [by apply list_elem_of_In|done]. }
      destruct Hd as [Hd|Hd]; [|done].
      eexists. rewrite hamiltonian_check_temperatures by done. split; [done|by right].
  - intros h Hd super_init. unfold ParallelTempering.__init__, sbind at 1.
    destruct (decide (Exists (fun s0 => Exists (fun s1 => pressure s0 ≠ pressure s1) states) states))
      as [Hp|Hp].
    + rewrite parallel_tempering_check_pressures.
      * eexists _, h. split; [done|by left].
      * apply List.Exists_exists in Hp as (s0 & H0 & Hp).
        apply List.Exists_exists in Hp as (s1 & H1 & Hp).
        exists s0, s1. by rewrite !list_elem_of_In.
    + assert (Hnp : ¬ differ_in pressure states).
      { intros (s0 & s1 & H0 & H1 & Hne). apply Hp.
        apply List.Exists_exists. exists s0. split; [by apply list_elem_of_In|].
        apply List.Exists_exists. exists s1. split; [by apply list_elem_of_In|done]. }
      destruct Hd as [Hd|Hd]; [done|].
      destruct (parallel_tempering_check_systems states h Hnp Hd) as (e & h' & Hrun & He).
      rewrite Hrun. exists e, h'. split; [done|].
      destruct He as [->|[->| ->]]; auto.
Qed.

Lemma construction_rejects_inconsistent_states_witness :
  (∃ msg,
     HamiltonianExchange.__init__ (fun _ => ret tt) Examples.two_temperatures
     = inl (ValueError msg) ∧
     (msg = "For HamiltonianExchange, ThermodynamicState objects cannot have different pressures!" ∨
      msg = "For HamiltonianExchange, ThermodynamicState objects cannot have different temperatures!")) ∧
  (∃ e h',
     ParallelTempering.__init__ (fun _ h => (ret tt, h)) Examples.two_pressures Examples.store
     = (inl e, h') ∧
     (e = ValueError "For ParallelTempering, ThermodynamicState objects cannot have different pressures!" ∨
      e = ValueError "For ParallelTempering, ThermodynamicState objects cannot have different systems!" ∨
      e = ValueError "Found multiple barostats!" ∨
      e = AssertionError "")).
Proof.
  split.
  - apply (proj1 (construction_rejects_inconsistent_states Examples.two_temperatures)).
    left. eexists _, _. split; [apply elem_of_cons; left; reflexivity|].
    split; [apply elem_of_cons; right; apply elem_of_cons; left; reflexivity|].
    vm_compute. intros H. discriminate H.
  - apply (proj2 (construction_rejects_inconsistent_states Examples.two_pressures)).
    left. eexists _, _. split; [apply elem_of_cons; left; reflexivity|].
    split; [apply elem_of_cons; right; apply elem_of_cons; left; reflexivity|].
    vm_compute. intros H. discriminate H.
Defined.

(** ** C5: the barostat helper and shared systems *)

(** X4.  When no two states share a system, the [with] statement around a
    body that only reads the store leaves every system as it found it,
    whether [__init__] raises, the body returns or the body raises. *)
Lemma ignore_barostat_restores_unshared {num A : Type} `{!Numeric num}
    (states : list (ThermodynamicState num)) (f : heap num → result A) (h : heap num) :
  NoDup (system <$> states) →
  ∀ loc, (IgnoreBarostat.with_ states (reading f) h).2 loc = h loc.
Proof.
  intros Hnd loc.
  destruct (IgnoreBarostat.__init__ h states) as [e|self] eqn:Hinit.
  - unfold IgnoreBarostat.with_. by rewrite Hinit.
  - destruct (with_reading states f h self Hinit) as (h1 & h3 & -> & _ & _ & _ & Hsame).
    simpl. by apply Hsame.
Qed.

(** C5 fails when two states share a system: [__enter__] saves the
    sentinel for the second state, and [__exit__] writes it back last.  With the two states of
    [Examples.shared_states], which refer to the same system, a [with] block
    whose body does nothing returns normally and leaves the barostat at
    temperature 1 and seed 1 instead of 300 K and 42. *)
Theorem ignore_barostat_shared_system_not_restored :
  let '(r, h') :=
    IgnoreBarostat.with_ Examples.shared_states (reading (fun _ => ret tt)) Examples.store in
  r = inr (Some tt) ∧
  Examples.store 0 = Examples.barostat_system (Examples.kelvin 300) 42 ∧
  h' 0 = Examples.barostat_system (Examples.kelvin 1) 1 ∧
  h' 0 ≠ Examples.store 0.
Proof.
  vm_compute. repeat split. intros H. discriminate H.
Qed.

(** ** C9: the temperature ladder of [ParallelTempering.create] *)

Section TemperatureLadder.
Context {num : Type} `{!FloatArith num}.



End TemperatureLadder.



(** ** C8: creating a run through [ParallelTempering.create] *)

Lemma replica_exchange_is_unbound :
  ParallelTempering.global_name "replica_exchange" = inl (NameError "replica_exchange").
Proof. reflexivity. Qed.

(** [create] never reaches the code that follows line 131: whatever the
    arguments, it raises and leaves the store as it was. *)
Lemma create_always_raises {num E C : Type} `{!FloatArith num}
    (rest : list (ThermodynamicState num) → C → stateful num E)
    (system : loc) (coordinates : C) (T_min T_max : option num)
    (temperatures : option (list num)) (n_temps : option Z) (pressure : option num)
    (h : heap num) :
  ∃ e, ParallelTempering.create rest system coordinates T_min T_max temperatures n_temps pressure h
       = (inl e, h).
Proof.
  unfold ParallelTempering.create.
  destruct (ParallelTempering.create_temperatures T_min T_max temperatures n_temps)
    as [e|[ts n]]; simpl; [by exists e|].
  destruct (list_comp _ (range (Z.to_nat n))) as [e|states]; simpl; [by exists e|].
  by eexists.
Qed.

(** C8 fails on [ParallelTempering.create]: with two temperatures (300 K
    and 400 K, say) given explicitly, the two
    states are built and the evaluation of the name [replica_exchange]
    raises [NameError], before the coordinates are validated, the database
    is constructed or iteration zero is run; and no argument at all makes
    [create] return. *)
Theorem create_raises_NameError :
  (∀ (num E C : Type) (arith : FloatArith num)
     (rest : list (ThermodynamicState num) → C → stateful num E)
     (system : loc) (coordinates : C) (T_300 T_400 : num) (pressure : option num) (h : heap num),
   ParallelTempering.create rest system coordinates None None (Some [T_300; T_400]) None pressure h
   = (inl (NameError "replica_exchange"), h)) ∧
  (∀ (num E C : Type) (arith : FloatArith num)
     (rest : list (ThermodynamicState num) → C → stateful num E)
     (system : loc) (coordinates : C) (T_min T_max : option num)
     (temperatures : option (list num)) (n_temps : option Z) (pressure : option num)
     (h : heap num),
   ∀ engine,
     (ParallelTempering.create rest system coordinates T_min T_max temperatures n_temps pressure h).1
     ≠ inr engine).
Proof.
  split.
  - intros. unfold ParallelTempering.create. by simpl.
  - intros num E C arith rest system coordinates T_min T_max temperatures n_temps pressure h.
    destruct (create_always_raises rest system coordinates T_min T_max temperatures
                n_temps pressure h) as [e ->].
    done.
Qed.

(** ** The checkpoint database *)

Section DatabaseFacts.
Context {F64 F32 Unit State : Type}.
Context `{!NetCDF.Storage F64 F32} `{!NetCDF.Interpreter F64 Unit}
        `{!NetCDF.ThermodynamicStateAPI State F64 F32}.
Implicit Types nc : NetCDF.Dataset (F64:=F64) (F32:=F32).

(** *** C6: resuming from a file without the static records *)

Lemma restore_database_without_states nc (title : string) :
  NetCDF.grp_thermodynamic_states nc = None →
  NetCDF.restore_database (State:=State) (Unit:=Unit) nc title
  = inl (ValueError "thermodynamics_states not found in database!").
Proof.
  intros Hg. unfold NetCDF.restore_database, NetCDF.load_thermodynamic_states.
  by rewrite Hg.
Qed.

Lemma restore_database_without_options nc (title : string) (states : list State) :
  NetCDF.load_thermodynamic_states nc = inr states →
  NetCDF.grp_options nc = None →
  NetCDF.restore_database (State:=State) (Unit:=Unit) nc title
  = inl (ValueError "Options not found in NetCDF file!").
Proof.
  intros Hs Hg. unfold NetCDF.restore_database. rewrite Hs. simpl.
  unfold NetCDF.load_options. by rewrite Hg.
Qed.

(** C6.  Opening an existing file that lacks the group
    [thermodynamic_states] or the group [options] raises instead of
    returning a database: [restore_database], and with it
    [NetCDFDatabase.__init__], stops with the [ValueError] of
    [load_thermodynamic_states] when the first group is missing, and, when
    the states have been read, with the [ValueError] of [load_options] when
    the second is missing. *)
Theorem resume_fails_without_static_records nc (options : gmap string (NetCDF.pyval F64 Unit)) :
  NetCDF.grp_thermodynamic_states nc = None ∨ NetCDF.grp_options nc = None →
  ∃ e,
    NetCDF.__init__ (State:=State) (Some nc) options None None = inl e ∧
    NetCDF.restore_database (State:=State) (Unit:=Unit) nc "No Title." = inl e ∧
    (NetCDF.grp_thermodynamic_states nc = None →
     e = ValueError "thermodynamics_states not found in database!") ∧
    (∀ states : list State, NetCDF.load_thermodynamic_states nc = inr states →
     e = ValueError "Options not found in NetCDF file!").
Proof.
  intros Hmissing. unfold NetCDF.__init__. simpl.
  destruct (NetCDF.grp_thermodynamic_states nc) as [g|] eqn:Hg.
  - destruct Hmissing as [?|Hopt]; [done|].
    destruct (NetCDF.load_thermodynamic_states (State:=State) nc) as [e|states] eqn:Hs.
    + exists e. unfold NetCDF.restore_database. rewrite Hs. simpl.
      split; [done|]. split; [done|]. split; [done|]. intros states' [=].
    + rewrite (restore_database_without_options nc _ states Hs Hopt). simpl.
      eexists. split; [done|]. split; [done|]. split; done.
  - rewrite (restore_database_without_states nc _ Hg). simpl.
    eexists. split; [done|]. split; [done|]. split; [done|].
    intros states Hs. unfold NetCDF.load_thermodynamic_states in Hs. by rewrite Hg in Hs.
Qed.

(** *** C7: the options *)

Lemma eval_type_call_stored (v : NetCDF.pyval F64 Unit) (var : NetCDF.OptVar) :
  NetCDF.is_scalar v = true →
  NetCDF.store_option v = inr var →
  NetCDF.ov_units var = None ∧
  NetCDF.eval_type_call (NetCDF.ov_type var) (NetCDF.ov_value var) = inr v.
Proof.
  destruct v as [|b|z|x|s|m u]; simpl; try done; intros _ [= <-]; simpl; split; try done.
  by destruct b.
Qed.

Lemma store_option_scalar (v : NetCDF.pyval F64 Unit) :
  NetCDF.is_scalar v = true → ∃ var, NetCDF.store_option v = inr var.
Proof. destruct v; simpl; try done; intros _; by eexists. Qed.

(** One option: what [_store_options] writes for it is read back by
    [load_options] as the value itself. *)
Lemma option_round_trip (v : NetCDF.pyval F64 Unit) :
  NetCDF.scalar_option v →
  ∃ var, NetCDF.store_option v = inr var ∧ NetCDF.load_option var = inr v.
Proof.
  destruct v as [|b|z|x|s|m u]; simpl; try done.
  - intros _. eexists; split; [done|]. by destruct b.
  - intros _. by eexists.
  - intros _. by eexists.
  - intros _. by eexists.
  - intros [Hm Hu].
    destruct m as [|b|z|x|s|m' u']; simpl in Hm; try done;
      (eexists; split; [done|]); unfold NetCDF.load_option; simpl; rewrite Hu; simpl; try done.
    by destruct b.
Qed.

Lemma store_options_loop (options : gmap string (NetCDF.pyval F64 Unit))
    (names : list string) (acc : list (string * NetCDF.OptVar)) :
  (∀ name, name ∈ names → ∃ v, options !! name = Some v ∧ NetCDF.scalar_option v) →
  ∃ vars,
    for_each names (fun option_name ncgrp_options =>
      let option_value := default NetCDF.PNone (options !! option_name) in
      let* ncvar := NetCDF.store_option option_value in
      ret (ncgrp_options ++ [(option_name, ncvar)])) acc
    = inr (acc ++ vars) ∧
    Forall2 (fun name (entry : string * NetCDF.OptVar) =>
      entry.1 = name ∧ ∃ v, options !! name = Some v ∧ NetCDF.load_option entry.2 = inr v)
      names vars.
Proof.
  revert acc. induction names as [|name names IH]; intros acc Hall.
  - exists []. simpl. by rewrite app_nil_r.
  - destruct (Hall name) as (v & Hv & Hs); [apply elem_of_cons; by left|].
    destruct (option_round_trip v Hs) as (var & Hstore & Hload).
    destruct (IH (acc ++ [(name, var)])) as (vars & Hrun & Hvars).
    { intros n Hn. apply Hall, elem_of_cons. by right. }
    exists ((name, var) :: vars). rewrite for_each_cons. cbv beta zeta. rewrite Hv.
    change (default NetCDF.PNone (Some v)) with v. rewrite Hstore, !bind_inr.
    cbv beta zeta in Hrun. rewrite Hrun, <- app_assoc. split; [done|].
    constructor; [|done]. split; [done|]. eauto.
Qed.

Lemma load_options_loop (options : gmap string (NetCDF.pyval F64 Unit))
    (names : list string) (vars : list (string * NetCDF.OptVar))
    (m : gmap string (NetCDF.pyval F64 Unit)) :
  Forall2 (fun name (entry : string * NetCDF.OptVar) =>
    entry.1 = name ∧ ∃ v, options !! name = Some v ∧ NetCDF.load_option entry.2 = inr v)
    names vars →
  ∃ m',
    for_each vars (fun '(option_name, option_ncvar) options =>
      let* option_value := NetCDF.load_option option_ncvar in
      ret (<[option_name := option_value]> options)) m
    = inr m' ∧
    ∀ name, m' !! name = if decide (name ∈ names) then options !! name else m !! name.
Proof.
  intros Hall. revert m. induction Hall as [|name [name' var] names vars [Hn Hv] _ IH]; intros m.
  - exists m. split; [done|]. intros name. rewrite decide_False; [done|]. apply not_elem_of_nil.
  - simpl in Hn. subst name'. destruct Hv as (v & Hv & Hload). simpl in Hload.
    destruct (IH (<[name := v]> m)) as (m' & Hrun & Hm').
    exists m'. rewrite for_each_cons. cbv beta iota zeta. rewrite Hload, !bind_inr.
    cbv beta iota zeta in Hrun. split; [done|].
    intros n. rewrite Hm'. destruct (decide (n ∈ names)) as [Hin|Hnin].
    + rewrite decide_True; [done|]. apply elem_of_cons. by right.
    + destruct (decide (n = name)) as [->|Hne].
      * rewrite decide_True by (apply elem_of_cons; by left). by rewrite lookup_insert_eq.
      * rewrite decide_False by (intros [?|?]%elem_of_cons; done).
        by rewrite lookup_insert_ne.
Qed.

(** C7.  When every option of [options_to_store] is set to a boolean, an
    integer, a float, a string or a quantity of these (whose unit
    [simtk.unit] reads back from its name), [_store_options] succeeds and
    [load_options] on the resulting file returns, for each of these options,
    the value that was stored: the same constructor (Python type), the same
    value and, for a quantity, the same unit; it returns nothing else. *)
Theorem options_round_trip nc (options : gmap string (NetCDF.pyval F64 Unit)) :
  (∀ name, name ∈ NetCDF.options_to_store →
     ∃ v, options !! name = Some v ∧ NetCDF.scalar_option v) →
  ∃ nc' loaded,
    NetCDF._store_options options nc = inr nc' ∧
    NetCDF.load_options nc' = inr loaded ∧
    (∀ name, name ∈ NetCDF.options_to_store → loaded !! name = options !! name) ∧
    (∀ name, name ∉ NetCDF.options_to_store → loaded !! name = None).
Proof.
  intros Hall. unfold NetCDF._store_options.
  destruct (store_options_loop options NetCDF.options_to_store [] Hall) as (vars & Hrun & Hvars).
  cbv beta zeta in Hrun. rewrite Hrun. simpl.
  destruct (load_options_loop options NetCDF.options_to_store vars ∅ Hvars) as (m & Hload & Hm).
  eexists _, m. split; [done|]. unfold NetCDF.load_options. simpl.
  split; [done|]. split.
  - intros name Hin. by rewrite Hm, decide_True.
  - intros name Hnin. by rewrite Hm, decide_False.
Qed.

(** *** Rows of the time series *)

Lemma setrow_spec nc (name : string) (i : Z) (row : NetCDF.ncarray F32) :
  (0 ≤ i)%Z → is_Some (NetCDF.variables nc !! name) →
  ∃ nc',
    NetCDF.setrow nc name i row = inr nc' ∧
    NetCDF.dim_iteration nc' = Nat.max (NetCDF.dim_iteration nc) (S (Z.to_nat i)) ∧
    NetCDF.dim_replica nc' = NetCDF.dim_replica nc ∧
    NetCDF.stored_row nc' name (Z.to_nat i) = Some row ∧
    (∀ name' k, name' ≠ name → NetCDF.stored_row nc' name' k = NetCDF.stored_row nc name' k) ∧
    (∀ name', is_Some (NetCDF.variables nc !! name') → is_Some (NetCDF.variables nc' !! name')).
Proof.
  intros Hi [var Hvar]. unfold NetCDF.setrow, NetCDF.variable. rewrite Hvar. simpl.
  rewrite decide_True by done. simpl. eexists. split; [done|]. simpl.
  split; [done|]. split; [done|]. split; [|split].
  - unfold NetCDF.stored_row; simpl. rewrite lookup_insert_eq. simpl.
    by rewrite lookup_insert_eq.
  - intros name' k Hne. unfold NetCDF.stored_row; simpl. by rewrite lookup_insert_ne.
  - intros name' Hsome. destruct (decide (name = name')) as [<-|Hne].
    + by rewrite lookup_insert_eq.
    + by rewrite lookup_insert_ne.
Qed.

Lemma getrow_stored nc (name : string) (k : nat) (row : NetCDF.ncarray F32) :
  (k < NetCDF.dim_iteration nc)%nat →
  NetCDF.stored_row nc name k = Some row →
  NetCDF.getrow nc name (Z.of_nat k) = inr row.
Proof.
  intros Hk. unfold NetCDF.stored_row, NetCDF.getrow, NetCDF.variable.
  destruct (NetCDF.variables nc !! name) as [var|]; [|done]. intros [= <-]. simpl.
  unfold NetCDF.index. rewrite decide_True by lia. simpl. by rewrite Nat2Z.id.
Qed.

Lemma range_lookup_fmap {A B} (f : A → B) (d : A) (l : list A) :
  (fun i => f (default d (l !! i))) <$> range (length l) = f <$> l.
Proof.
  apply list_eq. intros i. unfold range. rewrite !list_lookup_fmap.
  destruct (decide (i < length l)%nat) as [Hi|Hi].
  - rewrite lookup_seq_lt by done. simpl.
    destruct (lookup_lt_is_Some_2 l i Hi) as [x Hx]. by rewrite Hx.
  - rewrite lookup_seq_ge by lia. by rewrite lookup_ge_None_2 by lia.
Qed.

(** The loops of [_load_last_iteration] over the replicas. *)
Lemma load_replicas nc (name : string) (i : Z) (a : list (list (list F32))) :
  NetCDF.getrow nc name i = inr (NetCDF.Floats3 a) →
  list_comp (fun replica_index =>
      let* row := NetCDF.getrow nc name i in
      let* a := NetCDF.as_floats3 row in
      let* x := getitem a replica_index in
      ret (NetCDF.astype64 x))
    (range (length a))
  = inr (NetCDF.astype64 <$> a).
Proof.
  intros Hrow. rewrite <- (range_lookup_fmap NetCDF.astype64 [] a).
  apply list_comp_ok. intros k Hk. rewrite Hrow. simpl.
  apply elem_of_seq in Hk as [_ Hk]. unfold getitem.
  destruct (lookup_lt_is_Some_2 a k) as [x Hx]; [lia|]. by rewrite Hx.
Qed.

(** [_load_last_iteration] on a file with at least one row: it reads row
    [dim_iteration - 1] and returns [dim_iteration]. *)
Lemma load_last_iteration_rows nc (pos box : list (list (list F32)))
    (sts : list Z) (en : list (list F32)) :
  (0 < NetCDF.dim_iteration nc)%nat →
  NetCDF.stored_row nc "positions" (NetCDF.dim_iteration nc - 1) = Some (NetCDF.Floats3 pos) →
  NetCDF.stored_row nc "box_vectors" (NetCDF.dim_iteration nc - 1) = Some (NetCDF.Floats3 box) →
  NetCDF.stored_row nc "states" (NetCDF.dim_iteration nc - 1) = Some (NetCDF.Ints1 sts) →
  NetCDF.stored_row nc "energies" (NetCDF.dim_iteration nc - 1) = Some (NetCDF.Floats2 en) →
  length pos = NetCDF.dim_replica nc →
  length box = NetCDF.dim_replica nc →
  NetCDF._load_last_iteration nc
  = inr (NetCDF.astype64 <$> pos, NetCDF.astype64 <$> box, en,
         (Z.of_nat (NetCDF.dim_iteration nc - 1) + 1)%Z).
Proof.
  intros Hdim Hpos Hbox Hsts Hen Hlpos Hlbox. unfold NetCDF._load_last_iteration.
  assert (Hvar : ∃ v, NetCDF.variable nc "positions" = inr v).
  { unfold NetCDF.variable. unfold NetCDF.stored_row in Hpos.
    destruct (NetCDF.variables nc !! "positions"); [by eexists|done]. }
  destruct Hvar as [v ->]. rewrite bind_inr.
  replace (Z.of_nat (NetCDF.dim_iteration nc) - 1)%Z
    with (Z.of_nat (NetCDF.dim_iteration nc - 1)) by lia.
  apply getrow_stored in Hpos, Hbox, Hsts, Hen; try lia.
  rewrite <- Hlpos at 1. rewrite (load_replicas nc "positions" _ pos Hpos), bind_inr.
  rewrite <- Hlbox at 1. rewrite (load_replicas nc "box_vectors" _ box Hbox), bind_inr.
  rewrite Hsts, Hen. reflexivity.
Qed.

(** *** C4: the last row on resume *)

(** C4, as amended.  On a file with [n_rows > 0] rows, [n_rows] being the
    length of the series of positions, [_load_last_iteration] returns what
    the file holds at index [n_rows - 1]: the positions and box vectors
    there, each number converted to a 64-bit float, and the energies.  It
    reports that index plus one, which is [n_rows], as the iteration, and
    [restore_database] makes these the coordinates, box vectors, energy
    matrix and current iteration of the database.  A variable that was never
    written at that index reads as its fill value: the row returned is the
    one at the highest index, whether or not it was written most recently
    or completely. *)
Theorem load_last_iteration_returns_last_row nc (pos box : list (list (list F32)))
    (sts : list Z) (en : list (list F32)) :
  (0 < NetCDF.dim_iteration nc)%nat →
  NetCDF.stored_row nc "positions" (NetCDF.dim_iteration nc - 1) = Some (NetCDF.Floats3 pos) →
  NetCDF.stored_row nc "box_vectors" (NetCDF.dim_iteration nc - 1) = Some (NetCDF.Floats3 box) →
  NetCDF.stored_row nc "states" (NetCDF.dim_iteration nc - 1) = Some (NetCDF.Ints1 sts) →
  NetCDF.stored_row nc "energies" (NetCDF.dim_iteration nc - 1) = Some (NetCDF.Floats2 en) →
  length pos = NetCDF.dim_replica nc →
  length box = NetCDF.dim_replica nc →
  NetCDF._load_last_iteration nc
  = inr ((fun x : list (list F32) => (fun row : list F32 => NetCDF.to64 <$> row) <$> x) <$> pos,
         (fun x : list (list F32) => (fun row : list F32 => NetCDF.to64 <$> row) <$> x) <$> box,
         en, (Z.of_nat (NetCDF.dim_iteration nc - 1) + 1)%Z) ∧
  (Z.of_nat (NetCDF.dim_iteration nc - 1) + 1)%Z = Z.of_nat (NetCDF.dim_iteration nc) ∧
  ∀ (states : list State) (options : gmap string (NetCDF.pyval F64 Unit)) (title : string),
    NetCDF.load_thermodynamic_states nc = inr states →
    NetCDF.load_options nc = inr options →
    NetCDF.restore_database nc title
    = inr (NetCDF.mkDatabase nc options title states
             ((fun x : list (list F32) => (fun row : list F32 => NetCDF.to64 <$> row) <$> x)
                <$> pos)
             (Some ((fun x : list (list F32) => (fun row : list F32 => NetCDF.to64 <$> row) <$> x)
                      <$> box))
             (Some en)
             (Some (Z.of_nat (NetCDF.dim_iteration nc - 1) + 1)%Z)).
Proof.
  intros Hdim Hpos Hbox Hsts Hen Hlpos Hlbox.
  pose proof (load_last_iteration_rows nc pos box sts en Hdim Hpos Hbox Hsts Hen Hlpos Hlbox)
    as Hload.
  unfold NetCDF.astype64 in Hload.
  split; [done|]. split; [lia|]. intros states options title Hs Ho.
  unfold NetCDF.restore_database. by rewrite Hs, Ho, Hload.
Qed.

(** *** C3: writing an iteration and reading it back *)

(** The time series that [output_iteration] writes. *)
Lemma output_iteration_rows nc (kwargs : NetCDF.IterationRecord) :
  NetCDF.kw_iteration kwargs = Z.of_nat (NetCDF.dim_iteration nc) →
  (∀ name, name ∈ ["positions"; "box_vectors"; "volumes"; "states"; "energies";
                   "proposed"; "accepted"; "timestamp"] →
     is_Some (NetCDF.variables nc !! name)) →
  ∃ nc',
    NetCDF.output_iteration nc kwargs = inr nc' ∧
    NetCDF.dim_iteration nc' = S (NetCDF.dim_iteration nc) ∧
    NetCDF.dim_replica nc' = NetCDF.dim_replica nc ∧
    NetCDF.stored_row nc' "positions" (NetCDF.dim_iteration nc)
      = Some (NetCDF.Floats3 (NetCDF.store3 (NetCDF.kw_coordinates kwargs))) ∧
    NetCDF.stored_row nc' "box_vectors" (NetCDF.dim_iteration nc)
      = Some (NetCDF.Floats3 (NetCDF.store3 (NetCDF.kw_box_vectors kwargs))) ∧
    NetCDF.stored_row nc' "states" (NetCDF.dim_iteration nc)
      = Some (NetCDF.Ints1 (NetCDF.kw_replica_states kwargs)) ∧
    NetCDF.stored_row nc' "energies" (NetCDF.dim_iteration nc)
      = Some (NetCDF.Floats2 (NetCDF.store2 (NetCDF.kw_energies kwargs))).
Proof.
  intros Hit Hvars. unfold NetCDF.output_iteration. rewrite Hit.
  set (n := NetCDF.dim_iteration nc).
  assert (Hn : Z.to_nat (Z.of_nat n) = n) by apply Nat2Z.id.
  destruct (setrow_spec nc "positions" (Z.of_nat n)
              (NetCDF.Floats3 (NetCDF.store3 (NetCDF.kw_coordinates kwargs))))
    as (nc1 & -> & Hd1 & Hr1 & Hs1 & Ho1 & Hv1); [lia|apply Hvars; set_solver|].
  rewrite bind_inr.
  destruct (setrow_spec nc1 "box_vectors" (Z.of_nat n)
              (NetCDF.Floats3 (NetCDF.store3 (NetCDF.kw_box_vectors kwargs))))
    as (nc2 & -> & Hd2 & Hr2 & Hs2 & Ho2 & Hv2); [lia|apply Hv1, Hvars; set_solver|].
  rewrite bind_inr.
  destruct (setrow_spec nc2 "volumes" (Z.of_nat n)
              (NetCDF.Floats1 (NetCDF.to32 <$> NetCDF.kw_volumes kwargs)))
    as (nc3 & -> & Hd3 & Hr3 & Hs3 & Ho3 & Hv3); [lia|apply Hv2, Hv1, Hvars; set_solver|].
  rewrite bind_inr.
  destruct (setrow_spec nc3 "states" (Z.of_nat n)
              (NetCDF.Ints1 (NetCDF.kw_replica_states kwargs)))
    as (nc4 & -> & Hd4 & Hr4 & Hs4 & Ho4 & Hv4); [lia|apply Hv3, Hv2, Hv1, Hvars; set_solver|].
  rewrite bind_inr.
  destruct (setrow_spec nc4 "energies" (Z.of_nat n)
              (NetCDF.Floats2 (NetCDF.store2 (NetCDF.kw_energies kwargs))))
    as (nc5 & -> & Hd5 & Hr5 & Hs5 & Ho5 & Hv5);
    [lia|apply Hv4, Hv3, Hv2, Hv1, Hvars; set_solver|].
  rewrite bind_inr.
  destruct (setrow_spec nc5 "proposed" (Z.of_nat n)
              (NetCDF.Ints2 (NetCDF.kw_proposed kwargs)))
    as (nc6 & -> & Hd6 & Hr6 & Hs6 & Ho6 & Hv6);
    [lia|apply Hv5, Hv4, Hv3, Hv2, Hv1, Hvars; set_solver|].
  rewrite bind_inr.
  destruct (setrow_spec nc6 "accepted" (Z.of_nat n)
              (NetCDF.Ints2 (NetCDF.kw_accepted kwargs)))
    as (nc7 & -> & Hd7 & Hr7 & Hs7 & Ho7 & Hv7);
    [lia|apply Hv6, Hv5, Hv4, Hv3, Hv2, Hv1, Hvars; set_solver|].
  rewrite bind_inr.
  destruct (setrow_spec nc7 "timestamp" (Z.of_nat n)
              (NetCDF.Text (NetCDF.kw_time kwargs)))
    as (nc8 & -> & Hd8 & Hr8 & Hs8 & Ho8 & Hv8);
    [lia|apply Hv7, Hv6, Hv5, Hv4, Hv3, Hv2, Hv1, Hvars; set_solver|].
  rewrite bind_inr. exists nc8. rewrite Hn in *.
  split; [done|]. split; [fold n in Hd1; lia|]. split; [congruence|].
  split; [|split; [|split]].
  - by rewrite Ho8, Ho7, Ho6, Ho5, Ho4, Ho3, Ho2.
  - by rewrite Ho8, Ho7, Ho6, Ho5, Ho4, Ho3.
  - by rewrite Ho8, Ho7, Ho6, Ho5.
  - by rewrite Ho8, Ho7, Ho6.
Qed.

(** C3.  An iteration written by [output_iteration] at the index of the
    next unwritten row is what [_load_last_iteration] returns afterwards:
    per replica the positions and box vectors that were written, each number
    having gone through the 32-bit storage and back ([to64 (to32 x)]), the
    energy matrix as stored in 32 bits; the iteration reported is the
    written index plus one.  Numbers that a 32-bit float represents exactly
    come back unchanged. *)
Theorem checkpoint_round_trip nc (kwargs : NetCDF.IterationRecord) :
  NetCDF.kw_iteration kwargs = Z.of_nat (NetCDF.dim_iteration nc) →
  (∀ name, name ∈ ["positions"; "box_vectors"; "volumes"; "states"; "energies";
                   "proposed"; "accepted"; "timestamp"] →
     is_Some (NetCDF.variables nc !! name)) →
  length (NetCDF.kw_coordinates kwargs) = NetCDF.dim_replica nc →
  length (NetCDF.kw_box_vectors kwargs) = NetCDF.dim_replica nc →
  ∃ nc',
    NetCDF.output_iteration nc kwargs = inr nc' ∧
    NetCDF._load_last_iteration nc'
    = inr ((fun x => NetCDF.astype64 (NetCDF.store2 x)) <$> NetCDF.kw_coordinates kwargs,
           (fun x => NetCDF.astype64 (NetCDF.store2 x)) <$> NetCDF.kw_box_vectors kwargs,
           NetCDF.store2 (NetCDF.kw_energies kwargs),
           (NetCDF.kw_iteration kwargs + 1)%Z) ∧
    ((∀ x : F64, NetCDF.to64 (NetCDF.to32 x) = x) →
     NetCDF._load_last_iteration nc'
     = inr (NetCDF.kw_coordinates kwargs, NetCDF.kw_box_vectors kwargs,
            NetCDF.store2 (NetCDF.kw_energies kwargs), (NetCDF.kw_iteration kwargs + 1)%Z)).
Proof.
  intros Hit Hvars Hlc Hlb.
  destruct (output_iteration_rows nc kwargs Hit Hvars)
    as (nc' & Hout & Hdim & Hrep & Hpos & Hbox & Hsts & Hen).
  exists nc'. split; [done|].
  assert (Hlast : (NetCDF.dim_iteration nc' - 1 = NetCDF.dim_iteration nc)%nat) by lia.
  assert (Hload : NetCDF._load_last_iteration nc'
    = inr ((fun x => NetCDF.astype64 (NetCDF.store2 x)) <$> NetCDF.kw_coordinates kwargs,
           (fun x => NetCDF.astype64 (NetCDF.store2 x)) <$> NetCDF.kw_box_vectors kwargs,
           NetCDF.store2 (NetCDF.kw_energies kwargs),
           (NetCDF.kw_iteration kwargs + 1)%Z)).
  { rewrite (load_last_iteration_rows nc'
               (NetCDF.store3 (NetCDF.kw_coordinates kwargs))
               (NetCDF.store3 (NetCDF.kw_box_vectors kwargs))
               (NetCDF.kw_replica_states kwargs)
               (NetCDF.store2 (NetCDF.kw_energies kwargs))).
    - rewrite Hlast, Hit. unfold NetCDF.store3. by rewrite <- !list_fmap_compose.
    - lia.
    - by rewrite Hlast.
    - by rewrite Hlast.
    - by rewrite Hlast.
    - by rewrite Hlast.
    - unfold NetCDF.store3. rewrite length_fmap. congruence.
    - unfold NetCDF.store3. rewrite length_fmap. congruence. }
  split; [done|]. intros Hexact. rewrite Hload. do 4 f_equal.
  - rewrite <- (list_fmap_id (NetCDF.kw_coordinates kwargs)) at 2.
    apply list_fmap_ext. intros _ x _. unfold NetCDF.astype64, NetCDF.store2.
    rewrite <- list_fmap_compose. rewrite <- (list_fmap_id x) at 2.
    apply list_fmap_ext. intros _ row _. simpl. rewrite <- list_fmap_compose.
    rewrite <- (list_fmap_id row) at 2. apply list_fmap_ext. intros _ y _. apply Hexact.
  - rewrite <- (list_fmap_id (NetCDF.kw_box_vectors kwargs)) at 2.
    apply list_fmap_ext. intros _ x _. unfold NetCDF.astype64, NetCDF.store2.
    rewrite <- list_fmap_compose. rewrite <- (list_fmap_id x) at 2.
    apply list_fmap_ext. intros _ row _. simpl. rewrite <- list_fmap_compose.
    rewrite <- (list_fmap_id row) at 2. apply list_fmap_ext. intros _ y _. apply Hexact.
Qed.

(** *** The checks of [NetCDFDatabase.__init__] *)

(** Different numbers of states and coordinate sets: an assertion fails,
    whether or not the file exists. *)
Lemma database_rejects_count_mismatch (existing : option (NetCDF.Dataset (F64:=F64) (F32:=F32)))
    (options : gmap string (NetCDF.pyval F64 Unit))
    (states : list State) (coordinates : list (list (list F64))) :
  length states ≠ length coordinates →
  ∃ msg, NetCDF.__init__ existing options (Some states) (Some coordinates)
         = inl (AssertionError msg).
Proof.
  intros Hne. unfold NetCDF.__init__. destruct existing as [nc|]; simpl.
  - by eexists.
  - rewrite decide_False by done. by eexists.
Qed.

(** States that are not all compatible with the first one: the constructor
    raises, and once the file has been initialised the exception is the
    [ValueError] of the final loop. *)
Lemma database_rejects_incompatible_states (options : gmap string (NetCDF.pyval F64 Unit))
    (states : list State) (coordinates : list (list (list F64))) (s s0 : State) :
  length states = length coordinates →
  s ∈ states → states !! 0%nat = Some s0 → NetCDF.is_compatible_with s s0 = false →
  ∃ e,
    NetCDF.__init__ None options (Some states) (Some coordinates) = inl e ∧
    (∀ nc, NetCDF._initialize_netcdf options states coordinates = inr nc →
       e = ValueError "Provided ThermodynamicState states must all be from the same thermodynamic ensemble.").
Proof.
  intros Hlen Hs Hs0 Hcompat. unfold NetCDF.__init__. simpl.
  rewrite decide_True by done. simpl.
  destruct (NetCDF._initialize_netcdf options states coordinates) as [e|nc]; simpl.
  - exists e. split; [done|]. intros nc [=].
  - rewrite (for_each_checks_raise states _
      (ValueError "Provided ThermodynamicState states must all be from the same thermodynamic ensemble.")).
    + simpl. eexists. split; [done|]. done.
    + intros x _. unfold getitem. rewrite Hs0. simpl.
      destruct (NetCDF.is_compatible_with x s0); simpl; [by left|by right].
    + exists s. split; [done|]. unfold getitem. rewrite Hs0. simpl. by rewrite Hcompat.
Qed.

End DatabaseFacts.

Lemma resume_fails_without_static_records_witness :
  ∃ e,
    NetCDF.__init__ (State:=Examples.stored_state) (Some Examples.fresh) Examples.run_options
      None None = inl e ∧
    NetCDF.restore_database (State:=Examples.stored_state) (Unit:=Examples.unit_)
      Examples.fresh "No Title." = inl e ∧
    (NetCDF.grp_thermodynamic_states Examples.fresh = None →
     e = ValueError "thermodynamics_states not found in database!") ∧
    (∀ states : list Examples.stored_state,
       NetCDF.load_thermodynamic_states Examples.fresh = inr states →
       e = ValueError "Options not found in NetCDF file!").
Proof.
  apply (resume_fails_without_static_records Examples.fresh Examples.run_options).
  left. reflexivity.
Defined.

Lemma options_round_trip_witness :
  ∃ nc' loaded,
    NetCDF._store_options Examples.run_options Examples.fresh = inr nc' ∧
    NetCDF.load_options nc' = inr loaded ∧
    (∀ name, name ∈ NetCDF.options_to_store → loaded !! name = Examples.run_options !! name) ∧
    (∀ name, name ∉ NetCDF.options_to_store → loaded !! name = None).
Proof.
  apply (options_round_trip Examples.fresh Examples.run_options).
  apply Forall_forall.
  repeat constructor; (eexists; split; [reflexivity|]); vm_compute; try split; reflexivity.
Defined.

Lemma checkpoint_round_trip_witness :
  ∃ nc',
    NetCDF.output_iteration Examples.fresh Examples.iteration0 = inr nc' ∧
    NetCDF._load_last_iteration nc'
    = inr ((fun x => NetCDF.astype64 (NetCDF.store2 x))
             <$> NetCDF.kw_coordinates Examples.iteration0,
           (fun x => NetCDF.astype64 (NetCDF.store2 x))
             <$> NetCDF.kw_box_vectors Examples.iteration0,
           NetCDF.store2 (NetCDF.kw_energies Examples.iteration0),
           (NetCDF.kw_iteration Examples.iteration0 + 1)%Z) ∧
    ((∀ x : Qc, NetCDF.to64 (NetCDF.to32 x) = x) →
     NetCDF._load_last_iteration nc'
     = inr (NetCDF.kw_coordinates Examples.iteration0, NetCDF.kw_box_vectors Examples.iteration0,
            NetCDF.store2 (NetCDF.kw_energies Examples.iteration0),
            (NetCDF.kw_iteration Examples.iteration0 + 1)%Z)).
Proof.
  apply (checkpoint_round_trip Examples.fresh Examples.iteration0).
  - reflexivity.
  - apply Forall_forall. repeat constructor; vm_compute; eexists; reflexivity.
  - reflexivity.
  - reflexivity.
Defined.

Lemma load_last_iteration_returns_last_row_witness :
  NetCDF._load_last_iteration Examples.written
  = inr ((fun x : list (list Z) => (fun row : list Z => NetCDF.to64 <$> row) <$> x)
           <$> NetCDF.store3 (NetCDF.kw_coordinates Examples.iteration0),
         (fun x : list (list Z) => (fun row : list Z => NetCDF.to64 <$> row) <$> x)
           <$> NetCDF.store3 (NetCDF.kw_box_vectors Examples.iteration0),
         NetCDF.store2 (NetCDF.kw_energies Examples.iteration0),
         (Z.of_nat (NetCDF.dim_iteration Examples.written - 1) + 1)%Z) ∧
  (Z.of_nat (NetCDF.dim_iteration Examples.written - 1) + 1)%Z
  = Z.of_nat (NetCDF.dim_iteration Examples.written) ∧
  ∀ (states : list Examples.stored_state)
    (options : gmap string (NetCDF.pyval Qc Examples.unit_)) (title : string),
    NetCDF.load_thermodynamic_states Examples.written = inr states →
    NetCDF.load_options Examples.written = inr options →
    NetCDF.restore_database Examples.written title
    = inr (NetCDF.mkDatabase Examples.written options title states
             ((fun x : list (list Z) => (fun row : list Z => NetCDF.to64 <$> row) <$> x)
                <$> NetCDF.store3 (NetCDF.kw_coordinates Examples.iteration0))
             (Some ((fun x : list (list Z) => (fun row : list Z => NetCDF.to64 <$> row) <$> x)
                      <$> NetCDF.store3 (NetCDF.kw_box_vectors Examples.iteration0)))
             (Some (NetCDF.store2 (NetCDF.kw_energies Examples.iteration0)))
             (Some (Z.of_nat (NetCDF.dim_iteration Examples.written - 1) + 1)%Z)).
Proof.
  apply (load_last_iteration_returns_last_row Examples.written _ _
           (NetCDF.kw_replica_states Examples.iteration0)).
  - vm_compute. lia.
  - reflexivity.
  - reflexivity.
  - reflexivity.
  - reflexivity.
  - reflexivity.
  - reflexivity.
Defined.

(** C4 as stated fails on the code.  After iterations 0 and 1 have been
    written and iteration 0 has been written again, the row written most
    recently is row 0, yet [_load_last_iteration] returns the energies of
    row 1 and reports iteration 2.  After iteration 0 has been written and
    then only the positions of iteration 1, the one complete row is row 0,
    yet [_load_last_iteration] returns row 1, with the fill value in place
    of the energies, and reports iteration 2. *)
Lemma load_last_iteration_returns_last_row_counterexample :
  NetCDF.output_iteration Examples.fresh Examples.iteration0 = inr Examples.written ∧
  NetCDF.output_iteration Examples.written Examples.iteration1 = inr Examples.written_twice ∧
  NetCDF.output_iteration Examples.written_twice Examples.iteration0_again
  = inr Examples.rewritten ∧
  (∃ coordinates box_vectors,
     NetCDF._load_last_iteration Examples.rewritten
     = inr (coordinates, box_vectors,
            NetCDF.store2 (NetCDF.kw_energies Examples.iteration1), 2%Z)) ∧
  NetCDF.store2 (NetCDF.kw_energies Examples.iteration1)
  ≠ NetCDF.store2 (NetCDF.kw_energies Examples.iteration0_again) ∧
  NetCDF.setrow Examples.written "positions" 1
    (NetCDF.Floats3 (NetCDF.store3 (NetCDF.kw_coordinates Examples.iteration1)))
  = inr Examples.interrupted ∧
  (∃ coordinates box_vectors,
     NetCDF._load_last_iteration Examples.interrupted
     = inr (coordinates, box_vectors, [[0%Z; 0%Z]; [0%Z; 0%Z]], 2%Z)) ∧
  NetCDF.store2 (NetCDF.kw_energies Examples.iteration0) ≠ [[0%Z; 0%Z]; [0%Z; 0%Z]].
Proof.
  split; [vm_compute; reflexivity|]. split; [vm_compute; reflexivity|].
  split; [vm_compute; reflexivity|].
  split; [eexists _, _; vm_compute; reflexivity|].
  split; [vm_compute; intros Heq; discriminate Heq|].
  split; [vm_compute; reflexivity|].
  split; [eexists _, _; vm_compute; reflexivity|].
  vm_compute. intros Heq. discriminate Heq.
Qed.

(** ** C10: half-specified unit cells *)

(** C10.  [write] called with cell lengths and no cell angles, or with
    cell angles and no cell lengths, raises [ValueError] and leaves the file
    as it was: the rest of the method, which alone appends to the file, does
    not run. *)
Theorem write_rejects_half_specified_cell {Arr : Type}
    (body : HDF5.Frames → HDF5.File → result unit * HDF5.File (Arr:=Arr))
    (args : HDF5.Frames) (self : HDF5.File) :
  (HDF5.cell_lengths args ≠ None ∧ HDF5.cell_angles args = None) ∨
  (HDF5.cell_lengths args = None ∧ HDF5.cell_angles args ≠ None) →
  ∃ msg, HDF5.write body args self = (inl (ValueError msg), self).
Proof.
  intros Hhalf. unfold HDF5.write, HDF5.ensure_mode.
  case_decide; [|by eexists].
  destruct (HDF5.cell_lengths args) as [l|], (HDF5.cell_angles args) as [a|]; simpl;
    try (by eexists); destruct Hhalf as [[? ?]|[? ?]]; done.
Qed.

Lemma write_rejects_half_specified_cell_witness :
  ∃ msg,
    HDF5.write (fun _ f => (ret tt, f)) Examples.half_cell Examples.trajectory
    = (inl (ValueError msg), Examples.trajectory).
Proof.
  apply (write_rejects_half_specified_cell _ Examples.half_cell Examples.trajectory).
  left. split; [discriminate|reflexivity].
Defined.

(** * Further properties *)

(** ** Hamiltonian exchange *)

Lemma differ_in_dec {A B} `{EqDecision B} (f : A → B) (l : list A) :
  {differ_in f l} + {¬ differ_in f l}.
Proof.
  destruct (decide (Exists (fun s0 => Exists (fun s1 => f s0 ≠ f s1) l) l)) as [H|H].
  - left. apply List.Exists_exists in H as (s0 & H0 & H).
    apply List.Exists_exists in H as (s1 & H1 & H).
    exists s0, s1. by rewrite !list_elem_of_In.
  - right. intros (s0 & s1 & H0 & H1 & Hne). apply H.
    apply List.Exists_exists. exists s0. split; [by apply list_elem_of_In|].
    apply List.Exists_exists. exists s1. split; [by apply list_elem_of_In|done].
Qed.

(** X1.  The check of [HamiltonianExchange] passes exactly when all states
    have the same pressure and the same temperature. *)
Theorem hamiltonian_check_accepts_exactly_uniform {num : Type} `{!Numeric num}
    (states : list (ThermodynamicState num)) :
  HamiltonianExchange._check_self_consistency states = inr tt ↔
  ¬ differ_in pressure states ∧ ¬ differ_in temperature states.
Proof.
  split.
  - intros Hok. destruct (differ_in_dec pressure states) as [Hp|Hp].
    { by rewrite hamiltonian_check_pressures in Hok. }
    destruct (differ_in_dec temperature states) as [Ht|Ht]; [|done].
    by rewrite hamiltonian_check_temperatures in Hok.
  - intros [Hp Ht]. unfold HamiltonianExchange._check_self_consistency.
    rewrite (nested_check_passes (fun s0 s1 => pressure s0 ≠ pressure s1)).
    2: { intros s0 s1 H0 H1 Hne. apply Hp. by exists s0, s1. }
    rewrite bind_inr.
    apply (nested_check_passes (fun s0 s1 => temperature s0 ≠ temperature s1)).
    intros s0 s1 H0 H1 Hne. apply Ht. by exists s0, s1.
Qed.

(** X2.  The states that [HamiltonianExchange.create] builds from a
    reference state and a list of systems always pass the check of the
    constructor: when the base class method constructs the object from them,
    the constructor of the base class is reached with exactly these
    states. *)
Theorem hamiltonian_create_states_pass {num E C : Type} `{!Numeric num}
    (super_init : C → list (ThermodynamicState num) → result E)
    (reference_state : ThermodynamicState num) (systems : list loc) (coordinates : C) :
  HamiltonianExchange.create
    (fun states coordinates => HamiltonianExchange.__init__ (super_init coordinates) states)
    reference_state systems coordinates
  = super_init coordinates
      ((fun system => mkState system (temperature reference_state) (pressure reference_state))
         <$> systems).
Proof.
  unfold HamiltonianExchange.create, HamiltonianExchange.__init__,
    HamiltonianExchange._check_self_consistency.
  rewrite (nested_check_passes (fun s0 s1 => pressure s0 ≠ pressure s1)).
  - rewrite bind_inr.
    rewrite (nested_check_passes (fun s0 s1 => temperature s0 ≠ temperature s1)); [done|].
    intros s0 s1 H0 H1.
    apply list_elem_of_fmap in H0 as (? & -> & _). apply list_elem_of_fmap in H1 as (? & -> & _).
    simpl. by intros ?.
  - intros s0 s1 H0 H1.
    apply list_elem_of_fmap in H0 as (? & -> & _). apply list_elem_of_fmap in H1 as (? & -> & _).
    simpl. by intros ?.
Qed.

(** ** The barostat helper *)

Lemma ignore_barostat_restores_unshared_witness :
  (IgnoreBarostat.with_ Examples.two_temperatures (reading (fun _ => ret tt)) Examples.store).2
    0%nat
  = Examples.store 0%nat.
Proof.
  apply (ignore_barostat_restores_unshared Examples.two_temperatures
           (fun _ => ret tt) Examples.store).
  simpl. apply NoDup_cons_2; [|apply NoDup_cons_2; [|apply NoDup_nil_2]].
  - apply not_elem_of_cons. split; [lia|apply not_elem_of_nil].
  - apply not_elem_of_nil.
Defined.

Section BarostatHelper.
Context {num : Type} `{!Numeric num}.
Implicit Types states : list (ThermodynamicState num).

Local Abbreviation count fs :=
  (fold_left (fun n f => if IgnoreBarostat.is_barostat f then n + 1 else n) fs 0).
Local Abbreviation normalize s := (IgnoreBarostat.set_system fone 1 s).

(** X5.  The [with] statement around a body that only reads the store
    never changes a system that no state refers to. *)
Theorem ignore_barostat_frame {A} states (f : heap num → result A) (h : heap num) (loc : loc) :
  loc ∉ system <$> states →
  (IgnoreBarostat.with_ states (reading f) h).2 loc = h loc.
Proof.
  intros Hloc.
  destruct (IgnoreBarostat.__init__ h states) as [e|self] eqn:Hinit.
  - unfold IgnoreBarostat.with_. by rewrite Hinit.
  - destruct (with_reading states f h self Hinit) as (h1 & h3 & -> & _ & _ & Hout & _).
    simpl. by apply Hout.
Qed.

Lemma list_comp_first_error {A B} (f : A → result B) (l : list A) (e : exn) :
  (∀ x e', x ∈ l → f x = inl e' → e' = e) →
  (∃ x, x ∈ l ∧ f x = inl e) →
  list_comp f l = inl e.
Proof.
  intros Honly Hex. destruct (list_comp f l) as [e'|ys] eqn:Hcomp.
  - apply list_comp_inl in Hcomp as (x & Hx & Hfx). f_equal. by apply (Honly x).
  - apply list_comp_inr in Hcomp as [_ Hall]. destruct Hex as (x & Hx & Hfx).
    apply list_elem_of_lookup in Hx as [k Hk].
    destruct (Hall k x Hk) as (y & _ & Hy). congruence.
Qed.

(** X6.  A state whose system holds more than one Monte Carlo barostat
    makes [IgnoreBarostat.__init__] raise [ValueError], wherever the state
    is in the list; the parallel-tempering check, once the pressures agree,
    raises the same exception and leaves the store as it was. *)
Theorem init_rejects_multiple_barostats states (h : heap num) (s : ThermodynamicState num) :
  s ∈ states → (1 < count (forces (h (system s))))%nat →
  IgnoreBarostat.__init__ h states = inl (ValueError "Found multiple barostats!") ∧
  (¬ differ_in pressure states →
   ParallelTempering._check_self_consistency states h
   = (inl (ValueError "Found multiple barostats!"), h)).
Proof.
  intros Hs Hmany.
  assert (Hinit : IgnoreBarostat.__init__ h states = inl (ValueError "Found multiple barostats!")).
  { unfold IgnoreBarostat.__init__.
    rewrite (list_comp_first_error _ states (ValueError "Found multiple barostats!")); [done| |].
    - intros x e' _ Hx. by apply get_num_barostats_inl in Hx.
    - exists s. split; [done|]. unfold IgnoreBarostat.get_num_barostats.
      by rewrite decide_True. }
  split; [done|]. intros Hp.
  unfold ParallelTempering._check_self_consistency, sbind at 1, reading at 1.
  rewrite (nested_check_passes (fun s0 s1 => pressure s0 ≠ pressure s1)).
  2: { intros s0 s1 H0 H1 Hne. apply Hp. by exists s0, s1. }
  unfold sbind at 1, IgnoreBarostat.with_. by rewrite Hinit.
Qed.

Lemma array_min_max_same (n0 : nat) (rest : list nat) :
  (∀ x, x ∈ rest → x = n0) →
  IgnoreBarostat.array_min n0 rest = IgnoreBarostat.array_max n0 rest.
Proof.
  induction rest as [|y rest IH]; intros Hall; simpl; [done|].
  assert (y = n0) as -> by (apply Hall, elem_of_cons; by left).
  assert (Hrest : ∀ x, x ∈ rest → x = n0) by (intros x Hx; apply Hall, elem_of_cons; by right).
  specialize (IH Hrest).
  assert (Hmin : IgnoreBarostat.array_min n0 rest = n0).
  { clear IH Hall. induction rest as [|z rest IH]; simpl; [done|].
    rewrite IH by (intros x Hx; apply Hrest, elem_of_cons; by right).
    rewrite (Hrest z) by (apply elem_of_cons; by left). lia. }
  rewrite <- IH, Hmin. lia.
Qed.

(** [__init__] returns when the list is not empty and every system holds
    the same number, at most one, of barostats. *)
Lemma init_succeeds states (h : heap num) (n0 : nat) :
  states ≠ [] → (n0 ≤ 1)%nat →
  (∀ s, s ∈ states → count (forces (h (system s))) = n0) →
  IgnoreBarostat.__init__ h states = inr (IgnoreBarostat.mk n0 states [] []).
Proof.
  intros Hne Hle Hall. unfold IgnoreBarostat.__init__.
  rewrite (list_comp_ok _ (fun _ => n0)).
  2: { intros s Hs. unfold IgnoreBarostat.get_num_barostats.
       rewrite (Hall s Hs). by rewrite decide_False by lia. }
  rewrite bind_inr. destruct states as [|s0 states]; [done|]. simpl.
  rewrite decide_True; [done|]. apply array_min_max_same.
  intros x Hx. by apply list_elem_of_fmap in Hx as (? & -> & _).
Qed.

(** X7.  The parallel-tempering check accepts a non-empty list of states
    that agree in pressure and whose systems, each with at most one
    barostat, are equal once barostat temperature and seed are set to the
    sentinel; when no two states share a system the store is left as it
    was. *)
Theorem parallel_tempering_check_accepts states (h : heap num) :
  states ≠ [] →
  ¬ differ_in pressure states →
  ¬ differ_in (fun s => normalize (h (system s))) states →
  (∀ s, s ∈ states → (count (forces (h (system s))) ≤ 1)%nat) →
  ∃ h',
    ParallelTempering._check_self_consistency states h = (inr tt, h') ∧
    (NoDup (system <$> states) → ∀ loc, h' loc = h loc).
Proof.
  intros Hne Hp Hsys Hle.
  destruct states as [|s0 states']; [done|]. set (states := s0 :: states') in *.
  assert (H0 : s0 ∈ states) by (apply elem_of_cons; by left).
  assert (Hcount : ∀ s, s ∈ states →
            count (forces (h (system s))) = count (forces (h (system s0)))).
  { intros s Hs. destruct (decide (normalize (h (system s)) = normalize (h (system s0))))
      as [Heq|Hneq].
    - rewrite <- (count_set_force fone 1 (forces (h (system s)))).
      rewrite <- (count_set_force fone 1 (forces (h (system s0)))).
      unfold IgnoreBarostat.set_system in Heq. by inversion Heq.
    - exfalso. apply Hsys. by exists s, s0. }
  pose proof (init_succeeds states h _ ltac:(done) (Hle s0 H0) Hcount) as Hinit.
  unfold ParallelTempering._check_self_consistency, sbind at 1, reading at 1.
  rewrite (nested_check_passes (fun s0 s1 => pressure s0 ≠ pressure s1)).
  2: { intros s1 s2 H1 H2 Hne'. apply Hp. by exists s1, s2. }
  unfold sbind at 1.
  destruct (with_reading states
    (fun h1 => for_each states (fun s0 _ =>
       for_each states (fun s1 _ =>
         if decide (__getstate__ (h1 (system s0)) ≠ __getstate__ (h1 (system s1)))
         then raise (ValueError "For ParallelTempering, ThermodynamicState objects cannot have different systems!")
         else ret tt) tt) tt) h _ Hinit)
    as (h1 & h3 & Hwith & Hnorm & _ & _ & Hsame).
  rewrite Hwith.
  rewrite (nested_check_passes
    (fun s0 s1 => __getstate__ (h1 (system s0)) ≠ __getstate__ (h1 (system s1)))).
  - exists h3. split; [done|]. done.
  - intros s1 s2 H1 H2. unfold __getstate__. rewrite !Hnorm by done.
    intros Hne'. apply Hsys. by exists s1, s2.
Qed.

(** X23.  On a helper that counts a barostat, [set_barostat_state]
    followed by [get_barostat_state] returns the temperature and seed that
    were set, for the state itself and for every state that refers to the
    same system; other systems are untouched and the number of barostats is
    the same. *)
Theorem barostat_state_set_then_get (self : IgnoreBarostat.t num)
    (state : ThermodynamicState num) (temperature : num) (seed : Z) (h : heap num) :
  (0 < IgnoreBarostat.num_barostats self)%nat →
  (0 < count (forces (h (system state))))%nat →
  ∃ h',
    IgnoreBarostat.set_barostat_state self state temperature seed h = (inr tt, h') ∧
    (∀ state', system state' = system state →
       IgnoreBarostat.get_barostat_state self h' state' = inr (temperature, seed)) ∧
    (∀ loc, loc ≠ system state → h' loc = h loc) ∧
    IgnoreBarostat.get_num_barostats h' state = IgnoreBarostat.get_num_barostats h state.
Proof.
  intros Hself Hcount. unfold IgnoreBarostat.set_barostat_state.
  rewrite decide_False by lia. eexists. split; [done|]. split; [|split].
  - intros state' Hsame. unfold IgnoreBarostat.get_barostat_state.
    rewrite decide_False by lia. rewrite Hsame, fn_lookup_insert. simpl.
    by rewrite bound_set_force.
  - intros loc Hloc. by rewrite fn_lookup_insert_ne.
  - unfold IgnoreBarostat.get_num_barostats. rewrite fn_lookup_insert. simpl.
    by rewrite count_set_force.
Qed.

End BarostatHelper.

Lemma not_differ_in_constant {A B} (f : A → B) (l : list A) (b : B) :
  Forall (fun x => f x = b) l → ¬ differ_in f l.
Proof.
  intros Hall (s0 & s1 & H0 & H1 & Hne). rewrite Forall_forall in Hall.
  apply Hne. by rewrite (Hall s0 H0), (Hall s1 H1).
Qed.

Lemma barostat_state_set_then_get_witness :
  ∃ h',
    IgnoreBarostat.set_barostat_state (IgnoreBarostat.mk 1 Examples.shared_states [] [])
      (mkState 0 (Examples.kelvin 300) None) (Examples.kelvin 1) 1 Examples.store
    = (inr tt, h') ∧
    (∀ state', system state' = system (mkState 0 (Examples.kelvin 300) None) →
       IgnoreBarostat.get_barostat_state (IgnoreBarostat.mk 1 Examples.shared_states [] [])
         h' state' = inr (Examples.kelvin 1, 1%Z)) ∧
    (∀ loc, loc ≠ system (mkState 0 (Examples.kelvin 300) None) → h' loc = Examples.store loc) ∧
    IgnoreBarostat.get_num_barostats h' (mkState 0 (Examples.kelvin 300) None)
    = IgnoreBarostat.get_num_barostats Examples.store (mkState 0 (Examples.kelvin 300) None).
Proof.
  apply (barostat_state_set_then_get (IgnoreBarostat.mk 1 Examples.shared_states [] [])
           (mkState 0 (Examples.kelvin 300) None) (Examples.kelvin 1) 1 Examples.store).
  - simpl. lia.
  - simpl. lia.
Defined.

Lemma ignore_barostat_frame_witness :
  (IgnoreBarostat.with_ Examples.two_temperatures (reading (fun _ => ret tt)) Examples.store).2 5%nat
  = Examples.store 5%nat.
Proof.
  apply (ignore_barostat_frame Examples.two_temperatures (fun _ => ret tt) Examples.store 5%nat).
  simpl. apply not_elem_of_cons. split; [lia|].
  apply not_elem_of_cons. split; [lia|apply not_elem_of_nil].
Defined.

Lemma init_rejects_multiple_barostats_witness :
  IgnoreBarostat.__init__ Examples.crowded Examples.two_temperatures
  = inl (ValueError "Found multiple barostats!") ∧
  (¬ differ_in pressure Examples.two_temperatures →
   ParallelTempering._check_self_consistency Examples.two_temperatures Examples.crowded
   = (inl (ValueError "Found multiple barostats!"), Examples.crowded)).
Proof.
  apply (init_rejects_multiple_barostats Examples.two_temperatures Examples.crowded
           (mkState 0 (Examples.kelvin 300) None)).
  - apply elem_of_cons. left. reflexivity.
  - simpl. lia.
Defined.

Lemma parallel_tempering_check_accepts_witness :
  ∃ h',
    ParallelTempering._check_self_consistency Examples.two_temperatures Examples.store
    = (inr tt, h') ∧
    (NoDup (system <$> Examples.two_temperatures) → ∀ loc, h' loc = Examples.store loc).
Proof.
  apply (parallel_tempering_check_accepts Examples.two_temperatures Examples.store).
  - discriminate.
  - apply (not_differ_in_constant _ _ None). repeat constructor.
  - apply (not_differ_in_constant _ _
             (IgnoreBarostat.set_system fone 1 (Examples.store 0%nat))).
    repeat constructor.
  - intros s _. simpl. lia.
Defined.

(** ** The energy matrix *)

Section EnergyMatrix.
Context {num : Type} `{!Numeric num}.

(** Two arrays of shape [(n, n)] with the same entries are equal. *)
Lemma square_ext (n : nat) (u v : list (list num)) :
  square n u → square n v →
  (∀ i k, (i < n)%nat → (k < n)%nat → (u !! i) ≫= (.!! k) = (v !! i) ≫= (.!! k)) →
  u = v.
Proof.
  intros [Hu Hur] [Hv Hvr] Hentries. apply list_eq. intros i.
  destruct (decide (i < n)%nat) as [Hi|Hi].
  2: { by rewrite !lookup_ge_None_2 by lia. }
  destruct (lookup_lt_is_Some_2 u i) as [ru Hru]; [lia|].
  destruct (lookup_lt_is_Some_2 v i) as [rv Hrv]; [lia|].
  rewrite Hru, Hrv. f_equal. apply list_eq. intros k.
  destruct (decide (k < n)%nat) as [Hk|Hk].
  - specialize (Hentries i k Hi Hk). by rewrite Hru, Hrv in Hentries.
  - pose proof (Hur _ _ Hru). pose proof (Hvr _ _ Hrv).
    by rewrite !lookup_ge_None_2 by lia.
Qed.

(** The matrix that [_compute_energies] leaves, as an array of shape
    [(n, n)] whose entries are given by the samplers and the states. *)
Lemma compute_energies_result (n : nat) (states : list (ThermodynamicState num))
    (samplers : list (SamplerState num)) (u : list (list num)) :
  length samplers = n → length states = n → square n u →
  ∃ u',
    ParallelTempering._compute_energies (ParallelTempering.mkEngine n states samplers u)
    = inr (ParallelTempering.mkEngine n states samplers u') ∧
    square n u' ∧
    ∀ i k, (i < n)%nat → (k < n)%nat →
      (u' !! i) ≫= (.!! k)
      = match samplers !! i, states !! k with
        | Some r, Some t =>
            Some (fmul (fdiv fone (fmul kB (temperature t))) (potential_energy r))
        | _, _ => None
        end.
Proof.
  intros Hs Ht Hu. unfold ParallelTempering._compute_energies; simpl.
  set (val := fun i k : nat =>
    match samplers !! i, states !! k with
    | Some r, Some t => Some (fmul (fdiv fone (fmul kB (temperature t))) (potential_energy r))
    | _, _ => None
    end).
  set (outer := fun (i : nat) (w : list (list num)) =>
    square n w ∧ ∀ i' k', (i' < i)%nat → (k' < n)%nat → (w !! i') ≫= (.!! k') = val i' k').
  match goal with |- ∃ _, bind (for_each _ ?b _) _ = _ ∧ _ =>
    destruct (for_each_range_inv outer n b u) as (u' & Hrun & Hsq & Hval) end.
  - split; [done|]. intros; lia.
  - intros i w Hi [Hw Hdone].
    destruct (lookup_lt_is_Some_2 samplers i) as [r Hr]; [lia|].
    unfold getitem at 1. rewrite Hr; simpl.
    set (inner := fun (k : nat) (w' : list (list num)) =>
      square n w' ∧
      (∀ i' k', (i' < i)%nat → (k' < n)%nat → (w' !! i') ≫= (.!! k') = val i' k') ∧
      (∀ k', (k' < k)%nat → (w' !! i) ≫= (.!! k') = val i k')).
    match goal with |- ∃ _, for_each _ ?b _ = _ ∧ _ =>
      destruct (for_each_range_inv inner n b w) as (w' & Hrun & Hsq & Hold & Hnew) end.
    + split; [done|]. split; [done|]. intros; lia.
    + intros k w1 Hk (Hw1 & Hold & Hnew).
      destruct (lookup_lt_is_Some_2 states k) as [t Htk]; [lia|].
      unfold getitem. rewrite Htk; simpl.
      destruct (setitem2_square n w1 i k
                  (fmul (fdiv fone (fmul kB (temperature t))) (potential_energy r)))
        as (w2 & Hset & Hsq2 & Hik & Hother); [done..|].
      exists w2. split; [done|]. split; [done|]. split.
      * intros i' k' Hi' Hk'. rewrite Hother; [by apply Hold|].
        intros [= -> ->]. lia.
      * intros k' Hk'. destruct (decide (k' = k)) as [->|Hne].
        -- rewrite Hik. unfold val. by rewrite Hr, Htk.
        -- rewrite Hother; [apply Hnew; lia|]. intros [= ->]. done.
    + exists w'. split; [done|]. split; [done|].
      intros i' k' Hi' Hk'. destruct (decide (i' = i)) as [->|Hne].
      * by apply Hnew.
      * apply Hold; [lia|done].
  - rewrite Hrun; simpl. exists u'. split; [done|]. split; [done|]. done.
Qed.

(** X8.  The matrix that [_compute_energies] leaves depends on the sampler
    states and the thermodynamic states only: whatever two matrices of the
    right shape the engine held before, the results are the same; and
    computing the energies again on the result changes nothing. *)
Theorem compute_energies_forgets_old_matrix (n : nat) (states : list (ThermodynamicState num))
    (samplers : list (SamplerState num)) (u v : list (list num)) :
  length samplers = n → length states = n → square n u → square n v →
  ∃ self',
    ParallelTempering._compute_energies (ParallelTempering.mkEngine n states samplers u)
    = inr self' ∧
    ParallelTempering._compute_energies (ParallelTempering.mkEngine n states samplers v)
    = inr self' ∧
    ParallelTempering._compute_energies self' = inr self'.
Proof.
  intros Hs Ht Hu Hv.
  destruct (compute_energies_result n states samplers u Hs Ht Hu) as (u' & Hru & Hsu & Heu).
  destruct (compute_energies_result n states samplers v Hs Ht Hv) as (v' & Hrv & Hsv & Hev).
  destruct (compute_energies_result n states samplers u' Hs Ht Hsu) as (w & Hrw & Hsw & Hew).
  assert (v' = u') as ->.
  { apply (square_ext n); [done..|]. intros i k Hi Hk. by rewrite Heu, Hev. }
  assert (w = u') as ->.
  { apply (square_ext n); [done..|]. intros i k Hi Hk. by rewrite Heu, Hew. }
  eexists. split; [exact Hru|]. split; [exact Hrv|exact Hrw].
Qed.

End EnergyMatrix.

Lemma compute_energies_forgets_old_matrix_witness :
  ∃ self',
    ParallelTempering._compute_energies
      (ParallelTempering.mkEngine 2 (ParallelTempering.thermodynamic_states Examples.engine)
         (ParallelTempering.sampler_states Examples.engine) (ParallelTempering.u_kl Examples.engine))
    = inr self' ∧
    ParallelTempering._compute_energies
      (ParallelTempering.mkEngine 2 (ParallelTempering.thermodynamic_states Examples.engine)
         (ParallelTempering.sampler_states Examples.engine) [[fone; fone]; [fone; fone]])
    = inr self' ∧
    ParallelTempering._compute_energies self' = inr self'.
Proof.
  apply compute_energies_forgets_old_matrix.
  - reflexivity.
  - reflexivity.
  - apply square_Forall; [reflexivity|]. repeat constructor.
  - apply square_Forall; [reflexivity|]. repeat constructor.
Defined.

(** ** The temperature ladder *)

(** X9.  A ladder of a single temperature cannot be made: with
    [n_temps = 1], [create] raises [ZeroDivisionError] before any state is
    built, and the store is untouched. *)
Theorem create_single_temperature_divides_by_zero {num E C : Type} `{!FloatArith num}
    (rest : list (ThermodynamicState num) → C → stateful num E)
    (system : loc) (coordinates : C) (T_min T_max : num) (pressure : option num)
    (h : heap num) :
  ParallelTempering.create rest system coordinates (Some T_min) (Some T_max) None (Some 1%Z)
    pressure h
  = (inl ZeroDivisionError, h).
Proof. reflexivity. Qed.

(** ** The checkpoint database: static records *)

Section DatabaseStatic.
Context {F64 F32 Unit State : Type}.
Context `{!NetCDF.Storage F64 F32} `{!NetCDF.Interpreter F64 Unit}
        `{!NetCDF.ThermodynamicStateAPI State F64 F32}.
Implicit Types nc : NetCDF.Dataset (F64:=F64) (F32:=F32).

(** What [load_thermodynamic_states] rebuilds of a state: the temperature
    as stored in 32 bits, the pressure likewise when pressures were stored,
    and the serialised system. *)
Local Abbreviation reloaded with_pressures s :=
  (NetCDF.restore_state (NetCDF.to32 (NetCDF.state_temperature s))
     (if with_pressures : bool then NetCDF.to32 <$> NetCDF.state_pressure s else None)
     (NetCDF.state_system s)).

Lemma store_thermodynamic_states_inv (states : list State) nc nc' :
  NetCDF._store_thermodynamic_states states nc = inr nc' →
  ∃ state0 pressures,
    states !! 0%nat = Some state0 ∧
    nc' = NetCDF.mkDataset (NetCDF.dim_iteration nc) (NetCDF.dim_replica nc)
            (NetCDF.dim_atom nc) (NetCDF.variables nc)
            (Some (NetCDF.mkStatesGroup (length states)
                     ((fun s => NetCDF.to32 (NetCDF.state_temperature s)) <$> states)
                     pressures (NetCDF.state_system <$> states)))
            (NetCDF.grp_options nc) ∧
    match NetCDF.state_pressure state0 with
    | Some _ =>
        ∃ ps, pressures = Some ps ∧ length ps = length states ∧
              ∀ k s, states !! k = Some s →
                ∃ p, NetCDF.state_pressure s = Some p ∧ ps !! k = Some (NetCDF.to32 p)
    | None => pressures = None
    end.
Proof.
  unfold NetCDF._store_thermodynamic_states, getitem.
  destruct (states !! 0%nat) as [state0|] eqn:Hfirst; simpl; [|done].
  destruct (NetCDF.state_pressure state0) as [p0|] eqn:Hp0; simpl.
  - destruct (list_comp _ states) as [e|ps] eqn:Hps; simpl; [done|]. intros [= <-].
    exists state0, (Some ps). split; [done|]. split; [done|]. rewrite Hp0.
    apply list_comp_inr in Hps as [Hlen Hall].
    exists ps. split; [done|]. split; [done|]. intros k s Hk.
    destruct (Hall k s Hk) as (y & Hy & Hs).
    destruct (NetCDF.state_pressure s) as [p|]; [|done].
    injection Hs as <-. eauto.
  - intros [= <-]. exists state0, None. split; [done|]. split; [done|]. by rewrite Hp0.
Qed.

(** What [load_thermodynamic_states] reads from the group that
    [_store_thermodynamic_states] writes. *)
Lemma load_states_of_group (states : list State) (state0 : State)
    (pressures : option (list F32)) nc :
  states !! 0%nat = Some state0 →
  NetCDF.grp_thermodynamic_states nc
  = Some (NetCDF.mkStatesGroup (length states)
            ((fun s => NetCDF.to32 (NetCDF.state_temperature s)) <$> states)
            pressures (NetCDF.state_system <$> states)) →
  match NetCDF.state_pressure state0 with
  | Some _ =>
      ∃ ps, pressures = Some ps ∧ length ps = length states ∧
            ∀ k s, states !! k = Some s →
              ∃ p, NetCDF.state_pressure s = Some p ∧ ps !! k = Some (NetCDF.to32 p)
  | None => pressures = None
  end →
  NetCDF.load_thermodynamic_states nc
  = inr ((fun s => reloaded (bool_decide (is_Some (NetCDF.state_pressure state0))) s)
           <$> states).
Proof.
  intros Hfirst Hgrp Hpress.
  unfold NetCDF.load_thermodynamic_states. rewrite Hgrp. simpl.
  rewrite <- (range_lookup_fmap
    (fun s => reloaded (bool_decide (is_Some (NetCDF.state_pressure state0))) s) state0 states).
  apply list_comp_ok. intros k Hk. apply elem_of_seq in Hk as [_ Hk]. simpl in Hk.
  destruct (lookup_lt_is_Some_2 states k) as [s Hs]; [lia|].
  unfold getitem. rewrite !list_lookup_fmap, Hs. simpl.
  destruct (NetCDF.state_pressure state0) as [p0|] eqn:Hp0.
  - destruct Hpress as (ps & -> & Hlen & Hall).
    destruct (Hall k s Hs) as (p & Hp & Hpk). rewrite Hpk. simpl. by rewrite Hp.
  - subst pressures. by simpl.
Qed.

(** X12.  The thermodynamic states that [_store_thermodynamic_states] has
    written are read back by [load_thermodynamic_states] in the same number
    and order, each with its temperature as stored in 32 bits and its
    serialised system; the pressures come back (in 32 bits) when the first
    state has a pressure, and are dropped for every state when it has
    none. *)
Theorem thermodynamic_states_round_trip (states : list State) nc nc' :
  NetCDF._store_thermodynamic_states states nc = inr nc' →
  ∃ state0,
    states !! 0%nat = Some state0 ∧
    NetCDF.load_thermodynamic_states nc'
    = inr ((fun s => reloaded (bool_decide (is_Some (NetCDF.state_pressure state0))) s)
             <$> states).
Proof.
  intros Hstore.
  destruct (store_thermodynamic_states_inv states nc nc' Hstore)
    as (state0 & pressures & Hfirst & -> & Hpress).
  exists state0. split; [done|].
  by apply (load_states_of_group states state0 pressures).
Qed.

End DatabaseStatic.

Lemma thermodynamic_states_round_trip_witness :
  ∃ state0,
    Examples.stored_states !! 0%nat = Some state0 ∧
    NetCDF.load_thermodynamic_states Examples.with_states
    = inr ((fun s =>
              NetCDF.restore_state (NetCDF.to32 (NetCDF.state_temperature s))
                (if bool_decide (is_Some (NetCDF.state_pressure state0))
                 then NetCDF.to32 <$> NetCDF.state_pressure s else None)
                (NetCDF.state_system s))
             <$> Examples.stored_states).
Proof.
  apply (thermodynamic_states_round_trip Examples.stored_states Examples.fresh
           Examples.with_states).
  reflexivity.
Defined.

(** ** The checkpoint database: time series *)

Section DatabaseSeries.
Context {F64 F32 Unit State : Type}.
Context `{!NetCDF.Storage F64 F32} `{!NetCDF.Interpreter F64 Unit}
        `{!NetCDF.ThermodynamicStateAPI State F64 F32}.
Implicit Types nc : NetCDF.Dataset (F64:=F64) (F32:=F32).

(** [nc'] is [nc] except for row [i] of some variables: the number of rows
    has grown to include [i], and the dimensions, the static groups, the set
    of variables and every other row are the same. *)
Local Abbreviation same_but_row i nc nc' :=
  (NetCDF.dim_iteration nc' = Nat.max (NetCDF.dim_iteration nc) (S i) ∧
   NetCDF.dim_replica nc' = NetCDF.dim_replica nc ∧
   NetCDF.dim_atom nc' = NetCDF.dim_atom nc ∧
   NetCDF.grp_thermodynamic_states nc' = NetCDF.grp_thermodynamic_states nc ∧
   NetCDF.grp_options nc' = NetCDF.grp_options nc ∧
   (∀ name (k : nat), k ≠ i%nat → NetCDF.stored_row nc' name k = NetCDF.stored_row nc name k) ∧
   (∀ name, is_Some (NetCDF.variables nc' !! name) ↔ is_Some (NetCDF.variables nc !! name))).

Lemma setrow_frame nc nc' (name : string) (i : Z) (row : NetCDF.ncarray F32) :
  (0 ≤ i)%Z → NetCDF.setrow nc name i row = inr nc' →
  same_but_row (Z.to_nat i) nc nc' ∧
  NetCDF.stored_row nc' name (Z.to_nat i) = Some row ∧
  (∀ name', name' ≠ name →
     NetCDF.stored_row nc' name' (Z.to_nat i) = NetCDF.stored_row nc name' (Z.to_nat i)).
Proof.
  intros Hi. unfold NetCDF.setrow, NetCDF.variable.
  destruct (NetCDF.variables nc !! name) as [var|] eqn:Hvar; simpl; [|done].
  rewrite decide_True by done. simpl. intros [= <-]. simpl.
  split; [|split].
  - split; [done|]. split; [done|]. split; [done|]. split; [done|]. split; [done|]. split.
    + intros name' k Hk. unfold NetCDF.stored_row; simpl.
      destruct (decide (name = name')) as [<-|Hne].
      * rewrite lookup_insert_eq, Hvar. simpl. by rewrite lookup_insert_ne.
      * by rewrite lookup_insert_ne.
    + intros name'. destruct (decide (name = name')) as [<-|Hne].
      * rewrite lookup_insert_eq, Hvar. split; by eauto.
      * by rewrite lookup_insert_ne.
  - unfold NetCDF.stored_row; simpl. rewrite lookup_insert_eq. simpl.
    by rewrite lookup_insert_eq.
  - intros name' Hne. unfold NetCDF.stored_row; simpl. by rewrite lookup_insert_ne.
Qed.

Lemma same_but_row_trans (i : nat) nc1 nc2 nc3 :
  same_but_row i nc1 nc2 → same_but_row i nc2 nc3 → same_but_row i nc1 nc3.
Proof.
  intros (Hd1 & Hr1 & Ha1 & Hs1 & Ho1 & Hf1 & Hv1) (Hd2 & Hr2 & Ha2 & Hs2 & Ho2 & Hf2 & Hv2).
  split; [lia|]. split; [congruence|]. split; [congruence|]. split; [congruence|].
  split; [congruence|]. split.
  - intros name k Hk. by rewrite Hf2, Hf1.
  - intros name. by rewrite Hv2, Hv1.
Qed.

(** What a successful [output_iteration] at a non-negative index has
    done. *)
Lemma output_iteration_spec nc nc' (kwargs : NetCDF.IterationRecord) :
  (0 ≤ NetCDF.kw_iteration kwargs)%Z →
  NetCDF.output_iteration nc kwargs = inr nc' →
  same_but_row (Z.to_nat (NetCDF.kw_iteration kwargs)) nc nc' ∧
  NetCDF.stored_row nc' "positions" (Z.to_nat (NetCDF.kw_iteration kwargs))
    = Some (NetCDF.Floats3 (NetCDF.store3 (NetCDF.kw_coordinates kwargs))) ∧
  NetCDF.stored_row nc' "box_vectors" (Z.to_nat (NetCDF.kw_iteration kwargs))
    = Some (NetCDF.Floats3 (NetCDF.store3 (NetCDF.kw_box_vectors kwargs))) ∧
  NetCDF.stored_row nc' "states" (Z.to_nat (NetCDF.kw_iteration kwargs))
    = Some (NetCDF.Ints1 (NetCDF.kw_replica_states kwargs)) ∧
  NetCDF.stored_row nc' "energies" (Z.to_nat (NetCDF.kw_iteration kwargs))
    = Some (NetCDF.Floats2 (NetCDF.store2 (NetCDF.kw_energies kwargs))) ∧
  NetCDF.stored_row nc' "proposed" (Z.to_nat (NetCDF.kw_iteration kwargs))
    = Some (NetCDF.Ints2 (NetCDF.kw_proposed kwargs)) ∧
  NetCDF.stored_row nc' "accepted" (Z.to_nat (NetCDF.kw_iteration kwargs))
    = Some (NetCDF.Ints2 (NetCDF.kw_accepted kwargs)).
Proof.
  intros Hi. unfold NetCDF.output_iteration.
  destruct (NetCDF.setrow nc "positions" _ _) as [e|nc1] eqn:E1; [done|]. rewrite bind_inr.
  destruct (NetCDF.setrow nc1 "box_vectors" _ _) as [e|nc2] eqn:E2; [done|]. rewrite bind_inr.
  destruct (NetCDF.setrow nc2 "volumes" _ _) as [e|nc3] eqn:E3; [done|]. rewrite bind_inr.
  destruct (NetCDF.setrow nc3 "states" _ _) as [e|nc4] eqn:E4; [done|]. rewrite bind_inr.
  destruct (NetCDF.setrow nc4 "energies" _ _) as [e|nc5] eqn:E5; [done|]. rewrite bind_inr.
  destruct (NetCDF.setrow nc5 "proposed" _ _) as [e|nc6] eqn:E6; [done|]. rewrite bind_inr.
  destruct (NetCDF.setrow nc6 "accepted" _ _) as [e|nc7] eqn:E7; [done|]. rewrite bind_inr.
  destruct (NetCDF.setrow nc7 "timestamp" _ _) as [e|nc8] eqn:E8; [done|]. rewrite bind_inr.
  intros [= <-].
  apply setrow_frame in E1 as (F1 & R1 & O1); [|done].
  apply setrow_frame in E2 as (F2 & R2 & O2); [|done].
  apply setrow_frame in E3 as (F3 & R3 & O3); [|done].
  apply setrow_frame in E4 as (F4 & R4 & O4); [|done].
  apply setrow_frame in E5 as (F5 & R5 & O5); [|done].
  apply setrow_frame in E6 as (F6 & R6 & O6); [|done].
  apply setrow_frame in E7 as (F7 & R7 & O7); [|done].
  apply setrow_frame in E8 as (F8 & R8 & O8); [|done].
  split.
  { eapply same_but_row_trans; [|exact F8]. eapply same_but_row_trans; [|exact F7].
    eapply same_but_row_trans; [|exact F6]. eapply same_but_row_trans; [|exact F5].
    eapply same_but_row_trans; [|exact F4]. eapply same_but_row_trans; [|exact F3].
    eapply same_but_row_trans; [exact F1|exact F2]. }
  split; [by rewrite O8, O7, O6, O5, O4, O3, O2|].
  split; [by rewrite O8, O7, O6, O5, O4, O3|].
  split; [by rewrite O8, O7, O6, O5|].
  split; [by rewrite O8, O7, O6|].
  split; [by rewrite O8, O7|]. by rewrite O8.
Qed.

(** The last row as [_load_last_iteration] addresses it. *)
Lemma getrow_last nc (name : string) :
  NetCDF.getrow nc name (Z.of_nat (NetCDF.dim_iteration nc) - 1)
  = match NetCDF.stored_row nc name (NetCDF.dim_iteration nc - 1) with
    | None => inl (KeyError name)
    | Some row => if decide (0 < NetCDF.dim_iteration nc)%nat then inr row else inl IndexError
    end.
Proof.
  unfold NetCDF.getrow, NetCDF.stored_row, NetCDF.variable.
  destruct (NetCDF.variables nc !! name) as [var|]; simpl; [|done].
  unfold NetCDF.index. destruct (decide (0 < NetCDF.dim_iteration nc)%nat) as [Hpos|Hzero].
  - rewrite decide_True by lia. simpl. do 3 f_equal. lia.
  - rewrite decide_False by lia. by rewrite decide_False by lia.
Qed.

(** [_load_last_iteration] reads the dimensions and the last rows only. *)
Lemma load_last_iteration_ext nc nc' :
  NetCDF.dim_iteration nc' = NetCDF.dim_iteration nc →
  NetCDF.dim_replica nc' = NetCDF.dim_replica nc →
  (∀ name, NetCDF.stored_row nc' name (NetCDF.dim_iteration nc - 1)
           = NetCDF.stored_row nc name (NetCDF.dim_iteration nc - 1)) →
  NetCDF._load_last_iteration nc' = NetCDF._load_last_iteration nc.
Proof.
  intros Hd Hr Hrows. unfold NetCDF._load_last_iteration.
  assert (Hget : ∀ name,
    NetCDF.getrow nc' name (Z.of_nat (NetCDF.dim_iteration nc') - 1)
    = NetCDF.getrow nc name (Z.of_nat (NetCDF.dim_iteration nc) - 1)).
  { intros name. rewrite !getrow_last, Hd. by rewrite Hrows. }
  assert (Hvar : ∀ (A : Type) (k : result A),
    (let* _ := NetCDF.variable nc' "positions" in k)
    = (let* _ := NetCDF.variable nc "positions" in k)).
  { intros A k. specialize (Hrows "positions"). unfold NetCDF.stored_row in Hrows.
    unfold NetCDF.variable.
    destruct (NetCDF.variables nc' !! "positions"), (NetCDF.variables nc !! "positions");
      done. }
  rewrite Hvar, Hr. rewrite !Hget. by rewrite Hd.
Qed.

(** X13.  Writing an iteration again at an index before the last row does
    not change what [_load_last_iteration] returns: it always reads the row
    at the highest index, not the row written most recently. *)
Theorem rewriting_earlier_iteration_keeps_last nc nc' (kwargs : NetCDF.IterationRecord) :
  (0 ≤ NetCDF.kw_iteration kwargs)%Z →
  (Z.to_nat (NetCDF.kw_iteration kwargs) + 1 < NetCDF.dim_iteration nc)%nat →
  NetCDF.output_iteration nc kwargs = inr nc' →
  NetCDF.dim_iteration nc' = NetCDF.dim_iteration nc ∧
  NetCDF._load_last_iteration nc' = NetCDF._load_last_iteration nc.
Proof.
  intros Hi Hearlier Hout.
  destruct (output_iteration_spec nc nc' kwargs Hi Hout)
    as ((Hd & Hr & _ & _ & _ & Hframe & _) & _).
  assert (Hd' : NetCDF.dim_iteration nc' = NetCDF.dim_iteration nc) by lia.
  split; [done|]. apply load_last_iteration_ext; [done..|].
  intros name. apply Hframe. lia.
Qed.

(** A file without rows cannot be read back: with the variable [positions]
    present and at least one replica, [_load_last_iteration] raises
    [IndexError], and so does [restore_database] once the static records
    have been read. *)
Lemma load_last_iteration_of_empty_file nc :
  NetCDF.dim_iteration nc = 0%nat →
  (0 < NetCDF.dim_replica nc)%nat →
  is_Some (NetCDF.variables nc !! "positions") →
  NetCDF._load_last_iteration nc = inl IndexError ∧
  ∀ (states : list State) (options : gmap string (NetCDF.pyval F64 Unit)) (title : string),
    NetCDF.load_thermodynamic_states nc = inr states →
    NetCDF.load_options nc = inr options →
    NetCDF.restore_database (State:=State) nc title = inl IndexError.
Proof.
  intros Hd Hr [var Hvar].
  assert (Hload : NetCDF._load_last_iteration nc = inl IndexError).
  { unfold NetCDF._load_last_iteration, NetCDF.variable. rewrite Hvar, bind_inr.
    destruct (NetCDF.dim_replica nc) as [|n]; [lia|].
    unfold range. simpl. rewrite getrow_last. unfold NetCDF.stored_row.
    rewrite Hvar, Hd. by simpl. }
  split; [done|]. intros states options title Hs Ho.
  unfold NetCDF.restore_database. by rewrite Hs, Ho, Hload.
Qed.

Lemma all_rows_stored nc (name : string) (var : NetCDF.NcVariable) :
  NetCDF.variables nc !! name = Some var →
  ∃ rows,
    NetCDF.all_rows nc name = inr rows ∧
    length rows = NetCDF.dim_iteration nc ∧
    ∀ k, (k < NetCDF.dim_iteration nc)%nat → NetCDF.stored_row nc name k = rows !! k.
Proof.
  intros Hvar. unfold NetCDF.all_rows, NetCDF.variable. rewrite Hvar, bind_inr.
  eexists. split; [done|]. unfold range. split; [by rewrite length_fmap, length_seq|].
  intros k Hk. unfold NetCDF.stored_row. rewrite Hvar.
  by rewrite list_lookup_fmap, lookup_seq_lt.
Qed.

Lemma all_rows_after_write nc nc' (name : string) (i : nat) (row : NetCDF.ncarray F32)
    (rows : list (NetCDF.ncarray F32)) :
  i = NetCDF.dim_iteration nc →
  same_but_row i nc nc' →
  NetCDF.stored_row nc' name i = Some row →
  NetCDF.all_rows nc name = inr rows →
  NetCDF.all_rows nc' name = inr (rows ++ [row]).
Proof.
  intros -> (Hd & _ & _ & _ & _ & Hframe & Hvars) Hrow Hrows.
  assert (Hsome : is_Some (NetCDF.variables nc !! name)).
  { unfold NetCDF.all_rows, NetCDF.variable in Hrows.
    destruct (NetCDF.variables nc !! name); [by eexists|done]. }
  destruct Hsome as [var Hvar].
  destruct (all_rows_stored nc name var Hvar) as (rows0 & Hr0 & Hlen & Hst).
  assert (rows0 = rows) as -> by congruence.
  destruct (proj2 (Hvars name)) as [var' Hvar']; [by eexists|].
  destruct (all_rows_stored nc' name var' Hvar') as (rows' & Hr' & Hlen' & Hst').
  rewrite Hr'. f_equal. apply list_eq. intros k.
  destruct (decide (k < NetCDF.dim_iteration nc)%nat) as [Hk|Hk].
  - rewrite lookup_app_l by lia. rewrite <- Hst' by lia. rewrite <- Hst by done.
    apply Hframe. lia.
  - destruct (decide (k = NetCDF.dim_iteration nc)) as [->|Hne].
    + rewrite <- Hst' by lia. rewrite Hrow.
      rewrite lookup_app_r by lia. by rewrite Hlen, Nat.sub_diag.
    + rewrite lookup_ge_None_2 by lia.
      rewrite lookup_ge_None_2; [done|]. rewrite length_app. simpl. lia.
Qed.

(** X15.  After an iteration has been written at the index of the next
    unwritten row, the series that the properties [states], [proposed] and
    [accepted] return are the former series with the written row
    appended. *)
Theorem series_grow_by_written_row nc nc' (kwargs : NetCDF.IterationRecord)
    (sts prop acc : list (NetCDF.ncarray F32)) :
  NetCDF.kw_iteration kwargs = Z.of_nat (NetCDF.dim_iteration nc) →
  NetCDF.output_iteration nc kwargs = inr nc' →
  NetCDF.states nc = inr sts → NetCDF.proposed nc = inr prop → NetCDF.accepted nc = inr acc →
  NetCDF.states nc' = inr (sts ++ [NetCDF.Ints1 (NetCDF.kw_replica_states kwargs)]) ∧
  NetCDF.proposed nc' = inr (prop ++ [NetCDF.Ints2 (NetCDF.kw_proposed kwargs)]) ∧
  NetCDF.accepted nc' = inr (acc ++ [NetCDF.Ints2 (NetCDF.kw_accepted kwargs)]).
Proof.
  intros Hit Hout Hsts Hprop Hacc.
  destruct (output_iteration_spec nc nc' kwargs ltac:(lia) Hout)
    as (Hframe & _ & _ & Hrs & _ & Hrp & Hra).
  rewrite Hit, Nat2Z.id in *.
  unfold NetCDF.states, NetCDF.proposed, NetCDF.accepted in *.
  split; [|split]; eapply all_rows_after_write; done.
Qed.

End DatabaseSeries.

Lemma rewriting_earlier_iteration_keeps_last_witness :
  NetCDF.dim_iteration Examples.rewritten = NetCDF.dim_iteration Examples.written_twice ∧
  NetCDF._load_last_iteration Examples.rewritten
  = NetCDF._load_last_iteration Examples.written_twice.
Proof.
  apply (rewriting_earlier_iteration_keeps_last Examples.written_twice Examples.rewritten
           Examples.iteration0_again).
  - simpl. lia.
  - vm_compute. lia.
  - vm_compute. reflexivity.
Defined.

Lemma series_grow_by_written_row_witness :
  NetCDF.states Examples.written
  = inr ([] ++ [NetCDF.Ints1 (NetCDF.kw_replica_states Examples.iteration0)]) ∧
  NetCDF.proposed Examples.written
  = inr ([] ++ [NetCDF.Ints2 (NetCDF.kw_proposed Examples.iteration0)]) ∧
  NetCDF.accepted Examples.written
  = inr ([] ++ [NetCDF.Ints2 (NetCDF.kw_accepted Examples.iteration0)]).
Proof.
  apply (series_grow_by_written_row Examples.fresh Examples.written Examples.iteration0);
    vm_compute; reflexivity.
Defined.

(** ** The checkpoint database: from creation to resumption *)

Section DatabaseLifecycle.
Context {F64 F32 Unit State : Type}.
Context `{!NetCDF.Storage F64 F32} `{!NetCDF.Interpreter F64 Unit}
        `{!NetCDF.ThermodynamicStateAPI State F64 F32}.
Implicit Types nc : NetCDF.Dataset (F64:=F64) (F32:=F32).

Local Abbreviation reloaded with_pressures s :=
  (NetCDF.restore_state (NetCDF.to32 (NetCDF.state_temperature s))
     (if with_pressures : bool then NetCDF.to32 <$> NetCDF.state_pressure s else None)
     (NetCDF.state_system s)).

Lemma new_variables_present (n_replicas n_atoms : nat) (name : string) :
  name ∈ ["positions"; "box_vectors"; "volumes"; "states"; "energies";
          "proposed"; "accepted"; "timestamp"] →
  is_Some (NetCDF.new_variables (F32:=F32) n_replicas n_atoms !! name).
Proof.
  intros Hin. unfold NetCDF.new_variables. simpl.
  repeat (apply elem_of_cons in Hin as [->|Hin];
          [repeat (rewrite lookup_insert_ne by done); rewrite lookup_insert_eq; by eexists|]).
  by apply elem_of_nil in Hin.
Qed.

Lemma options_round_trip_loops nc (options : gmap string (NetCDF.pyval F64 Unit)) :
  (∀ name, name ∈ NetCDF.options_to_store →
     ∃ v, options !! name = Some v ∧ NetCDF.scalar_option v) →
  ∃ nc' loaded,
    NetCDF._store_options options nc = inr nc' ∧
    NetCDF.load_options nc' = inr loaded ∧
    (∀ name, name ∈ NetCDF.options_to_store → loaded !! name = options !! name) ∧
    (∀ name, name ∉ NetCDF.options_to_store → loaded !! name = None).
Proof.
  intros Hall. unfold NetCDF._store_options.
  destruct (store_options_loop options NetCDF.options_to_store [] Hall) as (vars & Hrun & Hvars).
  cbv beta zeta in Hrun. rewrite Hrun. simpl.
  destruct (load_options_loop options NetCDF.options_to_store vars ∅ Hvars) as (m & Hload & Hm).
  eexists _, m. split; [done|]. unfold NetCDF.load_options. simpl.
  split; [done|]. split.
  - intros name Hin. by rewrite Hm, decide_True.
  - intros name Hnin. by rewrite Hm, decide_False.
Qed.

Lemma store_options_inv (options : gmap string (NetCDF.pyval F64 Unit)) nc nc' :
  NetCDF._store_options options nc = inr nc' →
  NetCDF.dim_iteration nc' = NetCDF.dim_iteration nc ∧
  NetCDF.dim_replica nc' = NetCDF.dim_replica nc ∧
  NetCDF.variables nc' = NetCDF.variables nc ∧
  NetCDF.grp_thermodynamic_states nc' = NetCDF.grp_thermodynamic_states nc ∧
  ((∀ name, name ∈ NetCDF.options_to_store →
      ∃ v, options !! name = Some v ∧ NetCDF.scalar_option v) →
   ∃ loaded,
     NetCDF.load_options nc' = inr loaded ∧
     (∀ name, name ∈ NetCDF.options_to_store → loaded !! name = options !! name) ∧
     (∀ name, name ∉ NetCDF.options_to_store → loaded !! name = None)).
Proof.
  intros Hstore. pose proof Hstore as Hstore'. unfold NetCDF._store_options in Hstore.
  destruct (for_each NetCDF.options_to_store _ []) as [e|vars] eqn:Hvars; simpl in Hstore;
    [done|]. injection Hstore as <-. simpl.
  split; [done|]. split; [done|]. split; [done|]. split; [done|].
  intros Hall. destruct (options_round_trip_loops nc options Hall)
    as (nc2 & loaded & Hs2 & Hl & Hin & Hout).
  rewrite Hstore' in Hs2. injection Hs2 as <-. by exists loaded.
Qed.

(** What a successful creation has put into the file. *)
Lemma created_file_layout (options : gmap string (NetCDF.pyval F64 Unit))
    (states : list State) (coordinates : list (list (list F64)))
    (db : NetCDF.Database (F64:=F64) (F32:=F32) (Unit:=Unit) (State:=State)) :
  NetCDF.__init__ None options (Some states) (Some coordinates) = inr db →
  ∃ state0 coordinates0 n_atoms,
    states !! 0%nat = Some state0 ∧
    coordinates !! 0%nat = Some coordinates0 ∧
    NetCDF.dim_iteration (NetCDF.ncfile db) = 0%nat ∧
    NetCDF.dim_replica (NetCDF.ncfile db) = length states ∧
    NetCDF.variables (NetCDF.ncfile db) = NetCDF.new_variables (length states) n_atoms ∧
    NetCDF.load_thermodynamic_states (NetCDF.ncfile db)
    = inr ((fun s => reloaded (bool_decide (is_Some (NetCDF.state_pressure state0))) s)
             <$> states) ∧
    ((∀ name, name ∈ NetCDF.options_to_store →
        ∃ v, options !! name = Some v ∧ NetCDF.scalar_option v) →
     ∃ loaded,
       NetCDF.load_options (NetCDF.ncfile db) = inr loaded ∧
       (∀ name, name ∈ NetCDF.options_to_store → loaded !! name = options !! name) ∧
       (∀ name, name ∉ NetCDF.options_to_store → loaded !! name = None)).
Proof.
  unfold NetCDF.__init__. simpl.
  destruct (decide (length states = length coordinates)) as [Hlen|]; simpl; [|done].
  destruct (NetCDF._initialize_netcdf options states coordinates) as [e|nc] eqn:Hnc;
    simpl; [done|].
  destruct (for_each states _ tt) as [e|[]]; simpl; [done|]. intros [= <-]. simpl.
  unfold NetCDF._initialize_netcdf, getitem in Hnc.
  destruct (coordinates !! 0%nat) as [coordinates0|] eqn:Hc0; simpl in Hnc; [|done].
  rewrite decide_True in Hnc by done.
  destruct (NetCDF._store_thermodynamic_states states _) as [e|nc0] eqn:Hstates;
    simpl in Hnc; [done|].
  destruct (store_thermodynamic_states_inv states _ nc0 Hstates)
    as (state0 & pressures & Hfirst & Hnc0 & Hpress). simpl in Hnc0.
  destruct (store_options_inv options nc0 nc Hnc) as (Hd & Hr & Hv & Hg & Hopts).
  exists state0, coordinates0, (length coordinates0).
  split; [done|]. split; [done|].
  split; [by rewrite Hd, Hnc0|]. split; [by rewrite Hr, Hnc0|].
  split; [by rewrite Hv, Hnc0|]. split; [|done].
  apply (load_states_of_group states state0 pressures); [done| |done].
  by rewrite Hg, Hnc0.
Qed.

Lemma load_thermodynamic_states_ext nc nc' :
  NetCDF.grp_thermodynamic_states nc' = NetCDF.grp_thermodynamic_states nc →
  NetCDF.load_thermodynamic_states (State:=State) nc'
  = NetCDF.load_thermodynamic_states nc.
Proof. intros Hg. unfold NetCDF.load_thermodynamic_states. by rewrite Hg. Qed.

Lemma load_options_ext nc nc' :
  NetCDF.grp_options nc' = NetCDF.grp_options nc →
  NetCDF.load_options (Unit:=Unit) nc' = NetCDF.load_options nc.
Proof. intros Hg. unfold NetCDF.load_options. by rewrite Hg. Qed.

Lemma for_each_checks_inv {A} (l : list A) (body : A → unit → result unit) :
  for_each l body tt = inr tt → ∀ x, x ∈ l → body x tt = inr tt.
Proof.
  induction l as [|y l IH]; simpl; intros Hrun x Hx.
  - by apply elem_of_nil in Hx.
  - destruct (body y tt) as [e|[]] eqn:Hy; simpl in Hrun; [done|].
    apply elem_of_cons in Hx as [->|Hx]; [done|]. by apply IH.
Qed.

(** X22.  A database that the constructor has created holds what it was
    given: as many states as sets of coordinates, at least one state, every
    state compatible with the first, and the states, coordinates and options
    passed are those of the object, which has no box vectors, energies or
    iteration yet. *)
Theorem created_database_holds_its_arguments
    (options : gmap string (NetCDF.pyval F64 Unit))
    (states : list State) (coordinates : list (list (list F64)))
    (db : NetCDF.Database (F64:=F64) (F32:=F32) (Unit:=Unit) (State:=State)) :
  NetCDF.__init__ None options (Some states) (Some coordinates) = inr db →
  length states = length coordinates ∧
  (∃ state0, states !! 0%nat = Some state0 ∧
             ∀ s, s ∈ states → NetCDF.is_compatible_with s state0 = true) ∧
  NetCDF.thermodynamic_states db = states ∧
  NetCDF.coordinates db = coordinates ∧
  NetCDF.options db = options ∧
  NetCDF.replica_box_vectors db = None ∧
  NetCDF.u_kl db = None ∧
  NetCDF.iteration db = None.
Proof.
  intros Hinit.
  destruct (created_file_layout options states coordinates db Hinit)
    as (state0 & _ & _ & Hfirst & _).
  revert Hinit. unfold NetCDF.__init__. simpl.
  destruct (decide (length states = length coordinates)) as [Hlen|]; simpl; [|done].
  destruct (NetCDF._initialize_netcdf options states coordinates) as [e|nc]; simpl; [done|].
  destruct (for_each states _ tt) as [e|[]] eqn:Hloop; simpl; [done|]. intros [= <-]. simpl.
  split; [done|]. split; [|done].
  exists state0. split; [done|]. intros s Hs.
  pose proof (for_each_checks_inv _ _ Hloop s Hs) as Hbody. simpl in Hbody.
  unfold getitem in Hbody. rewrite Hfirst in Hbody. simpl in Hbody.
  by destruct (NetCDF.is_compatible_with s state0).
Qed.

(** X14.  The file that the constructor creates cannot be reopened before
    an iteration has been written: resuming from it raises, whatever
    arguments are passed, and when the options that were stored are scalars
    the exception is the [IndexError] of [_load_last_iteration], which
    reads row [-1] of a file without rows. *)
Theorem created_database_cannot_be_resumed_at_once
    (options options' : gmap string (NetCDF.pyval F64 Unit))
    (states : list State) (coordinates : list (list (list F64)))
    (db : NetCDF.Database (F64:=F64) (F32:=F32) (Unit:=Unit) (State:=State)) :
  NetCDF.__init__ None options (Some states) (Some coordinates) = inr db →
  ∃ e,
    NetCDF.__init__ (State:=State) (Some (NetCDF.ncfile db)) options' None None = inl e ∧
    ((∀ name, name ∈ NetCDF.options_to_store →
        ∃ v, options !! name = Some v ∧ NetCDF.scalar_option v) →
     e = IndexError).
Proof.
  intros Hinit.
  destruct (created_file_layout options states coordinates db Hinit)
    as (state0 & coordinates0 & n_atoms & Hfirst & _ & Hd & Hr & Hv & Hstates & Hopts).
  destruct (load_last_iteration_of_empty_file (State:=State) (Unit:=Unit) (NetCDF.ncfile db))
    as [Hlast _]; [done| |by rewrite Hv; apply new_variables_present; set_solver|].
  { rewrite Hr. apply lookup_lt_Some in Hfirst. lia. }
  unfold NetCDF.__init__. simpl. unfold NetCDF.restore_database. rewrite Hstates, bind_inr.
  destruct (NetCDF.load_options (NetCDF.ncfile db)) as [e|loaded] eqn:Hload; simpl.
  - exists e. split; [done|]. intros Hall.
    destruct (Hopts Hall) as (loaded & Hl & _). congruence.
  - rewrite Hlast. simpl. by exists IndexError.
Qed.

(** X16.  Create, write, resume.  After the constructor has created the
    file with scalar options and the first iteration has been written at
    index 0, resuming from the file succeeds provided the states as they are
    read back are compatible with the first of them.  The resumed database
    is at iteration 1; its states are the stored ones as read back, its
    coordinates, box vectors and energies are those written (through 32-bit
    storage), and its options are the options given at creation: the
    options passed when resuming are not used. *)
Theorem create_write_resume
    (options options' : gmap string (NetCDF.pyval F64 Unit))
    (states : list State) (coordinates : list (list (list F64)))
    (db : NetCDF.Database (F64:=F64) (F32:=F32) (Unit:=Unit) (State:=State))
    (kwargs : NetCDF.IterationRecord) (state0 : State) :
  NetCDF.__init__ None options (Some states) (Some coordinates) = inr db →
  (∀ name, name ∈ NetCDF.options_to_store →
     ∃ v, options !! name = Some v ∧ NetCDF.scalar_option v) →
  NetCDF.kw_iteration kwargs = 0%Z →
  length (NetCDF.kw_coordinates kwargs) = length states →
  length (NetCDF.kw_box_vectors kwargs) = length states →
  states !! 0%nat = Some state0 →
  (∀ s, s ∈ states →
     NetCDF.is_compatible_with
       (reloaded (bool_decide (is_Some (NetCDF.state_pressure state0))) s)
       (reloaded (bool_decide (is_Some (NetCDF.state_pressure state0))) state0) = true) →
  ∃ nc' db',
    NetCDF.output_iteration (NetCDF.ncfile db) kwargs = inr nc' ∧
    NetCDF.__init__ (Some nc') options' None None = inr db' ∧
    NetCDF.ncfile db' = nc' ∧
    NetCDF.iteration db' = Some 1%Z ∧
    NetCDF.thermodynamic_states db'
    = (fun s => reloaded (bool_decide (is_Some (NetCDF.state_pressure state0))) s) <$> states ∧
    NetCDF.coordinates db'
    = (fun x => NetCDF.astype64 (NetCDF.store2 x)) <$> NetCDF.kw_coordinates kwargs ∧
    NetCDF.replica_box_vectors db'
    = Some ((fun x => NetCDF.astype64 (NetCDF.store2 x)) <$> NetCDF.kw_box_vectors kwargs) ∧
    NetCDF.u_kl db' = Some (NetCDF.store2 (NetCDF.kw_energies kwargs)) ∧
    (∀ name, name ∈ NetCDF.options_to_store →
       NetCDF.options db' !! name = options !! name) ∧
    (∀ name, name ∉ NetCDF.options_to_store → NetCDF.options db' !! name = None).
Proof.
  intros Hinit Hall Hit Hlc Hlb Hfirst Hcompat.
  destruct (created_file_layout options states coordinates db Hinit)
    as (state0' & coordinates0 & n_atoms & Hfirst' & _ & Hd & Hr & Hv & Hstates & Hopts).
  assert (state0' = state0) as -> by congruence.
  destruct (Hopts Hall) as (loaded & Hload & Hin & Hout).
  destruct (output_iteration_rows (NetCDF.ncfile db) kwargs)
    as (nc' & Hwrite & Hd' & Hr' & Hpos & Hbox & Hsts & Hen).
  { by rewrite Hd. }
  { intros name Hname. rewrite Hv. by apply new_variables_present. }
  destruct (output_iteration_spec (NetCDF.ncfile db) nc' kwargs ltac:(lia) Hwrite)
    as ((_ & _ & _ & Hgs & Hgo & _ & _) & _).
  rewrite Hd in Hpos, Hbox, Hsts, Hen.
  assert (Hlast : NetCDF._load_last_iteration nc'
    = inr (NetCDF.astype64 <$> NetCDF.store3 (NetCDF.kw_coordinates kwargs),
           NetCDF.astype64 <$> NetCDF.store3 (NetCDF.kw_box_vectors kwargs),
           NetCDF.store2 (NetCDF.kw_energies kwargs), 1%Z)).
  { rewrite (load_last_iteration_rows nc'
               (NetCDF.store3 (NetCDF.kw_coordinates kwargs))
               (NetCDF.store3 (NetCDF.kw_box_vectors kwargs))
               (NetCDF.kw_replica_states kwargs)
               (NetCDF.store2 (NetCDF.kw_energies kwargs))).
    - by rewrite Hd', Hd.
    - lia.
    - by rewrite Hd', Hd.
    - by rewrite Hd', Hd.
    - by rewrite Hd', Hd.
    - by rewrite Hd', Hd.
    - unfold NetCDF.store3. rewrite length_fmap. congruence.
    - unfold NetCDF.store3. rewrite length_fmap. congruence. }
  eexists nc', _. split; [done|].
  unfold NetCDF.__init__. simpl. unfold NetCDF.restore_database.
  rewrite (load_thermodynamic_states_ext _ _ Hgs), Hstates, bind_inr.
  rewrite (load_options_ext _ _ Hgo), Hload, bind_inr.
  rewrite Hlast. simpl.
  rewrite for_each_checks_pass.
  - simpl. split; [done|]. simpl. split; [done|]. split; [done|]. split; [done|].
    unfold NetCDF.store3. rewrite <- !list_fmap_compose. done.
  - intros s Hs. apply list_elem_of_fmap in Hs as (s' & -> & Hs').
    unfold getitem. rewrite list_lookup_fmap, Hfirst. simpl.
    by rewrite Hcompat.
Qed.

End DatabaseLifecycle.

Lemma created_database_holds_its_arguments_witness :
  length Examples.stored_states = length (NetCDF.kw_coordinates Examples.iteration0) ∧
  (∃ state0, Examples.stored_states !! 0%nat = Some state0 ∧
             ∀ s, s ∈ Examples.stored_states → NetCDF.is_compatible_with s state0 = true) ∧
  NetCDF.thermodynamic_states Examples.created = Examples.stored_states ∧
  NetCDF.coordinates Examples.created = NetCDF.kw_coordinates Examples.iteration0 ∧
  NetCDF.options Examples.created = Examples.run_options ∧
  NetCDF.replica_box_vectors Examples.created = None ∧
  NetCDF.u_kl Examples.created = None ∧
  NetCDF.iteration Examples.created = None.
Proof.
  apply (created_database_holds_its_arguments Examples.run_options Examples.stored_states
           (NetCDF.kw_coordinates Examples.iteration0) Examples.created).
  vm_compute. reflexivity.
Defined.

Lemma created_database_cannot_be_resumed_at_once_witness :
  ∃ e,
    NetCDF.__init__ (State:=Examples.stored_state) (Some (NetCDF.ncfile Examples.created))
      Examples.run_options None None = inl e ∧
    ((∀ name, name ∈ NetCDF.options_to_store →
        ∃ v, Examples.run_options !! name = Some v ∧ NetCDF.scalar_option v) →
     e = IndexError).
Proof.
  apply (created_database_cannot_be_resumed_at_once Examples.run_options Examples.run_options
           Examples.stored_states (NetCDF.kw_coordinates Examples.iteration0) Examples.created).
  vm_compute. reflexivity.
Defined.

Lemma create_write_resume_witness :
  ∃ nc' db',
    NetCDF.output_iteration (NetCDF.ncfile Examples.created) Examples.iteration0 = inr nc' ∧
    NetCDF.__init__ (State:=Examples.stored_state) (Some nc') ∅ None None = inr db' ∧
    NetCDF.ncfile db' = nc' ∧
    NetCDF.iteration db' = Some 1%Z ∧
    NetCDF.thermodynamic_states db'
    = (fun s =>
         NetCDF.restore_state (NetCDF.to32 (NetCDF.state_temperature s))
           (if bool_decide (is_Some (NetCDF.state_pressure
                                       (Examples.mkStored (Examples.kelvin 300)
                                          (Some (Examples.kelvin 1)) "<System 0/>")))
            then NetCDF.to32 <$> NetCDF.state_pressure s else None)
           (NetCDF.state_system s)) <$> Examples.stored_states ∧
    NetCDF.coordinates db'
    = (fun x => NetCDF.astype64 (NetCDF.store2 x))
        <$> NetCDF.kw_coordinates Examples.iteration0 ∧
    NetCDF.replica_box_vectors db'
    = Some ((fun x => NetCDF.astype64 (NetCDF.store2 x))
              <$> NetCDF.kw_box_vectors Examples.iteration0) ∧
    NetCDF.u_kl db' = Some (NetCDF.store2 (NetCDF.kw_energies Examples.iteration0)) ∧
    (∀ name, name ∈ NetCDF.options_to_store →
       NetCDF.options db' !! name = Examples.run_options !! name) ∧
    (∀ name, name ∉ NetCDF.options_to_store → NetCDF.options db' !! name = None).
Proof.
  apply (create_write_resume Examples.run_options ∅ Examples.stored_states
           (NetCDF.kw_coordinates Examples.iteration0) Examples.created Examples.iteration0).
  - vm_compute. reflexivity.
  - apply Forall_forall.
    repeat constructor; (eexists; split; [reflexivity|]); vm_compute; try split; reflexivity.
  - reflexivity.
  - reflexivity.
  - reflexivity.
  - reflexivity.
  - apply Forall_forall. repeat constructor.
Defined.

(** ** The trajectory file: appending frames *)

Section TrajectoryAppend.
Context {Arr : Type}.
Variable earray_append : list Arr → Arr → result (list Arr).
Variable ensure_type : option Arr → string → Arr → result Arr.
Implicit Types self : HDF5.File (Arr:=Arr).
Implicit Types args : HDF5.Frames (Arr:=Arr).

Lemma append_contents_inr name contents self self' (u : unit) :
  HDF5.append_contents earray_append name contents self = (inr u, self') →
  HDF5.mode self' = HDF5.mode self ∧
  HDF5._needs_initialization self' = HDF5._needs_initialization self ∧
  (∀ name', name' ≠ name → HDF5.nodes self' !! name' = HDF5.nodes self !! name') ∧
  match contents with
  | Some c =>
      ∃ node node',
        HDF5.nodes self !! name = Some node ∧ earray_append node c = inr node' ∧
        HDF5.nodes self' !! name = Some node'
  | None => HDF5.nodes self !! name = None ∧ HDF5.nodes self' !! name = None
  end.
Proof.
  destruct u. unfold HDF5.append_contents, HDF5._get_node.
  destruct contents as [c|], (HDF5.nodes self !! name) as [node|] eqn:Hnode; simpl; try done.
  - destruct (earray_append node c) as [e|node'] eqn:Happ; [done|]. intros [= <-]. simpl.
    split; [done|]. split; [done|]. split; [intros; by rewrite lookup_insert_ne|].
    exists node, node'. by rewrite lookup_insert_eq.
  - intros [= <-]. done.
Qed.

Lemma append_fields_inr (l : list (string * option Arr)) self self' :
  NoDup l.*1 →
  HDF5.append_fields earray_append l self = (inr tt, self') →
  HDF5.mode self' = HDF5.mode self ∧
  HDF5._needs_initialization self' = HDF5._needs_initialization self ∧
  (∀ name c, (name, Some c) ∈ l →
     ∃ node node',
       HDF5.nodes self !! name = Some node ∧ earray_append node c = inr node' ∧
       HDF5.nodes self' !! name = Some node') ∧
  (∀ name, (name, None) ∈ l →
     HDF5.nodes self !! name = None ∧ HDF5.nodes self' !! name = None) ∧
  (∀ name, name ∉ l.*1 → HDF5.nodes self' !! name = HDF5.nodes self !! name).
Proof.
  revert self. induction l as [|[name contents] l IH]; intros self Hnd; simpl.
  - intros [= <-]. split; [done|]. split; [done|]. split; [|split; [|done]].
    + intros name c Hin. by apply elem_of_nil in Hin.
    + intros name Hin. by apply elem_of_nil in Hin.
  - apply NoDup_cons in Hnd as [Hname Hnd].
    destruct (HDF5.append_contents earray_append name contents self) as [[r|[]] self1] eqn:Hstep;
      [done|].
    intros Hrest. destruct (IH self1 Hnd Hrest) as (Hm & Hf & Hsome & Hnone & Hother).
    destruct (append_contents_inr name contents self self1 tt Hstep)
      as (Hm1 & Hf1 & Hother1 & Hhead).
    assert (Htail : ∀ name' (c' : option Arr), (name', c') ∈ l → name' ≠ name).
    { intros name' c' Hin ->. apply Hname. apply list_elem_of_fmap. by exists (name, c'). }
    split; [congruence|]. split; [congruence|]. split; [|split].
    + intros name' c Hin. apply elem_of_cons in Hin as [[= -> <-]|Hin].
      * destruct Hhead as (node & node' & Hn & Ha & Hn1). exists node, node'.
        split; [done|]. split; [done|]. by rewrite (Hother name Hname).
      * destruct (Hsome name' c Hin) as (node & node' & Hn & Ha & Hn1).
        exists node, node'. rewrite <- (Hother1 name') by eauto. done.
    + intros name' Hin. apply elem_of_cons in Hin as [[= -> <-]|Hin].
      * destruct Hhead as [Hn Hn1]. split; [done|]. by rewrite (Hother name Hname).
      * destruct (Hnone name' Hin) as [Hn Hn1]. rewrite <- (Hother1 name') by eauto. done.
    + intros name' Hnin. apply not_elem_of_cons in Hnin as [Hne Hnin].
      rewrite (Hother name' Hnin). by apply Hother1.
Qed.

Lemma append_fields_complete (l : list (string * option Arr)) self :
  NoDup l.*1 →
  (∀ name c, (name, Some c) ∈ l →
     ∃ node node', HDF5.nodes self !! name = Some node ∧ earray_append node c = inr node') →
  (∀ name, (name, None) ∈ l → HDF5.nodes self !! name = None) →
  ∃ self', HDF5.append_fields earray_append l self = (inr tt, self').
Proof.
  revert self. induction l as [|[name contents] l IH]; intros self Hnd Hsome Hnone; simpl.
  - by eexists.
  - apply NoDup_cons in Hnd as [Hname Hnd].
    assert (Htail : ∀ name' (c' : option Arr), (name', c') ∈ l → name' ≠ name).
    { intros name' c' Hin ->. apply Hname. apply list_elem_of_fmap. by exists (name, c'). }
    assert (Hstep : ∃ self1,
      HDF5.append_contents earray_append name contents self = (inr tt, self1) ∧
      ∀ name', name' ≠ name → HDF5.nodes self1 !! name' = HDF5.nodes self !! name').
    { unfold HDF5.append_contents, HDF5._get_node. destruct contents as [c|].
      - destruct (Hsome name c) as (node & node' & -> & ->); [apply elem_of_cons; by left|].
        eexists. split; [done|]. simpl. intros. by rewrite lookup_insert_ne.
      - rewrite Hnone by (apply elem_of_cons; by left). by eexists. }
    destruct Hstep as (self1 & -> & Hother). apply IH; [done| |].
    + intros name' c Hin. rewrite Hother by eauto. apply Hsome. apply elem_of_cons. by right.
    + intros name' Hin. rewrite Hother by eauto. apply Hnone. apply elem_of_cons. by right.
Qed.

Lemma append_fields_cons name (contents : option Arr) l self :
  HDF5.append_fields earray_append ((name, contents) :: l) self
  = match HDF5.append_contents earray_append name contents self with
    | (inr _, self) => HDF5.append_fields earray_append l self
    | (inl r, self) => (raise (HDF5.handlers name r), self)
    end.
Proof. reflexivity. Qed.

Lemma append_fields_cons_inr name (contents : option Arr) l self self1 :
  HDF5.append_contents earray_append name contents self = (inr tt, self1) →
  HDF5.append_fields earray_append ((name, contents) :: l) self
  = HDF5.append_fields earray_append l self1.
Proof. intros Hstep. by rewrite append_fields_cons, Hstep. Qed.

Lemma append_fields_cons_inl name (contents : option Arr) l self (r : HDF5.raised) :
  HDF5.append_contents earray_append name contents self = (inl r, self) →
  HDF5.append_fields earray_append ((name, contents) :: l) self
  = (inl (HDF5.handlers name r), self).
Proof. intros Hstep. by rewrite append_fields_cons, Hstep. Qed.

Lemma append_fields_frame (l : list (string * option Arr)) self self' (r : result unit) name :
  HDF5.append_fields earray_append l self = (r, self') →
  name ∉ l.*1 → HDF5.nodes self' !! name = HDF5.nodes self !! name.
Proof.
  revert self. induction l as [|[name0 contents] l IH]; intros self; simpl.
  - by intros [= _ <-].
  - intros Hrun Hnin. apply not_elem_of_cons in Hnin as [Hne Hnin].
    assert (Hstep : ∀ (x : HDF5.raised + unit) self1,
      HDF5.append_contents earray_append name0 contents self = (x, self1) →
      HDF5.nodes self1 !! name = HDF5.nodes self !! name).
    { unfold HDF5.append_contents, HDF5._get_node. intros x self1.
      destruct contents as [c|], (HDF5.nodes self !! name0) as [node|]; simpl;
        try (by intros [= _ <-]).
      destruct (earray_append node c) as [e|node']; intros [= _ <-]; [done|].
      simpl. by rewrite lookup_insert_ne. }
    destruct (HDF5.append_contents earray_append name0 contents self) as [[x|[]] self1] eqn:Hc.
    + injection Hrun as _ <-. by eapply Hstep.
    + rewrite (IH self1 Hrun Hnin). by eapply Hstep.
Qed.

Lemma ensure_optional_inr (c : Arr) (name : string) (a a' : option Arr) :
  HDF5.ensure_optional ensure_type c name a = inr a' → HDF5.is_None a' = HDF5.is_None a.
Proof.
  unfold HDF5.ensure_optional. destruct a as [a|]; simpl; [|by intros [= <-]].
  destruct (ensure_type (Some c) name a); simpl; [done|]. by intros [= <-].
Qed.

Lemma ensure_types_inr args args' :
  HDF5.ensure_types ensure_type args = inr args' →
  HDF5.is_None (HDF5.time args') = HDF5.is_None (HDF5.time args) ∧
  HDF5.is_None (HDF5.cell_lengths args') = HDF5.is_None (HDF5.cell_lengths args) ∧
  HDF5.is_None (HDF5.cell_angles args') = HDF5.is_None (HDF5.cell_angles args) ∧
  HDF5.is_None (HDF5.velocities args') = HDF5.is_None (HDF5.velocities args) ∧
  HDF5.is_None (HDF5.kineticEnergy args') = HDF5.is_None (HDF5.kineticEnergy args) ∧
  HDF5.is_None (HDF5.potentialEnergy args') = HDF5.is_None (HDF5.potentialEnergy args) ∧
  HDF5.is_None (HDF5.temperature args') = HDF5.is_None (HDF5.temperature args) ∧
  HDF5.is_None (HDF5.alchemicalLambda args') = HDF5.is_None (HDF5.alchemicalLambda args).
Proof.
  unfold HDF5.ensure_types.
  destruct (ensure_type None "coordinates" _) as [e|c]; simpl; [done|].
  destruct (HDF5.ensure_optional _ c "time" _) as [e|a1] eqn:E1; simpl; [done|].
  destruct (HDF5.ensure_optional _ c "cell_lengths" _) as [e|a2] eqn:E2; simpl; [done|].
  destruct (HDF5.ensure_optional _ c "cell_angles" _) as [e|a3] eqn:E3; simpl; [done|].
  destruct (HDF5.ensure_optional _ c "velocoties" _) as [e|a4] eqn:E4; simpl; [done|].
  destruct (HDF5.ensure_optional _ c "kineticEnergy" _) as [e|a5] eqn:E5; simpl; [done|].
  destruct (HDF5.ensure_optional _ c "potentialEnergy" _) as [e|a6] eqn:E6; simpl; [done|].
  destruct (HDF5.ensure_optional _ c "temperature" _) as [e|a7] eqn:E7; simpl; [done|].
  destruct (HDF5.ensure_optional _ c "alchemicalLambda" _) as [e|a8] eqn:E8; simpl; [done|].
  intros [= <-]. simpl.
  apply ensure_optional_inr in E1, E2, E3, E4, E5, E6, E7, E8. done.
Qed.

Lemma fields_NoDup args : NoDup (HDF5.fields args).*1.
Proof.
  simpl.
  repeat (apply NoDup_cons_2;
          [rewrite ?not_elem_of_cons; repeat split; try done; apply not_elem_of_nil|]).
  apply NoDup_nil_2.
Qed.

Lemma is_None_is_Some {A} (a b : option A) :
  HDF5.is_None a = HDF5.is_None b → (is_Some a ↔ is_Some b).
Proof. destruct a, b; simpl; try done; intros _; split; intros [? ?]; done || by eexists. Qed.

(** The field sets of the arguments before and after conversion. *)
Lemma fields_converted args args' name (contents : option Arr) :
  HDF5.ensure_types ensure_type args = inr args' →
  (name, contents) ∈ HDF5.fields args →
  ∃ contents', (name, contents') ∈ HDF5.fields args' ∧
               HDF5.is_None contents' = HDF5.is_None contents.
Proof.
  intros Hargs Hin. apply ensure_types_inr in Hargs as (E1 & E2 & E3 & E4 & E5 & E6 & E7 & E8).
  unfold HDF5.fields in *.
  apply elem_of_cons in Hin as [[= -> ->]|Hin].
  { exists (Some (HDF5.coordinates args')). split; [solve [repeat constructor]|done]. }
  apply elem_of_cons in Hin as [[= -> ->]|Hin].
  { exists (HDF5.time args'). split; [solve [repeat constructor]|done]. }
  apply elem_of_cons in Hin as [[= -> ->]|Hin].
  { exists (HDF5.cell_angles args'). split; [solve [repeat constructor]|done]. }
  apply elem_of_cons in Hin as [[= -> ->]|Hin].
  { exists (HDF5.cell_lengths args'). split; [solve [repeat constructor]|done]. }
  apply elem_of_cons in Hin as [[= -> ->]|Hin].
  { exists (HDF5.velocities args'). split; [solve [repeat constructor]|done]. }
  apply elem_of_cons in Hin as [[= -> ->]|Hin].
  { exists (HDF5.kineticEnergy args'). split; [solve [repeat constructor]|done]. }
  apply elem_of_cons in Hin as [[= -> ->]|Hin].
  { exists (HDF5.potentialEnergy args'). split; [solve [repeat constructor]|done]. }
  apply elem_of_cons in Hin as [[= -> ->]|Hin].
  { exists (HDF5.temperature args'). split; [solve [repeat constructor]|done]. }
  apply elem_of_cons in Hin as [[= -> ->]|Hin].
  { exists (HDF5.alchemicalLambda args'). split; [solve [repeat constructor]|done]. }
  by apply elem_of_nil in Hin.
Qed.

Local Abbreviation write_ :=
  (HDF5.write (HDF5.write_body earray_append ensure_type)).

Lemma write_initialised args self :
  HDF5.mode self ∈ ["w"; "a"] →
  HDF5._needs_initialization self = false →
  HDF5.is_None (HDF5.cell_lengths args) = HDF5.is_None (HDF5.cell_angles args) →
  write_ args self
  = match HDF5.ensure_types ensure_type args with
    | inl e => (inl e, self)
    | inr args' => HDF5.append_fields earray_append (HDF5.fields args') self
    end.
Proof.
  intros Hmode Hflag Hcell. unfold HDF5.write, HDF5.ensure_mode.
  rewrite decide_True by done. rewrite Hcell.
  destruct (HDF5.is_None (HDF5.cell_angles args)); cbn [andb negb];
    unfold HDF5.write_body; rewrite Hflag;
    by destruct (HDF5.ensure_types ensure_type args).
Qed.

Lemma write_inr args self self' :
  write_ args self = (inr tt, self') →
  HDF5.mode self ∈ ["w"; "a"] ∧
  HDF5.is_None (HDF5.cell_lengths args) = HDF5.is_None (HDF5.cell_angles args).
Proof.
  unfold HDF5.write, HDF5.ensure_mode. case_decide; [|done].
  destruct (HDF5.is_None (HDF5.cell_lengths args)), (HDF5.is_None (HDF5.cell_angles args));
    simpl; done.
Qed.

(** X17.  A call of [write] on a file whose headers exist succeeds only
    when the fields it is given are exactly the fields of the file: each of
    the nine fields is given if and only if the file has a node of its name.
    Each given field has then been appended to its node, and every other node
    is as before. *)
Theorem write_accepts_exactly_the_fields_of_the_file args self self' :
  HDF5._needs_initialization self = false →
  write_ args self = (inr tt, self') →
  (∀ name contents, (name, contents) ∈ HDF5.fields args →
     (is_Some contents ↔ is_Some (HDF5.nodes self !! name))) ∧
  ∃ args',
    HDF5.ensure_types ensure_type args = inr args' ∧
    (∀ name c, (name, Some c) ∈ HDF5.fields args' →
       ∃ node node',
         HDF5.nodes self !! name = Some node ∧ earray_append node c = inr node' ∧
         HDF5.nodes self' !! name = Some node') ∧
    (∀ name, (∀ c, (name, Some c) ∉ HDF5.fields args') →
       HDF5.nodes self' !! name = HDF5.nodes self !! name).
Proof.
  intros Hflag Hwrite. destruct (write_inr args self self' Hwrite) as [Hmode Hcell].
  rewrite write_initialised in Hwrite by done.
  destruct (HDF5.ensure_types ensure_type args) as [e|args'] eqn:Hargs; [done|].
  destruct (append_fields_inr _ self self' (fields_NoDup args') Hwrite)
    as (_ & _ & Hsome & Hnone & Hother).
  split.
  - intros name contents Hin.
    destruct (fields_converted args args' name contents Hargs Hin) as (contents' & Hin' & Hc).
    rewrite <- (is_None_is_Some _ _ Hc). destruct contents' as [c|].
    + destruct (Hsome name c Hin') as (node & node' & -> & _). split; by eexists.
    + destruct (Hnone name Hin') as [-> _]. done.
  - exists args'. split; [done|]. split; [done|]. intros name Hname.
    destruct (decide (name ∈ (HDF5.fields args').*1)) as [Hin|Hnin]; [|by apply Hother].
    apply list_elem_of_fmap in Hin as ([name' contents] & -> & Hin). simpl in *.
    destruct contents as [c|]; [by destruct (Hname c)|].
    destruct (Hnone name' Hin) as [-> ->]. done.
Qed.

(** X18.  Conversely, on a file open for writing whose headers exist, a
    call with consistent unit cell arguments that pass the conversion
    succeeds when every given field has a node that accepts the block and no
    field that is not given has a node. *)
Theorem write_succeeds_when_fields_match args args' self :
  HDF5.mode self ∈ ["w"; "a"] →
  HDF5._needs_initialization self = false →
  HDF5.is_None (HDF5.cell_lengths args) = HDF5.is_None (HDF5.cell_angles args) →
  HDF5.ensure_types ensure_type args = inr args' →
  (∀ name c, (name, Some c) ∈ HDF5.fields args' →
     ∃ node node', HDF5.nodes self !! name = Some node ∧ earray_append node c = inr node') →
  (∀ name, (name, None) ∈ HDF5.fields args' → HDF5.nodes self !! name = None) →
  ∃ self', write_ args self = (inr tt, self').
Proof.
  intros Hmode Hflag Hcell Hargs Hsome Hnone.
  rewrite write_initialised by done. rewrite Hargs.
  by apply append_fields_complete; [apply fields_NoDup| |].
Qed.

(** X19.  [write] is not atomic.  Whatever the outcome of a call whose
    arguments pass the checks, the block of coordinates has been appended to
    the node [coordinates]; in particular when the call gives times to a file
    without the node [time], it raises [ValueError] for the field [time]
    after the coordinates have been appended. *)
Theorem rejected_write_keeps_the_appended_coordinates args args' self
    (node node' : list Arr) :
  HDF5.mode self ∈ ["w"; "a"] →
  HDF5._needs_initialization self = false →
  HDF5.is_None (HDF5.cell_lengths args) = HDF5.is_None (HDF5.cell_angles args) →
  HDF5.ensure_types ensure_type args = inr args' →
  HDF5.nodes self !! "coordinates" = Some node →
  earray_append node (HDF5.coordinates args') = inr node' →
  HDF5.nodes (write_ args self).2 !! "coordinates" = Some node' ∧
  (is_Some (HDF5.time args') → HDF5.nodes self !! "time" = None →
   (write_ args self).1 = inl (ValueError (HDF5.no_such_field "time"))).
Proof.
  intros Hmode Hflag Hcell Hargs Hnode Happ.
  rewrite write_initialised by done. rewrite Hargs.
  unfold HDF5.fields.
  rewrite (append_fields_cons_inr "coordinates" (Some (HDF5.coordinates args')) _ self
             (HDF5.mkFile (HDF5.mode self) (HDF5._needs_initialization self)
                (<["coordinates" := node']> (HDF5.nodes self)))).
  2: { unfold HDF5.append_contents, HDF5._get_node. by rewrite Hnode, Happ. }
  split.
  - destruct (HDF5.append_fields _ _ _) as [r self'] eqn:Hrest. simpl.
    rewrite (append_fields_frame _ _ _ _ "coordinates" Hrest); simpl.
    + by rewrite lookup_insert_eq.
    + rewrite ?not_elem_of_cons. repeat split; try done. apply not_elem_of_nil.
  - intros [t Ht] Htime. rewrite Ht.
    rewrite (append_fields_cons_inl "time" (Some t) _ _ HDF5.NoSuchNodeError); [done|].
    unfold HDF5.append_contents, HDF5._get_node. cbn [HDF5.nodes].
    rewrite lookup_insert_ne by done. by rewrite Htime.
Qed.

(** X20.  A file opened in mode [a] that has no node [coordinates] can
    never be written: the constructor clears [_needs_initialization] in mode
    [a], so the headers are never created, and every call of [write] raises
    and leaves the file as it is; for arguments that pass the checks the
    exception is the [ValueError] for the missing field [coordinates]. *)
Theorem append_mode_without_coordinates_rejects_every_write
    (on_disk : gmap string (list Arr)) self :
  on_disk !! "coordinates" = None →
  HDF5.__init__ on_disk "a" = inr self →
  ∀ args, ∃ e,
    write_ args self = (inl e, self) ∧
    (HDF5.is_None (HDF5.cell_lengths args) = HDF5.is_None (HDF5.cell_angles args) →
     ∀ args', HDF5.ensure_types ensure_type args = inr args' →
       e = ValueError (HDF5.no_such_field "coordinates")).
Proof.
  intros Hnone. unfold HDF5.__init__. rewrite decide_True by set_solver.
  rewrite decide_False by done. rewrite decide_True by done. intros [= <-] args.
  destruct (decide (HDF5.is_None (HDF5.cell_lengths args)
                    = HDF5.is_None (HDF5.cell_angles args))) as [Hcell|Hcell].
  - rewrite write_initialised; [|set_solver|done|done].
    destruct (HDF5.ensure_types ensure_type args) as [e|args'] eqn:Hargs.
    + exists e. split; [done|]. by intros _ args' [=].
    + unfold HDF5.fields.
      rewrite (append_fields_cons_inl "coordinates" _ _ _ HDF5.NoSuchNodeError).
      * eexists. split; [done|]. done.
      * unfold HDF5.append_contents, HDF5._get_node. cbn [HDF5.nodes]. by rewrite Hnone.
  - unfold HDF5.write, HDF5.ensure_mode. rewrite decide_True by set_solver.
    destruct (HDF5.is_None (HDF5.cell_lengths args)), (HDF5.is_None (HDF5.cell_angles args));
      simpl; try done; by eexists.
Qed.

(** The headers that the first call creates in an empty file. *)
Local Abbreviation headers args :=
  (HDF5._initialize_headers true (negb (HDF5.is_None (HDF5.time args)))
     (negb (HDF5.is_None (HDF5.cell_lengths args)) || negb (HDF5.is_None (HDF5.cell_angles args)))
     (negb (HDF5.is_None (HDF5.velocities args))) (negb (HDF5.is_None (HDF5.kineticEnergy args)))
     (negb (HDF5.is_None (HDF5.potentialEnergy args))) (negb (HDF5.is_None (HDF5.temperature args)))
     (negb (HDF5.is_None (HDF5.alchemicalLambda args))) (HDF5.mkFile (Arr:=Arr) "w" true ∅)).

Lemma headers_of_fields args name (contents : option Arr) :
  HDF5.is_None (HDF5.cell_lengths args) = HDF5.is_None (HDF5.cell_angles args) →
  (name, contents) ∈ HDF5.fields args →
  HDF5.nodes (headers args) !! name = if HDF5.is_None contents then None else Some (@nil Arr).
Proof.
  destruct args as [c t cl ca v ke pe te la]. unfold HDF5.fields. cbn -[elem_of lookup insert].
  intros Hcell Hin.
  destruct t, cl, ca, v, ke, pe, te, la; try discriminate Hcell;
    repeat (apply elem_of_cons in Hin as [[= -> ->]|Hin]; [vm_compute; reflexivity|]);
    by apply elem_of_nil in Hin.
Qed.

Lemma headers_of_other_names args name :
  name ∉ (HDF5.fields args).*1 → HDF5.nodes (headers args) !! name = None.
Proof.
  destruct args as [c t cl ca v ke pe te la]. cbn -[elem_of lookup insert].
  rewrite !not_elem_of_cons. intros (? & ? & ? & ? & ? & ? & ? & ? & ? & _).
  destruct t, cl, ca, v, ke, pe, te, la; cbn -[lookup insert];
    rewrite ?lookup_insert_ne by done; apply lookup_empty.
Qed.

Lemma headers_mode args : HDF5.mode (headers args) = "w".
Proof.
  destruct args as [c t cl ca v ke pe te la].
  by destruct t, cl, ca, v, ke, pe, te, la.
Qed.

(** X21.  The first call of [write] on a file opened in mode [w], with
    arguments that pass the checks, creates the headers and succeeds: the
    file then has one node for each field given, holding the one block
    written, no node for a field not given, and [_needs_initialization] is
    cleared. *)
Theorem first_write_creates_the_fields (on_disk : gmap string (list Arr)) args args' self :
  HDF5.__init__ on_disk "w" = inr self →
  HDF5.is_None (HDF5.cell_lengths args) = HDF5.is_None (HDF5.cell_angles args) →
  HDF5.ensure_types ensure_type args = inr args' →
  (∀ c, earray_append [] c = inr [c]) →
  ∃ self',
    write_ args self = (inr tt, self') ∧
    HDF5.mode self' = "w" ∧
    HDF5._needs_initialization self' = false ∧
    (∀ name contents, (name, contents) ∈ HDF5.fields args' →
       HDF5.nodes self' !! name = (fun c => [c]) <$> contents) ∧
    (∀ name, name ∉ (HDF5.fields args').*1 → HDF5.nodes self' !! name = None).
Proof.
  intros Hinit Hcell Hargs Happ.
  unfold HDF5.__init__ in Hinit. rewrite decide_True in Hinit by (by repeat constructor).
  rewrite decide_True in Hinit by done. injection Hinit as <-.
  assert (Hcell' : HDF5.is_None (HDF5.cell_lengths args')
                   = HDF5.is_None (HDF5.cell_angles args')).
  { destruct (ensure_types_inr args args' Hargs) as (_ & -> & -> & _). done. }
  assert (Hwrite : write_ args (HDF5.mkFile "w" true ∅)
    = HDF5.append_fields earray_append (HDF5.fields args')
        (HDF5.mkFile (HDF5.mode (headers args')) false (HDF5.nodes (headers args')))).
  { unfold HDF5.write, HDF5.ensure_mode. rewrite decide_True by (by repeat constructor).
    rewrite Hcell. destruct (HDF5.is_None (HDF5.cell_angles args)); cbn [andb negb];
      unfold HDF5.write_body; by rewrite Hargs. }
  rewrite Hwrite.
  destruct (append_fields_complete (HDF5.fields args')
              (HDF5.mkFile (HDF5.mode (headers args')) false (HDF5.nodes (headers args'))))
    as [self' Hrun].
  { apply fields_NoDup. }
  { intros name c Hin. cbn [HDF5.nodes]. rewrite (headers_of_fields args' name (Some c)) by done.
    simpl. by exists [], [c]. }
  { intros name Hin. cbn [HDF5.nodes]. by rewrite (headers_of_fields args' name None). }
  exists self'. split; [done|].
  destruct (append_fields_inr _ _ self' (fields_NoDup args') Hrun)
    as (Hmode & Hflag & Hsome & Hnone & Hother).
  split; [by rewrite Hmode; apply headers_mode|]. split; [done|]. split.
  - intros name [c|] Hin.
    + destruct (Hsome name c Hin) as (node & node' & Hnode & Hnode' & ->).
      cbn [HDF5.nodes] in Hnode. rewrite (headers_of_fields args' name (Some c)) in Hnode by done.
      simpl in Hnode. injection Hnode as <-. rewrite Happ in Hnode'. by injection Hnode' as <-.
    + by destruct (Hnone name Hin) as [_ ->].
  - intros name Hnin. rewrite (Hother name Hnin). cbn [HDF5.nodes].
    by apply headers_of_other_names.
Qed.

End TrajectoryAppend.

Lemma write_accepts_exactly_the_fields_of_the_file_witness :
  (∀ name contents, (name, contents) ∈ HDF5.fields Examples.bare →
     (is_Some contents ↔ is_Some (HDF5.nodes Examples.after_bare !! name))) ∧
  ∃ args',
    HDF5.ensure_types Examples.as_given Examples.bare = inr args' ∧
    (∀ name c, (name, Some c) ∈ HDF5.fields args' →
       ∃ node node',
         HDF5.nodes Examples.after_bare !! name = Some node ∧
         Examples.append_block node c = inr node' ∧
         HDF5.nodes
           (HDF5.write (HDF5.write_body Examples.append_block Examples.as_given)
              Examples.bare Examples.after_bare).2 !! name = Some node') ∧
    (∀ name, (∀ c, (name, Some c) ∉ HDF5.fields args') →
       HDF5.nodes
         (HDF5.write (HDF5.write_body Examples.append_block Examples.as_given)
            Examples.bare Examples.after_bare).2 !! name
       = HDF5.nodes Examples.after_bare !! name).
Proof.
  apply (write_accepts_exactly_the_fields_of_the_file Examples.append_block Examples.as_given
           Examples.bare Examples.after_bare).
  - reflexivity.
  - vm_compute. reflexivity.
Defined.

Lemma write_succeeds_when_fields_match_witness :
  ∃ self',
    HDF5.write (HDF5.write_body Examples.append_block Examples.as_given)
      Examples.bare Examples.after_bare = (inr tt, self').
Proof.
  apply (write_succeeds_when_fields_match Examples.append_block Examples.as_given
           Examples.bare Examples.bare Examples.after_bare).
  - apply elem_of_cons. left. reflexivity.
  - reflexivity.
  - reflexivity.
  - reflexivity.
  - intros name c Hin. unfold HDF5.fields, Examples.bare in Hin. simpl in Hin.
    repeat (apply elem_of_cons in Hin as [Heq|Hin];
            [first [discriminate Heq
                   |injection Heq as -> ->; eexists _, _; split; vm_compute; reflexivity]|]).
    by apply elem_of_nil in Hin.
  - intros name Hin. unfold HDF5.fields, Examples.bare in Hin. simpl in Hin.
    repeat (apply elem_of_cons in Hin as [Heq|Hin];
            [first [discriminate Heq|injection Heq as ->; vm_compute; reflexivity]|]).
    by apply elem_of_nil in Hin.
Defined.

Lemma rejected_write_keeps_the_appended_coordinates_witness :
  HDF5.nodes
    (HDF5.write (HDF5.write_body Examples.append_block Examples.as_given)
       Examples.timed Examples.after_bare).2 !! "coordinates"
  = Some [[1%Z; 2%Z; 3%Z]; [4%Z; 5%Z; 6%Z]] ∧
  (is_Some (HDF5.time Examples.timed) →
   HDF5.nodes Examples.after_bare !! "time" = None →
   (HDF5.write (HDF5.write_body Examples.append_block Examples.as_given)
      Examples.timed Examples.after_bare).1
   = inl (ValueError (HDF5.no_such_field "time"))).
Proof.
  apply (rejected_write_keeps_the_appended_coordinates Examples.append_block Examples.as_given
           Examples.timed Examples.timed Examples.after_bare [[1%Z; 2%Z; 3%Z]]).
  - apply elem_of_cons. left. reflexivity.
  - reflexivity.
  - reflexivity.
  - reflexivity.
  - vm_compute. reflexivity.
  - reflexivity.
Defined.

Lemma append_mode_without_coordinates_rejects_every_write_witness :
  ∃ e,
    HDF5.write (HDF5.write_body Examples.append_block Examples.as_given) Examples.timed
      (HDF5.mkFile "a" false ∅)
    = (inl e, HDF5.mkFile "a" false ∅) ∧
    (HDF5.is_None (HDF5.cell_lengths Examples.timed)
     = HDF5.is_None (HDF5.cell_angles Examples.timed) →
     ∀ args', HDF5.ensure_types Examples.as_given Examples.timed = inr args' →
       e = ValueError (HDF5.no_such_field "coordinates")).
Proof.
  apply (append_mode_without_coordinates_rejects_every_write Examples.append_block
           Examples.as_given ∅ (HDF5.mkFile "a" false ∅)).
  - apply lookup_empty.
  - vm_compute. reflexivity.
Defined.

Lemma first_write_creates_the_fields_witness :
  ∃ self',
    HDF5.write (HDF5.write_body Examples.append_block Examples.as_given)
      Examples.timed Examples.trajectory = (inr tt, self') ∧
    HDF5.mode self' = "w" ∧
    HDF5._needs_initialization self' = false ∧
    (∀ name contents, (name, contents) ∈ HDF5.fields Examples.timed →
       HDF5.nodes self' !! name = (fun c => [c]) <$> contents) ∧
    (∀ name, name ∉ (HDF5.fields Examples.timed).*1 → HDF5.nodes self' !! name = None).
Proof.
  apply (first_write_creates_the_fields Examples.append_block Examples.as_given ∅
           Examples.timed Examples.timed Examples.trajectory).
  - vm_compute. reflexivity.
  - reflexivity.
  - reflexivity.
  - reflexivity.
Defined.
